(** * Shallow embedding of the COVID-19 hospitalization dashboard pipeline
    (src/main.py): preprocessing, canonical slice, filters, default-state
    restriction, the two aggregations and the loader.

    A pandas DataFrame is modelled as a list of column labels together with
    a list of rows; a row maps column labels to cell values (an association
    list, first match wins).  Cells are strings, integers, floats (as
    rationals: float64 rounding is abstracted away), timestamps or the
    missing value (NaN / NaT / None).  Operations that raise in Python
    return [None] (or an [Err]). *)

From Stdlib Require Import String Ascii ZArith QArith List Bool Lia
  Permutation Sorted.
Import ListNotations.
Open Scope string_scope.
Open Scope Z_scope.

(* ------------------------------------------------------------------ *)
(** ** Cell values *)

Record date := mkDate { year : Z; month : Z; day : Z }.

Inductive value :=
| VStr (s : string)
| VInt (z : Z)
| VFloat (q : Q)
| VDate (d : date)
| VNull.

Definition date_eqb (a b : date) : bool :=
  Z.eqb (year a) (year b) && Z.eqb (month a) (month b) && Z.eqb (day a) (day b).

(** Chronological order on timestamps (all at midnight). *)
Definition date_leb (a b : date) : bool :=
  Z.ltb (year a) (year b)
  || (Z.eqb (year a) (year b)
      && (Z.ltb (month a) (month b)
          || (Z.eqb (month a) (month b) && Z.leb (day a) (day b)))).

(** Element-wise [==] of pandas: numbers compare by value across int and
    float, a missing value is equal to nothing (NaN != NaN, NaT != NaT). *)
Definition value_eqb (a b : value) : bool :=
  match a, b with
  | VStr x, VStr y => String.eqb x y
  | VInt x, VInt y => Z.eqb x y
  | VInt x, VFloat y => Qeq_bool (inject_Z x) y
  | VFloat x, VInt y => Qeq_bool x (inject_Z y)
  | VFloat x, VFloat y => Qeq_bool x y
  | VDate x, VDate y => date_eqb x y
  | _, _ => false
  end.

Definition is_null (v : value) : bool :=
  match v with VNull => true | _ => false end.

Definition is_numeric (v : value) : bool :=
  match v with VInt _ | VFloat _ => true | _ => false end.

Definition to_Q (v : value) : Q :=
  match v with VInt z => inject_Z z | VFloat q => q | _ => 0%Q end.

(** [Series.isin(vals)]: hash-based membership, under which NaN matches NaN. *)
Definition isin (v : value) (vals : list value) : bool :=
  if is_null v then existsb is_null vals else existsb (value_eqb v) vals.

(* ------------------------------------------------------------------ *)
(** ** Python string methods on 8-bit (Latin-1) strings *)

Definition is_ws (c : ascii) : bool :=
  let n := nat_of_ascii c in
  ((9 <=? n) && (n <=? 13))%nat || ((28 <=? n) && (n <=? 32))%nat
  || (n =? 133)%nat || (n =? 160)%nat.

(** [str.lower] on one character. *)
Definition lower_char (c : ascii) : ascii :=
  let n := nat_of_ascii c in
  if ((65 <=? n) && (n <=? 90))%nat
     || ((192 <=? n) && (n <=? 222) && negb (n =? 215))%nat
  then ascii_of_nat (n + 32) else c.

Fixpoint map_str (f : ascii -> ascii) (s : string) : string :=
  match s with
  | EmptyString => EmptyString
  | String c r => String (f c) (map_str f r)
  end.

Fixpoint lstrip (s : string) : string :=
  match s with
  | EmptyString => EmptyString
  | String c r => if is_ws c then lstrip r else s
  end.

Fixpoint rstrip (s : string) : string :=
  match s with
  | EmptyString => EmptyString
  | String c r =>
      match rstrip r with
      | EmptyString => if is_ws c then EmptyString else String c EmptyString
      | r' => String c r'
      end
  end.

(** [str.strip()] *)
Definition strip (s : string) : string := rstrip (lstrip s).

(** [str.lower()] *)
Definition str_lower (s : string) : string := map_str lower_char s.

(** [str.replace(" ", "_")] *)
Definition replace_space (s : string) : string :=
  map_str (fun c => if Ascii.eqb c " "%char then "_"%char else c) s.

(** [str.zfill(width)] *)
Definition zfill (width : nat) (s : string) : string :=
  let n := String.length s in
  if (width <=? n)%nat then s
  else
    let pad := String.concat "" (repeat "0" (width - n)) in
    match s with
    | String c r =>
        if Ascii.eqb c "+"%char || Ascii.eqb c "-"%char
        then String c (pad ++ r) else pad ++ s
    | EmptyString => pad
    end.

(** [re.sub(r"\.0$", "", s)]: [$] matches at the end of the string and
    just before a final newline. *)
Definition strip_dot0 (s : string) : string :=
  match rev (list_ascii_of_string s) with
  | c0 :: c1 :: t =>
      if Ascii.eqb c0 "0"%char && Ascii.eqb c1 "."%char
      then string_of_list_ascii (rev t)
      else match t with
           | c2 :: t' =>
               if Ascii.eqb c0 "010"%char && Ascii.eqb c1 "0"%char
                  && Ascii.eqb c2 "."%char
               then string_of_list_ascii (rev (c0 :: t'))
               else s
           | [] => s
           end
  | _ => s
  end.

(* ------------------------------------------------------------------ *)
(** ** Conversions: [astype(str)], [to_datetime(format="%Y%m%d")],
    [to_numeric] *)

Definition digit_char (k : Z) : ascii := ascii_of_nat (48 + Z.to_nat k).

Fixpoint nat_digits (fuel : nat) (n : Z) (acc : string) : string :=
  match fuel with
  | O => acc
  | S f =>
      let acc' := String (digit_char (n mod 10)) acc in
      if n <? 10 then acc' else nat_digits f (n / 10) acc'
  end.

(** Decimal notation of a non-negative integer. *)
Definition string_of_nonneg (n : Z) : string :=
  nat_digits (S (Z.to_nat (Z.log2 n))) n "".

Definition string_of_Z (z : Z) : string :=
  if z <? 0 then "-" ++ string_of_nonneg (- z) else string_of_nonneg z.

Fixpoint frac_digits (fuel : nat) (r : Z) (d : Z) : string :=
  match fuel with
  | O => ""
  | S f =>
      if r =? 0 then ""
      else String (digit_char ((10 * r) / d)) (frac_digits f ((10 * r) mod d) d)
  end.

(** [repr] of a float: integral values print with a trailing [.0]. *)
Definition float_repr (q : Q) : string :=
  let n := Qnum q in
  let d := Zpos (Qden q) in
  let a := Z.abs n in
  (if n <? 0 then "-" else "") ++ string_of_nonneg (a / d) ++ "."
  ++ (if a mod d =? 0 then "0" else frac_digits 17 (a mod d) d).

Definition pad2 (z : Z) : string :=
  if z <? 10 then "0" ++ string_of_Z z else string_of_Z z.

Definition date_repr (d : date) : string :=
  string_of_Z (year d) ++ "-" ++ pad2 (month d) ++ "-" ++ pad2 (day d).

(** [Series.astype(str)] on one cell. *)
Definition astype_str (v : value) : string :=
  match v with
  | VStr s => s
  | VInt z => string_of_Z z
  | VFloat q => float_repr q
  | VDate d => date_repr d
  | VNull => "nan"
  end.

Definition is_digit (c : ascii) : bool :=
  ((48 <=? nat_of_ascii c) && (nat_of_ascii c <=? 57))%nat.

Definition digit_value (c : ascii) : Z := Z.of_nat (nat_of_ascii c - 48).

Definition digits_to_Z (l : list ascii) : Z :=
  fold_left (fun acc c => 10 * acc + digit_value c) l 0.

Definition leap_year (y : Z) : bool :=
  (Z.eqb (y mod 4) 0 && negb (Z.eqb (y mod 100) 0)) || Z.eqb (y mod 400) 0.

Definition days_in_month (y m : Z) : Z :=
  if Z.eqb m 2 then (if leap_year y then 29 else 28)
  else if Z.eqb m 4 || Z.eqb m 6 || Z.eqb m 9 || Z.eqb m 11 then 30
  else 31.

Definition valid_date (d : date) : bool :=
  (1 <=? month d) && (month d <=? 12)
  && (1 <=? day d) && (day d <=? days_in_month (year d) (month d)).

(** Range of a nanosecond pandas [Timestamp] at day granularity:
    1677-09-22 .. 2262-04-11; other dates are coerced to NaT. *)
Definition timestamp_in_bounds (d : date) : bool :=
  date_leb (mkDate 1677 9 22) d && date_leb d (mkDate 2262 4 11).

(** [pd.to_datetime(s, format="%Y%m%d", errors="coerce")] on one string:
    exactly four year digits, two month digits and two day digits. *)
Definition parse_ymd (s : string) : option date :=
  match list_ascii_of_string s with
  | [y1; y2; y3; y4; m1; m2; d1; d2] =>
      if forallb is_digit [y1; y2; y3; y4; m1; m2; d1; d2] then
        let dt := mkDate (digits_to_Z [y1; y2; y3; y4])
                         (digits_to_Z [m1; m2]) (digits_to_Z [d1; d2]) in
        if valid_date dt && timestamp_in_bounds dt then Some dt else None
      else None
  | _ => None
  end.

Fixpoint take_digits (l : list ascii) : list ascii * list ascii :=
  match l with
  | c :: t =>
      if is_digit c then let (ds, rest) := take_digits t in (c :: ds, rest)
      else ([], l)
  | [] => ([], [])
  end.

(** Unsigned decimal literal: [ddd], [ddd.], [ddd.ddd] or [.ddd]. *)
Definition parse_unsigned (l : list ascii) : option value :=
  let (ip, rest) := take_digits l in
  match rest with
  | [] => match ip with [] => None | _ => Some (VInt (digits_to_Z ip)) end
  | c :: t =>
      if Ascii.eqb c "."%char then
        let (fp, rest2) := take_digits t in
        match rest2, ip, fp with
        | _ :: _, _, _ => None
        | [], [], [] => None
        | [], _, _ =>
            Some (VFloat (Qmake (digits_to_Z (ip ++ fp)%list)
                                (Z.to_pos (10 ^ Z.of_nat (length fp)))))
        end
      else None
  end.

Definition negate_value (v : value) : value :=
  match v with
  | VInt z => VInt (- z)
  | VFloat q => VFloat (- q)
  | v => v
  end.

(** String-to-number conversion of [pd.to_numeric(errors="coerce")]
    (surrounding whitespace allowed; exponents, [inf] are not modelled). *)
Definition parse_number (s : string) : option value :=
  match list_ascii_of_string (strip s) with
  | "-"%char :: t => option_map negate_value (parse_unsigned t)
  | "+"%char :: t => parse_unsigned t
  | l => parse_unsigned l
  end.

(** [pd.to_numeric(errors="coerce")] on one cell. *)
Definition to_numeric (v : value) : value :=
  match v with
  | VInt _ | VFloat _ => v
  | VStr s => match parse_number s with Some n => n | None => VNull end
  | VDate _ | VNull => VNull
  end.

(* ------------------------------------------------------------------ *)
(** ** Data frames *)

Definition row := list (string * value).

Record frame := mkFrame { columns : list string; rows : list row }.

(** [row[c]]: the cell of column [c], missing when the row has none. *)
Fixpoint get (c : string) (r : row) : value :=
  match r with
  | [] => VNull
  | (k, v) :: t => if String.eqb k c then v else get c t
  end.

Definition has_key (c : string) (r : row) : bool :=
  existsb (fun kv => String.eqb (fst kv) c) r.

(** [df[c] = ...] on one row: every cell labelled [c] is overwritten, a
    new column is appended when there is none. *)
Definition set_cell (c : string) (v : value) (r : row) : row :=
  if has_key c r
  then map (fun kv => if String.eqb (fst kv) c then (c, v) else kv) r
  else (r ++ [(c, v)])%list.

Definition add_column (c : string) (cols : list string) : list string :=
  if existsb (String.eqb c) cols then cols else (cols ++ [c])%list.

Definition count_col (c : string) (cols : list string) : nat :=
  count_occ string_dec cols c.

Definition has_column (c : string) (cols : list string) : bool :=
  existsb (String.eqb c) cols.

(** [df.empty]: no row or no column. *)
Definition frame_empty (df : frame) : bool :=
  match rows df, columns df with
  | [], _ | _, [] => true
  | _, _ => false
  end.

(** [df.dropna(subset=[c])] *)
Definition dropna (c : string) (rs : list row) : list row :=
  filter (fun r => negb (is_null (get c r))) rs.

(* ------------------------------------------------------------------ *)
(** ** [preprocess] (src/main.py, lines 90-116) *)

Definition COLUMN_RENAME_MAP : list (string * string) :=
  [("monthlyrate", "hospitalization_rate")].

(** [c.strip().lower().replace(" ", "_")] *)
Definition normalize_column (c : string) : string :=
  replace_space (str_lower (strip c)).

(** [rename(columns=COLUMN_RENAME_MAP)] on one label. *)
Definition rename_column (c : string) : string :=
  match find (fun p => String.eqb (fst p) c) COLUMN_RENAME_MAP with
  | Some (_, c') => c'
  | None => c
  end.

Definition clean_label (c : string) : string :=
  rename_column (normalize_column c).

Definition clean_row (r : row) : row :=
  map (fun kv => (clean_label (fst kv), snd kv)) r.

(** [astype(str).str.replace(r"\.0$", "", regex=True).str.zfill(6)] *)
Definition clean_yearmonth (v : value) : string :=
  zfill 6 (strip_dot0 (astype_str v)).

Definition to_datetime_ymd (s : string) : value :=
  match parse_ymd s with Some d => VDate d | None => VNull end.

(** Lines 97-106 on one row. *)
Definition parse_date_row (r : row) : row :=
  let ym := clean_yearmonth (get "_yearmonth" r) in
  let r1 := set_cell "_yearmonth" (VStr ym) r in
  set_cell "date" (to_datetime_ymd (ym ++ "01")) r1.

(** Lines 111-113 on one row. *)
Definition coerce_rate_row (r : row) : row :=
  set_cell "hospitalization_rate"
    (to_numeric (get "hospitalization_rate" r)) r.

(** Lines 92-107: normalized labels, parsed dates, rows without a date
    dropped. *)
Definition date_stage (df : frame) : frame :=
  let cols := map clean_label (columns df) in
  mkFrame (add_column "date" cols)
          (dropna "date" (map parse_date_row (map clean_row (rows df)))).

(** [cleaned["_yearmonth"]] raises [KeyError] when the column is absent and
    fails on the [.str] accessor when the label is duplicated;
    [pd.to_numeric] fails on a duplicated rate column. *)
Definition preprocess (df : frame) : option frame :=
  let cols := map clean_label (columns df) in
  if Nat.eqb (count_col "_yearmonth" cols) 1 then
    let dated := date_stage df in
    match count_col "hospitalization_rate" cols with
    | O => Some dated
    | 1%nat =>
        Some (mkFrame (columns dated)
                (dropna "hospitalization_rate"
                   (map coerce_rate_row (rows dated))))
    | _ => None
    end
  else None.

(* ------------------------------------------------------------------ *)
(** ** Generic helpers: stable insertion sort, [unique], total orders *)

Fixpoint insert_by {A} (le : A -> A -> bool) (x : A) (l : list A) : list A :=
  match l with
  | [] => [x]
  | y :: t => if le x y then x :: l else y :: insert_by le x t
  end.

Definition sort_by {A} (le : A -> A -> bool) (l : list A) : list A :=
  fold_right (insert_by le) [] l.

(** Hash-table key equality of pandas ([unique], [isin], [groupby]):
    like [==] except that missing values coincide. *)
Definition value_same (a b : value) : bool :=
  if is_null a then is_null b else value_eqb a b.

Definition unique_by {A} (same : A -> A -> bool) (l : list A) : list A :=
  fold_left (fun acc v => if existsb (same v) acc then acc
                          else (acc ++ [v])%list) l [].

(** [Series.unique()]: first occurrences, in order of appearance. *)
Definition unique (l : list value) : list value := unique_by value_same l.

Definition value_rank (v : value) : nat :=
  match v with
  | VStr _ => 0 | VInt _ | VFloat _ => 1 | VDate _ => 2 | VNull => 3
  end.

(** Order used by pandas sorting on keys of one kind (strings by code
    point, numbers by value, timestamps chronologically). *)
Definition value_leb (a b : value) : bool :=
  match a, b with
  | VStr x, VStr y => String.leb x y
  | (VInt _ | VFloat _), (VInt _ | VFloat _) => Qle_bool (to_Q a) (to_Q b)
  | VDate x, VDate y => date_leb x y
  | _, _ => (value_rank a <=? value_rank b)%nat
  end.

(** Python's [sorted] on a list of cells: strings or numbers sort,
    comparing a string with anything else raises [TypeError]; lists mixing
    numbers with missing values or timestamps are outside the model and
    are treated as failing too. *)
Definition py_sorted (l : list value) : option (list value) :=
  match l with
  | [] | [_] => Some l
  | _ =>
      if forallb (fun v => match v with VStr _ => true | _ => false end) l
         || forallb is_numeric l
      then Some (sort_by value_leb l) else None
  end.

(* ------------------------------------------------------------------ *)
(** ** [canonical_slice] (src/main.py, lines 137-151) *)

Fixpoint contains (pat s : string) : bool :=
  String.prefix pat s
  || match s with EmptyString => false | String _ r => contains pat r end.

(** [Series.str.contains(pat, na=False)] on one cell. *)
Definition str_contains (pat : string) (v : value) : bool :=
  match v with VStr s => contains pat s | _ => false end.

Definition CANONICAL_COLUMNS : list string :=
  ["sex_label"; "race_label"; "agecategory_legend"; "type"].

Definition canonical_row (r : row) : bool :=
  value_eqb (get "sex_label" r) (VStr "All")
  && value_eqb (get "race_label" r) (VStr "All")
  && value_eqb (get "agecategory_legend" r) (VStr "All")
  && str_contains "Crude" (get "type" r).

(** The [.str] accessor of [df["type"]] raises [AttributeError] unless
    the column holds strings: pandas refuses an int64, float64 or
    datetime64 column, and an object column whose non-missing cells are
    all numbers or all timestamps.  A column with no non-missing cell is
    float64 as [read_csv] reads it (a frame without rows, as read from a
    header-only file, has object columns). *)
Definition str_accessor_ok (vs : list value) : bool :=
  match vs with
  | [] => true
  | _ :: _ =>
      match filter (fun v => negb (is_null v)) vs with
      | [] => false
      | nn => negb (forallb is_numeric nn
                    || forallb (fun v => match v with VDate _ => true | _ => false end) nn)
      end
  end.

Definition canonical_slice (df : frame) : option frame :=
  if negb (forallb (fun c => has_column c (columns df)) CANONICAL_COLUMNS)
  then Some (mkFrame (columns df) [])               (* df.iloc[0:0] *)
  else if str_accessor_ok (map (get "type") (rows df))
  then Some (mkFrame (columns df) (filter canonical_row (rows df)))
  else None.

(* ------------------------------------------------------------------ *)
(** ** [apply_filters] (src/main.py, lines 213-222) *)

(** [Dict[str, List[str]]] in insertion order. *)
Definition selections := list (string * list string).

Definition in_date_range (lo hi : date) (v : value) : bool :=
  match v with VDate d => date_leb lo d && date_leb d hi | _ => false end.

(** The loop [for col, vals in selections.items()]; [filtered[col]]
    raises [KeyError] for an unknown column. *)
Fixpoint filter_dims (cols : list string) (sel : selections) (rs : list row)
  : option (list row) :=
  match sel with
  | [] => Some rs
  | (c, vals) :: rest =>
      match vals with
      | [] => filter_dims cols rest rs
      | _ :: _ =>
          if has_column c cols
          then filter_dims cols rest
                 (filter (fun r => isin (get c r) (map VStr vals)) rs)
          else None
      end
  end.

(** [df["date"] >= date_range[0]] compares a datetime64 column cell by
    cell, NaT giving False; a column holding a non-missing cell that is not
    a timestamp is not datetime64, and comparing it with a [datetime]
    raises [TypeError]. *)
Definition date_column_ok (rs : list row) : bool :=
  forallb (fun r => match get "date" r with VDate _ | VNull => true | _ => false end) rs.

Definition apply_filters (df : frame) (date_range : date * date)
    (sel : selections) : option frame :=
  if has_column "date" (columns df) && date_column_ok (rows df) then
    let filtered :=
      filter (fun r => in_date_range (fst date_range) (snd date_range)
                                     (get "date" r)) (rows df) in
    option_map (mkFrame (columns df)) (filter_dims (columns df) sel filtered)
  else None.

(* ------------------------------------------------------------------ *)
(** ** [restrict_initial_states] (src/main.py, lines 69 and 228-240) *)

Definition DEFAULT_STATES : list string := ["COVID-NET"; "New York"; "California"].

(** [selections.get(c)], absent keys giving an empty (falsy) list. *)
Definition sel_get (c : string) (sel : selections) : list string :=
  match find (fun p => String.eqb (fst p) c) sel with
  | Some (_, vals) => vals
  | None => []
  end.

Definition restrict_initial_states (df : frame) (sel : selections)
  : option frame :=
  match sel_get "state" sel with
  | _ :: _ => Some df
  | [] =>
      if frame_empty df then Some df
      else if negb (has_column "state" (columns df)) then None
      else
        let states := unique (map (get "state") (rows df)) in
        let available :=
          filter (fun s => existsb (value_eqb (VStr s)) states) DEFAULT_STATES in
        let chosen :=
          match available with
          | [] => option_map (firstn 3) (py_sorted states)
          | _ :: _ => Some (map VStr available)
          end in
        match chosen with
        | Some ch =>
            Some (mkFrame (columns df)
                    (filter (fun r => isin (get "state" r) ch) (rows df)))
        | None => None
        end
  end.

(* ------------------------------------------------------------------ *)
(** ** Aggregations (src/main.py, lines 243-254 and 274-289) *)

Fixpoint mapM {A B} (f : A -> option B) (l : list A) : option (list B) :=
  match l with
  | [] => Some []
  | x :: t =>
      match f x with
      | Some y => option_map (cons y) (mapM f t)
      | None => None
      end
  end.

Definition Qsum (l : list Q) : Q := fold_right Qplus 0%Q l.

(** [["hospitalization_rate"].mean()] of one group: missing values are
    skipped, an all-missing group gives NaN, a non-numeric cell makes the
    aggregation raise. *)
Definition group_mean (rs : list row) : option value :=
  let vs := filter (fun v => negb (is_null v))
                   (map (get "hospitalization_rate") rs) in
  if forallb is_numeric vs then
    Some (match vs with
          | [] => VNull
          | _ :: _ =>
              VFloat (Qsum (map to_Q vs) / inject_Z (Z.of_nat (length vs)))
          end)
  else None.

(** [groupby(key, sort=True)[...].mean()]: groups with a missing key are
    dropped, groups come out in key order. *)
Definition groupby_mean {K} (key : row -> K) (same le : K -> K -> bool)
    (present : K -> bool) (rs : list row) : option (list (K * value)) :=
  let ks := sort_by le (unique_by same (filter present (map key rs))) in
  mapM (fun k => option_map (pair k)
                   (group_mean (filter (fun r => same (key r) k) rs))) ks.

Definition ts_key (r : row) : value * value := (get "state" r, get "date" r).

Definition key_same (a b : value * value) : bool :=
  value_same (fst a) (fst b) && value_same (snd a) (snd b).

Definition key_leb (a b : value * value) : bool :=
  if value_same (fst a) (fst b) then value_leb (snd a) (snd b)
  else value_leb (fst a) (fst b).

Definition key_present (k : value * value) : bool :=
  negb (is_null (fst k)) && negb (is_null (snd k)).

Definition TS_COLUMNS : list string := ["state"; "date"; "hospitalization_rate"].

Definition date_row_leb (a b : row) : bool :=
  value_leb (get "date" a) (get "date" b).

Definition aggregate_for_time_series (base_df : frame) : option frame :=
  if frame_empty base_df then Some base_df
  else if forallb (fun c => has_column c (columns base_df)) TS_COLUMNS then
    match groupby_mean ts_key key_same key_leb key_present (rows base_df) with
    | Some groups =>
        let out := map (fun km => [("state", fst (fst km)); ("date", snd (fst km));
                                  ("hospitalization_rate", snd km)]) groups in
        (* [.sort_values("date")]; the order of equal dates is not
           specified by pandas, the model keeps the groupby order *)
        Some (mkFrame TS_COLUMNS (sort_by date_row_leb out))
    | None => None
    end
  else None.

Definition max_step (acc : option value) (v : value) : option value :=
  if is_null v then acc
  else match acc with
       | None => Some v
       | Some m => if value_leb m v then Some v else Some m
       end.

Definition min_step (acc : option value) (v : value) : option value :=
  if is_null v then acc
  else match acc with
       | None => Some v
       | Some m => if value_leb v m then Some v else Some m
       end.

(** [Series.max()] (line 281) and [Series.min()]; [render_sidebar] takes
    the slider's bounds from [df["date"].min()] and [.max()] (lines
    166-167).  Missing values are skipped, NaT when nothing is left. *)
Definition max_value (vs : list value) : option value := fold_left max_step vs None.
Definition min_value (vs : list value) : option value := fold_left min_step vs None.

Definition MAP_COLUMNS : list string := ["state"; "hospitalization_rate"].

Definition aggregate_for_map (base_df : frame) : option frame :=
  if frame_empty base_df then Some base_df
  else if negb (has_column "date" (columns base_df)) then None
  else
    let latest :=
      match max_value (map (get "date") (rows base_df)) with
      | Some latest_date =>
          filter (fun r => value_eqb (get "date" r) latest_date) (rows base_df)
      | None => []
      end in
    match latest with
    | [] => Some (mkFrame (columns base_df) [])
    | _ :: _ =>
        if has_column "state" (columns base_df)
           && has_column "hospitalization_rate" (columns base_df) then
          match groupby_mean (get "state") value_same value_leb
                  (fun v => negb (is_null v)) latest with
          | Some groups =>
              Some (mkFrame MAP_COLUMNS
                      (map (fun sm => [("state", fst sm);
                                       ("hospitalization_rate", snd sm)]) groups))
          | None => None
          end
        else None
    end.

(* ------------------------------------------------------------------ *)
(** ** Loader: [fetch_remote_data] and [get_data] (src/main.py, lines 75-131) *)

(** What escapes a Python call: an [Exception] subclass, or a
    [BaseException] that is not one (KeyboardInterrupt, SystemExit). *)
Inductive raised := RaisedException | RaisedBaseException.

(** Outcome of [pd.read_csv] on the remote URL or on the local file. *)
Inductive read_outcome :=
| ReadOk (raw : frame)
| ReadRaised (e : raised).

(** Errors that reach the caller of [get_data]. *)
Inductive py_error :=
| ErrUncaught (e : raised)
| ErrPreprocess.

Inductive result (A : Type) :=
| Ok (a : A)
| Err (e : py_error).
Arguments Ok {A} a.
Arguments Err {A} e.

(** [try: return pd.read_csv(DATA_URL) except Exception: return None] *)
Definition fetch_remote_data (remote : read_outcome) : result (option frame) :=
  match remote with
  | ReadOk raw => Ok (Some raw)
  | ReadRaised RaisedException => Ok None
  | ReadRaised RaisedBaseException => Err (ErrUncaught RaisedBaseException)
  end.

Definition run_preprocess (raw : frame) : result frame :=
  match preprocess raw with Some df => Ok df | None => Err ErrPreprocess end.

Definition LOCAL_LABEL : string := "Local file (remote fetch failed)".

(** [now_utc] is [datetime.utcnow().strftime("%Y-%m-%d %H:%M UTC")]. *)
Definition get_data (remote local : read_outcome) (now_utc : string)
  : result (frame * string) :=
  match fetch_remote_data remote with
  | Err e => Err e
  | Ok (Some raw) =>
      match run_preprocess raw with
      | Ok df => Ok (df, now_utc)
      | Err e => Err e
      end
  | Ok None =>
      match local with
      | ReadRaised e => Err (ErrUncaught e)
      | ReadOk raw =>
          match run_preprocess raw with
          | Ok df => Ok (df, LOCAL_LABEL)
          | Err e => Err e
          end
      end
  end.

(* ------------------------------------------------------------------ *)
(** ** Rendering helpers (src/main.py, lines 15-67 and 257-328)

    Plotting and the Streamlit widgets are not modelled; a view records
    which branch was taken and the frame handed to the plotting call. *)

Definition STATE_ABBR : list (string * string) :=
  [
     ("Alabama", "AL");
     ("Alaska", "AK");
     ("Arizona", "AZ");
     ("Arkansas", "AR");
     ("California", "CA");
     ("Colorado", "CO");
     ("Connecticut", "CT");
     ("Delaware", "DE");
     ("District of Columbia", "DC");
     ("Florida", "FL");
     ("Georgia", "GA");
     ("Hawaii", "HI");
     ("Idaho", "ID");
     ("Illinois", "IL");
     ("Indiana", "IN");
     ("Iowa", "IA");
     ("Kansas", "KS");
     ("Kentucky", "KY");
     ("Louisiana", "LA");
     ("Maine", "ME");
     ("Maryland", "MD");
     ("Massachusetts", "MA");
     ("Michigan", "MI");
     ("Minnesota", "MN");
     ("Mississippi", "MS");
     ("Missouri", "MO");
     ("Montana", "MT");
     ("Nebraska", "NE");
     ("Nevada", "NV");
     ("New Hampshire", "NH");
     ("New Jersey", "NJ");
     ("New Mexico", "NM");
     ("New York", "NY");
     ("North Carolina", "NC");
     ("North Dakota", "ND");
     ("Ohio", "OH");
     ("Oklahoma", "OK");
     ("Oregon", "OR");
     ("Pennsylvania", "PA");
     ("Rhode Island", "RI");
     ("South Carolina", "SC");
     ("South Dakota", "SD");
     ("Tennessee", "TN");
     ("Texas", "TX");
     ("Utah", "UT");
     ("Vermont", "VT");
     ("Virginia", "VA");
     ("Washington", "WA");
     ("West Virginia", "WV");
     ("Wisconsin", "WI");
     ("Wyoming", "WY")].

(** [Series.map(STATE_ABBR)] on one cell: the abbreviation of a known
    label, NaN for anything else. *)
Definition map_state_abbr (v : value) : value :=
  match v with
  | VStr s =>
      match find (fun p => String.eqb (fst p) s) STATE_ABBR with
      | Some (_, code) => VStr code
      | None => VNull
      end
  | _ => VNull
  end.

(** What a chart section shows: the [st.info] message for empty data, or
    the frame passed to the plotting call. *)
Inductive chart_view :=
| ChartInfo
| ChartPlot (data : frame).

(** [render_time_series]: [px.line] needs the three plotted columns. *)
Definition render_time_series (df : frame) : option chart_view :=
  if frame_empty df then Some ChartInfo
  else if forallb (fun c => has_column c (columns df))
                  ["date"; "hospitalization_rate"; "state"]
  then Some (ChartPlot df) else None.

Inductive choropleth_view :=
| ChoroplethNoLatest                    (* "No data available for the latest date." *)
| ChoroplethNoStates                    (* "No state-level data available for the map." *)
| ChoroplethMap (data : frame).

(** [render_choropleth] (lines 292-316). *)
Definition render_choropleth (base_df : frame) : option choropleth_view :=
  match aggregate_for_map base_df with
  | None => None
  | Some latest_grouped =>
      if frame_empty latest_grouped then Some ChoroplethNoLatest
      else if negb (has_column "state" (columns latest_grouped)) then None
      else
        let coded :=
          map (fun r => set_cell "state_code" (map_state_abbr (get "state" r)) r)
              (rows latest_grouped) in
        let kept := mkFrame (add_column "state_code" (columns latest_grouped))
                            (dropna "state_code" coded) in
        if frame_empty kept then Some ChoroplethNoStates
        else if has_column "hospitalization_rate" (columns kept)
        then Some (ChoroplethMap kept) else None
  end.

(** Newest first, missing timestamps last ([na_position="last"]). *)
Definition date_desc_leb (a b : row) : bool :=
  let x := get "date" a in
  let y := get "date" b in
  if is_null x then is_null y
  else if is_null y then true
  else value_leb y x.

(** [df.sort_values("date", ascending=False)] needs cells of one kind.
    pandas does not fix the order of equal dates; the model keeps the
    input order among them. *)
Definition render_data_table (df : frame) : option chart_view :=
  if frame_empty df then Some ChartInfo
  else if negb (has_column "date" (columns df)) then None
  else
    let ds := filter (fun v => negb (is_null v)) (map (get "date") (rows df)) in
    if forallb (fun v => match v with VDate _ => true | _ => false end) ds
       || forallb (fun v => match v with VStr _ => true | _ => false end) ds
       || forallb is_numeric ds
    then Some (ChartPlot (mkFrame (columns df) (sort_by date_desc_leb (rows df))))
    else None.

(* ------------------------------------------------------------------ *)
(** ** Filter options of [render_sidebar] (src/main.py, lines 176-200) *)

(** The keys of [filter_config], in order. *)
Definition FILTER_COLUMNS : list string :=
  ["state"; "agecategory_legend"; "sex_label"; "race_label"].

(** Lines 166-167 and 177: [df["date"].min().to_pydatetime()] and
    [.max()] raise [KeyError] without a [date] column and fail on a column
    that is not datetime64 (a string or a number has no [to_pydatetime],
    mixed cells do not compare); on a datetime64 column they give
    timestamps, or NaT when every date is missing.  The slider widget is
    not modelled: the range it returns is the input [date_range].  Then
    [df[(df["date"] >= date_range[0]) & (df["date"] <= date_range[1])]]. *)
Definition options_frame (df : frame) (date_range : date * date) : option frame :=
  if has_column "date" (columns df) && date_column_ok (rows df) then
    Some (mkFrame (columns df)
            (filter (fun r => in_date_range (fst date_range) (snd date_range)
                                            (get "date" r)) (rows df)))
  else None.

(** [sorted(df_for_options[col].dropna().unique())] *)
Definition filter_options (df_for_options : frame) (col : string)
  : option (list value) :=
  if has_column col (columns df_for_options) then
    py_sorted (unique (filter (fun v => negb (is_null v))
                              (map (get col) (rows df_for_options))))
  else None.

(** The options offered for each filter column, for the date range the
    slider returned. *)
Definition sidebar_options (df : frame) (date_range : date * date)
  : option (list (string * list value)) :=
  match options_frame df date_range with
  | Some df_for_options =>
      mapM (fun c => option_map (pair c) (filter_options df_for_options c))
           FILTER_COLUMNS
  | None => None
  end.

(* ------------------------------------------------------------------ *)
(** ** [main] (src/main.py, lines 334-370), after [get_data] and
    [render_sidebar]: [df_raw], the slider's [date_range] and the
    widgets' [selections] are its inputs. *)

Inductive dashboard :=
| NoDataWarning
| Dashboard (trend : chart_view) (map_view : choropleth_view) (table : chart_view).

(** Lines 358-362: [canonical_slice] raises as above. *)
Definition base_for_charts (filtered_full : frame) : option frame :=
  match canonical_slice filtered_full with
  | Some canonical =>
      Some (if negb (frame_empty canonical) then canonical else filtered_full)
  | None => None
  end.

Definition main_view (df_raw : frame) (date_range : date * date)
    (sel : selections) : option dashboard :=
  match apply_filters df_raw date_range sel with
  | None => None
  | Some filtered_full =>
      if frame_empty filtered_full then Some NoDataWarning
      else
        match base_for_charts filtered_full with
        | None => None
        | Some base =>
            match restrict_initial_states base sel with
            | None => None
            | Some base_for_ts =>
                match aggregate_for_time_series base_for_ts with
                | None => None
                | Some ts_data =>
                    match render_time_series ts_data with
                    | None => None
                    | Some trend =>
                        match render_choropleth base with
                        | None => None
                        | Some map_view =>
                            match render_data_table filtered_full with
                            | None => None
                            | Some table => Some (Dashboard trend map_view table)
                            end
                        end
                    end
                end
            end
        end
  end.

(** The whole of [main] after [get_data]: [render_sidebar] computes the
    date bounds and the option lists (its widgets are not modelled; the
    range and the selections they return are the inputs), then the steps
    of [main_view]. *)
Definition main_app (df_raw : frame) (date_range : date * date)
    (sel : selections) : option dashboard :=
  match sidebar_options df_raw date_range with
  | None => None
  | Some _ => main_view df_raw date_range sel
  end.

(* ------------------------------------------------------------------ *)
(** ** Auxiliary notions for the statements *)

(** Column check and row test equivalent to the loop of [apply_filters]. *)
Definition dims_ok (cols : list string) (sel : selections) : bool :=
  forallb (fun cv => match snd cv with
                     | [] => true
                     | _ :: _ => has_column (fst cv) cols
                     end) sel.

Definition dims_match (sel : selections) (r : row) : bool :=
  forallb (fun cv => match snd cv with
                     | [] => true
                     | _ :: _ => isin (get (fst cv) r) (map VStr (snd cv))
                     end) sel.

(** The timestamp of a cell (a dummy date for other cells). *)
Definition date_of (v : value) : date :=
  match v with VDate d => d | _ => mkDate 0 0 0 end.

(** The rate of a row as a rational number. *)
Definition rate_Q (r : row) : Q := to_Q (get "hospitalization_rate" r).

(** The arithmetic mean of the rates of a group of rows. *)
Definition mean_rate (g : list row) : Q :=
  Qsum (map rate_Q g) / inject_Z (Z.of_nat (length g)).

(** Row [r] belongs to the (state, date) group [(s, d)]. *)
Definition row_has_sd (s : string) (d : date) (r : row) : bool :=
  value_eqb (get "state" r) (VStr s) && value_eqb (get "date" r) (VDate d).

(** Row [r] belongs to the state group [s]. *)
Definition row_has_state (s : string) (r : row) : bool :=
  value_eqb (get "state" r) (VStr s).

(** A row as [preprocess] leaves it for the charts: a state label, a
    timestamp and a numeric rate. *)
Definition chart_row (r : row) : Prop :=
  (exists s, get "state" r = VStr s) /\ (exists d, get "date" r = VDate d) /\
  is_numeric (get "hospitalization_rate" r) = true.

(** The state label of a row (empty for a cell that is not a string). *)
Definition state_name (r : row) : string :=
  match get "state" r with VStr s => s | _ => "" end.

(** The distinct state labels of the rows. *)
Definition states_present (rs : list row) : list string :=
  nodup string_dec (map state_name rs).

(** Number of distinct state labels sorting strictly before [s]. *)
Definition state_rank (rs : list row) (s : string) : nat :=
  length (filter (fun t => String.ltb t s) (states_present rs)).

(** The labels of [DEFAULT_STATES] that occur in the rows. *)
Definition defaults_present (rs : list row) : list string :=
  filter (fun s => existsb (String.eqb s) (map state_name rs)) DEFAULT_STATES.

(** [lo], [lo + 1], ..., [lo + n - 1]. *)
Fixpoint zrange (lo : Z) (n : nat) : list Z :=
  match n with
  | O => []
  | S k => lo :: zrange (lo + 1) k
  end.

(** Equality of two cells that are timestamps or missing. *)
Definition date_cell_eqb (a b : value) : bool :=
  match a, b with
  | VDate x, VDate y => date_eqb x y
  | VNull, VNull => true
  | _, _ => false
  end.

(** The year-month code [100 * y + m], read as an integer or as a float,
    is parsed to the first day of that month. *)
Definition ym_ok (y m : Z) : bool :=
  date_cell_eqb (to_datetime_ymd (clean_yearmonth (VInt (100 * y + m)) ++ "01"))
                (VDate (mkDate y m 1))
  && date_cell_eqb
       (to_datetime_ymd (clean_yearmonth (VFloat (inject_Z (100 * y + m))) ++ "01"))
       (VDate (mkDate y m 1)).

(* ------------------------------------------------------------------ *)
(** ** Sample data *)

Definition sample_row (s : string) (y m : Z) (rate : Z) : row :=
  [("state", VStr s); ("date", VDate (mkDate y m 1));
   ("hospitalization_rate", VInt rate); ("sex_label", VStr "All")].

Definition sample_df : frame :=
  mkFrame ["state"; "date"; "hospitalization_rate"; "sex_label"]
    [sample_row "California" 2022 1 5; sample_row "California" 2022 2 7;
     sample_row "New York" 2022 2 3].

Definition map_example_row (s : string) (m rate : Z) : row :=
  [("state", VStr s); ("date", VDate (mkDate 2022 m 1)); ("hospitalization_rate", VInt rate)].

(** Rows (CA, 2022-01, 5), (CA, 2022-02, 7), (NY, 2022-02, 3). *)
Definition map_example_df : frame :=
  mkFrame TS_COLUMNS
    [map_example_row "CA" 1 5; map_example_row "CA" 2 7; map_example_row "NY" 2 3].

(** A raw export: labels spelled as in the CDC file, the year-month read
    as a float, the rate as text. *)
Definition raw_row (ym : Z) (state rate : string) : row :=
  [("_YearMonth", VFloat (inject_Z ym)); ("State", VStr state); ("MonthlyRate", VStr rate)].

Definition raw_df : frame :=
  mkFrame ["_YearMonth"; "State"; "MonthlyRate"]
    [raw_row 202201 "California" "5.5"; raw_row 202202 "New York" " 3";
     raw_row 202213 "Ohio" "2"; raw_row 202203 "Texas" "n/a"].

(** A raw file without a rate column. *)
Definition raw_no_rate_df : frame :=
  mkFrame ["_YearMonth"; "State"] [[("_YearMonth", VInt 202201); ("State", VStr "Ohio")]].

(** A raw file without a year-month column. *)
Definition raw_no_ym_df : frame :=
  mkFrame ["State"; "MonthlyRate"] [[("State", VStr "Ohio"); ("MonthlyRate", VInt 4)]].

(** States Texas, COVID-NET, Alabama and Ohio: one default label only. *)
Definition four_states_df : frame :=
  mkFrame TS_COLUMNS
    [map_example_row "Texas" 1 1; map_example_row "COVID-NET" 1 2;
     map_example_row "Alabama" 1 3; map_example_row "Ohio" 1 4].

(** States Texas, Ohio, Alabama and Iowa: no default label. *)
Definition no_default_df : frame :=
  mkFrame TS_COLUMNS
    [map_example_row "Texas" 1 1; map_example_row "Ohio" 1 2;
     map_example_row "Alabama" 1 3; map_example_row "Iowa" 1 4;
     map_example_row "Ohio" 2 5].

Definition no_selection : selections := [("state", []); ("race_label", [])].

(** The four canonical columns, the [type] column holding numbers. *)
Definition numeric_type_df : frame :=
  mkFrame ["state"; "agecategory_legend"; "sex_label"; "race_label"; "type"]
    [[("state", VStr "Ohio"); ("agecategory_legend", VStr "All"); ("sex_label", VStr "All");
      ("race_label", VStr "All"); ("type", VInt 1)];
     [("state", VStr "Iowa"); ("agecategory_legend", VStr "All"); ("sex_label", VStr "All");
      ("race_label", VStr "All"); ("type", VInt 2)]].

(** A preprocessed extract with all the filter columns: canonical rows
    ("All" in every dimension, a crude rate) and two rows that are not. *)
Definition dash_row (s : string) (m rate : Z) (age sex race ty : string) : row :=
  [("state", VStr s); ("date", VDate (mkDate 2022 m 1)); ("hospitalization_rate", VInt rate);
   ("agecategory_legend", VStr age); ("sex_label", VStr sex); ("race_label", VStr race);
   ("type", VStr ty)].

Definition dashboard_df : frame :=
  mkFrame ["state"; "date"; "hospitalization_rate"; "agecategory_legend";
           "sex_label"; "race_label"; "type"]
    [dash_row "Alabama" 1 3 "All" "All" "All" "Crude Rate";
     dash_row "Ohio" 1 4 "All" "All" "All" "Crude Rate";
     dash_row "Ohio" 1 6 "18-49 Yr" "Female" "White" "Crude Rate";
     dash_row "COVID-NET" 2 5 "All" "All" "All" "Crude Rate";
     dash_row "Alabama" 2 2 "All" "All" "All" "Crude Rate";
     dash_row "Texas" 2 2 "All" "All" "All" "Age adjusted Rate"].

Definition dashboard_range : date * date := (mkDate 2022 1 1, mkDate 2022 2 1).

(** The map drawn for [four_states_df]. *)
Definition four_states_map : frame :=
  Eval vm_compute in
    match render_choropleth four_states_df with
    | Some (ChoroplethMap m) => m
    | _ => mkFrame [] []
    end.

(** The options offered for [dashboard_df] over [dashboard_range]. *)
Definition dashboard_options : list (string * list value) :=
  Eval vm_compute in
    match sidebar_options dashboard_df dashboard_range with
    | Some opts => opts
    | None => []
    end.

(** The three sections of the dashboard for [dashboard_df] with no filter
    selected. *)
Definition dashboard_trend : frame :=
  Eval vm_compute in
    match main_view dashboard_df dashboard_range no_selection with
    | Some (Dashboard (ChartPlot ts) _ _) => ts
    | _ => mkFrame [] []
    end.

Definition dashboard_map_view : choropleth_view :=
  Eval vm_compute in
    match main_view dashboard_df dashboard_range no_selection with
    | Some (Dashboard _ mv _) => mv
    | _ => ChoroplethNoLatest
    end.

Definition dashboard_table : chart_view :=
  Eval vm_compute in
    match main_view dashboard_df dashboard_range no_selection with
    | Some (Dashboard _ _ tv) => tv
    | _ => ChartInfo
    end.

(* ================================================================== *)
(** * Properties *)

(** ** Booleans, lists and cells *)

Lemma value_eqb_str (v : value) (s : string) :
  value_eqb v (VStr s) = true <-> v = VStr s.
Proof.
  destruct v; simpl; try (split; [discriminate | congruence]).
  rewrite String.eqb_eq. split; congruence.
Qed.

Lemma has_column_spec (c : string) (cols : list string) :
  has_column c cols = true <-> In c cols.
Proof.
  unfold has_column. rewrite existsb_exists. split.
  - intros [x [Hx He]]. apply String.eqb_eq in He. subst. exact Hx.
  - intros H. exists c. split; [exact H | apply String.eqb_refl].
Qed.

Lemma filter_filter_and {A} (f g : A -> bool) (l : list A) :
  filter f (filter g l) = filter (fun x => g x && f x) l.
Proof.
  induction l as [|x l IH]; simpl; [reflexivity|].
  destruct (g x); simpl; [destruct (f x) |]; rewrite ?IH; reflexivity.
Qed.

Lemma filter_id_in {A} (f : A -> bool) (l : list A) :
  (forall x, In x l -> f x = true) -> filter f l = l.
Proof.
  induction l as [|x l IH]; intros H; simpl; [reflexivity|].
  rewrite (H x (or_introl eq_refl)), IH; [reflexivity|].
  intros y Hy. apply H. right. exact Hy.
Qed.

Lemma forallb_perm {A} (f : A -> bool) (l l' : list A) :
  Permutation l l' -> forallb f l = forallb f l'.
Proof.
  induction 1; simpl.
  - reflexivity.
  - rewrite IHPermutation. reflexivity.
  - rewrite !andb_assoc, (andb_comm (f y)). reflexivity.
  - congruence.
Qed.

Lemma isin_str_spec (v : value) (vals : list string) :
  isin v (map VStr vals) = true <-> exists s, In s vals /\ v = VStr s.
Proof.
  unfold isin. destruct (is_null v) eqn:Hn.
  - destruct v; try discriminate. split.
    + intros H. apply existsb_exists in H. destruct H as [x [Hx Hnx]].
      apply in_map_iff in Hx. destruct Hx as [s [<- _]]. discriminate.
    + intros [s [_ H]]. discriminate.
  - rewrite existsb_exists. split.
    + intros [x [Hx He]]. apply in_map_iff in Hx. destruct Hx as [s [<- Hs]].
      exists s. split; [exact Hs | apply value_eqb_str; exact He].
    + intros [s [Hs ->]]. exists (VStr s).
      split; [apply in_map; exact Hs | apply value_eqb_str; reflexivity].
Qed.

(** ** Substring search *)

Lemma prefix_app (pat s : string) :
  String.prefix pat s = true <-> exists q, s = pat ++ q.
Proof.
  revert s; induction pat as [|a pat IH]; intros s; simpl.
  - split; [intros _; exists s; reflexivity | intros _; destruct s; reflexivity].
  - destruct s as [|b s]; simpl.
    + split; [discriminate | intros [q Hq]; discriminate].
    + destruct (ascii_dec a b) as [->|Hne].
      * rewrite IH. split; intros [q Hq]; exists q;
          [rewrite Hq; reflexivity | injection Hq; auto].
      * split; [discriminate | intros [q Hq]; injection Hq; intros; congruence].
Qed.

Lemma contains_spec (pat s : string) :
  contains pat s = true <-> exists p q, s = p ++ pat ++ q.
Proof.
  induction s as [|c s IH]; cbn [contains].
  - rewrite orb_false_r, prefix_app. split.
    + intros [q Hq]. exists "", q. exact Hq.
    + intros [p [q Hq]]. destruct p; [exists q; exact Hq | discriminate].
  - rewrite orb_true_iff, prefix_app, IH. split.
    + intros [[q Hq] | [p [q Hq]]].
      * exists "", q. exact Hq.
      * exists (String c p), q. rewrite Hq. reflexivity.
    + intros [p [q Hq]]. destruct p as [|c' p].
      * left. exists q. exact Hq.
      * right. injection Hq as -> Hs. exists p, q. exact Hs.
Qed.

Lemma str_contains_spec (pat : string) (v : value) :
  str_contains pat v = true <-> exists s p q, v = VStr s /\ s = p ++ pat ++ q.
Proof.
  destruct v; simpl;
    try (split; [discriminate | intros [? [? [? [H _]]]]; discriminate]).
  rewrite contains_spec. split.
  - intros [p [q H]]. exists s, p, q. auto.
  - intros [s' [p [q [H1 H2]]]]. injection H1 as <-. eauto.
Qed.

(** ** Filters *)

Lemma filter_dims_spec (cols : list string) (sel : selections) (rs : list row) :
  filter_dims cols sel rs =
  if dims_ok cols sel then Some (filter (dims_match sel) rs) else None.
Proof.
  revert rs; induction sel as [|[c vals] sel IH]; intros rs; simpl.
  - f_equal. symmetry. apply filter_id_in. reflexivity.
  - destruct vals as [|v vals]; simpl.
    + apply IH.
    + destruct (has_column c cols); simpl; [|reflexivity].
      rewrite IH. destruct (dims_ok cols sel); [|reflexivity].
      rewrite filter_filter_and. reflexivity.
Qed.

Lemma dims_match_spec (sel : selections) (r : row) :
  dims_match sel r = true <->
  (forall c vals, In (c, vals) sel -> vals <> [] ->
                  exists s, In s vals /\ get c r = VStr s).
Proof.
  unfold dims_match. rewrite forallb_forall. split.
  - intros H c vals Hin Hne. specialize (H _ Hin). simpl in H.
    destruct vals as [|v vs]; [congruence|]. apply isin_str_spec. exact H.
  - intros H [c vals] Hin. simpl. destruct vals as [|v vs]; [reflexivity|].
    apply isin_str_spec. apply (H c); [exact Hin | discriminate].
Qed.

Lemma in_date_range_spec (lo hi : date) (v : value) :
  in_date_range lo hi v = true <->
  exists d, v = VDate d /\ date_leb lo d = true /\ date_leb d hi = true.
Proof.
  destruct v; simpl;
    try (split; [discriminate | intros [? [H _]]; discriminate]).
  rewrite andb_true_iff. split.
  - intros [H1 H2]. eauto.
  - intros [d' [H [H1 H2]]]. injection H as <-. auto.
Qed.

Lemma filter_dims_all_empty (cols : list string) (sel : selections) (rs : list row) :
  (forall c vals, In (c, vals) sel -> vals = []) -> filter_dims cols sel rs = Some rs.
Proof.
  revert rs; induction sel as [|[c vals] sel IH]; intros rs H; simpl; [reflexivity|].
  rewrite (H c vals (or_introl eq_refl)).
  apply IH. intros c' vals' Hin. apply (H c'). right. exact Hin.
Qed.

(** ** Chronological order *)

Lemma date_leb_spec (a b : date) :
  date_leb a b = true <->
  (year a < year b \/ year a = year b /\
     (month a < month b \/ month a = month b /\ day a <= day b)).
Proof.
  unfold date_leb.
  rewrite orb_true_iff, andb_true_iff, orb_true_iff, andb_true_iff,
    Z.ltb_lt, Z.eqb_eq, Z.ltb_lt, Z.eqb_eq, Z.leb_le.
  tauto.
Qed.

Lemma date_leb_refl (a : date) : date_leb a a = true.
Proof. apply date_leb_spec. lia. Qed.

Lemma date_leb_trans (a b c : date) :
  date_leb a b = true -> date_leb b c = true -> date_leb a c = true.
Proof. rewrite !date_leb_spec. lia. Qed.

Lemma date_leb_total (a b : date) : date_leb a b = false -> date_leb b a = true.
Proof.
  intros H. apply date_leb_spec.
  destruct (date_leb a b) eqn:E; [discriminate|].
  assert (~ (year a < year b \/ year a = year b /\
             (month a < month b \/ month a = month b /\ day a <= day b))) as Hn.
  { rewrite <- date_leb_spec. congruence. }
  lia.
Qed.

(** The running maximum over timestamps bounds every timestamp seen. *)
Lemma fold_max_step_bound (ds : list date) (acc : option date) (m : date) :
  fold_left max_step (map VDate ds) (option_map VDate acc) = Some (VDate m) ->
  (forall a, acc = Some a -> date_leb a m = true) /\
  (forall d, In d ds -> date_leb d m = true).
Proof.
  revert acc; induction ds as [|d ds IH]; intros acc H; simpl in H.
  - destruct acc as [a|]; simpl in H; [|discriminate].
    injection H as ->. split; [intros a' E; injection E as <-; apply date_leb_refl
                              | intros d []].
  - set (acc' := match acc with
                 | None => Some d
                 | Some a => if date_leb a d then Some d else Some a
                 end).
    assert (Hs : max_step (option_map VDate acc) (VDate d) = option_map VDate acc')
      by (unfold acc', max_step; destruct acc as [a|]; simpl; [destruct (date_leb a d)|]; reflexivity).
    rewrite Hs in H. destruct (IH acc' H) as [Hacc Hds]. split.
    + intros a E. subst acc. unfold acc' in Hacc.
      destruct (date_leb a d) eqn:E1.
      * apply date_leb_trans with d; [exact E1 | apply Hacc; reflexivity].
      * apply Hacc. reflexivity.
    + intros d' [<- | Hin]; [| apply Hds; exact Hin].
      unfold acc' in Hacc. destruct acc as [a|].
      * destruct (date_leb a d) eqn:E1; [apply Hacc; reflexivity|].
        apply date_leb_trans with a; [apply date_leb_total; exact E1 | apply Hacc; reflexivity].
      * apply Hacc. reflexivity.
Qed.

Lemma fold_min_step_bound (ds : list date) (acc : option date) (m : date) :
  fold_left min_step (map VDate ds) (option_map VDate acc) = Some (VDate m) ->
  (forall a, acc = Some a -> date_leb m a = true) /\
  (forall d, In d ds -> date_leb m d = true).
Proof.
  revert acc; induction ds as [|d ds IH]; intros acc H; simpl in H.
  - destruct acc as [a|]; simpl in H; [|discriminate].
    injection H as ->. split; [intros a' E; injection E as <-; apply date_leb_refl
                              | intros d []].
  - set (acc' := match acc with
                 | None => Some d
                 | Some a => if date_leb d a then Some d else Some a
                 end).
    assert (Hs : min_step (option_map VDate acc) (VDate d) = option_map VDate acc')
      by (unfold acc', min_step; destruct acc as [a|]; simpl; [destruct (date_leb d a)|]; reflexivity).
    rewrite Hs in H. destruct (IH acc' H) as [Hacc Hds]. split.
    + intros a E. subst acc. unfold acc' in Hacc.
      destruct (date_leb d a) eqn:E1.
      * apply date_leb_trans with d; [apply Hacc; reflexivity | exact E1].
      * apply Hacc. reflexivity.
    + intros d' [<- | Hin]; [| apply Hds; exact Hin].
      unfold acc' in Hacc. destruct acc as [a|].
      * destruct (date_leb d a) eqn:E1; [apply Hacc; reflexivity|].
        apply date_leb_trans with a; [apply Hacc; reflexivity | apply date_leb_total; exact E1].
      * apply Hacc. reflexivity.
Qed.

Lemma dates_as_VDate (rs : list row) :
  (forall r, In r rs -> exists d, get "date" r = VDate d) ->
  map (get "date") rs = map VDate (map (fun r => date_of (get "date" r)) rs).
Proof.
  induction rs as [|r rs IH]; intros H; simpl; [reflexivity|].
  destruct (H r (or_introl eq_refl)) as [d Hd]. rewrite Hd, IH; [reflexivity|].
  intros r' Hr'. apply H. right. exact Hr'.
Qed.

(** ** Insertion sort, [unique], [mapM] *)

Lemma insert_by_perm {A} (le : A -> A -> bool) (x : A) (l : list A) :
  Permutation (insert_by le x l) (x :: l).
Proof.
  induction l as [|y l IH]; simpl; [reflexivity|].
  destruct (le x y); [reflexivity|].
  eapply perm_trans; [apply perm_skip, IH | apply perm_swap].
Qed.

Lemma sort_by_perm {A} (le : A -> A -> bool) (l : list A) :
  Permutation (sort_by le l) l.
Proof.
  induction l as [|x l IH]; simpl; [reflexivity|].
  eapply perm_trans; [apply insert_by_perm | apply perm_skip, IH].
Qed.

Section SortedInsert.
Context {A : Type} (le : A -> A -> bool).
Hypothesis le_total : forall a b, le a b = false -> le b a = true.

Lemma insert_by_sorted (x : A) (l : list A) :
  Sorted (fun a b => le a b = true) l ->
  Sorted (fun a b => le a b = true) (insert_by le x l).
Proof.
  induction 1 as [|y l Hs IH Hhd]; simpl.
  - repeat constructor.
  - destruct (le x y) eqn:E.
    + constructor; [constructor; assumption | constructor; exact E].
    + constructor; [exact IH|].
      destruct l as [|z l]; simpl.
      * constructor. apply le_total. exact E.
      * destruct (le x z); constructor;
          [apply le_total; exact E | inversion Hhd; assumption].
Qed.

Lemma sort_by_sorted (l : list A) : Sorted (fun a b => le a b = true) (sort_by le l).
Proof.
  induction l as [|x l IH]; simpl; [constructor|].
  apply insert_by_sorted. exact IH.
Qed.
End SortedInsert.

Lemma value_leb_total (a b : value) : value_leb a b = false -> value_leb b a = true.
Proof.
  assert (Hq : forall x y, Qle_bool x y = false -> Qle_bool y x = true).
  { intros x y H. apply Qle_bool_iff. apply Qlt_le_weak. apply Qnot_le_lt.
    intros Hle. apply Qle_bool_iff in Hle. congruence. }
  destruct a, b; simpl; intros H; try reflexivity; try discriminate;
    try (apply Hq; exact H).
  - destruct (String.leb_total s s0); congruence.
  - apply date_leb_total. exact H.
Qed.

Lemma date_eqb_spec (a b : date) : date_eqb a b = true <-> a = b.
Proof.
  destruct a as [y m d], b as [y' m' d']. unfold date_eqb. simpl.
  rewrite !andb_true_iff, !Z.eqb_eq. split.
  - intros [[-> ->] ->]. reflexivity.
  - intros E. injection E as -> -> ->. auto.
Qed.

Lemma date_leb_antisym (a b : date) :
  date_leb a b = true -> date_leb b a = true -> a = b.
Proof.
  rewrite !date_leb_spec. intros H1 H2.
  destruct a as [y m d], b as [y' m' d']. simpl in *.
  assert (y = y' /\ m = m' /\ d = d') as [-> [-> ->]] by lia. reflexivity.
Qed.

Section UniqueBy.
Context {A : Type} (same : A -> A -> bool) (P : A -> Prop).
Hypothesis same_eq : forall a b, P a -> P b -> same a b = true <-> a = b.

Lemma unique_by_fold (l acc : list A) :
  NoDup acc -> (forall x, In x acc -> P x) -> (forall x, In x l -> P x) ->
  NoDup (fold_left (fun acc v => if existsb (same v) acc then acc
                                 else (acc ++ [v])%list) l acc) /\
  (forall x, In x (fold_left (fun acc v => if existsb (same v) acc then acc
                                           else (acc ++ [v])%list) l acc)
             <-> In x acc \/ In x l).
Proof.
  revert acc; induction l as [|v l IH]; intros acc Hnd Hacc Hl; simpl.
  - split; [exact Hnd | intros x; tauto].
  - assert (Pv : P v) by (apply Hl; left; reflexivity).
    destruct (existsb (same v) acc) eqn:E.
    + apply existsb_exists in E. destruct E as [y [Hy Hs]].
      apply same_eq in Hs; [|exact Pv | apply Hacc; exact Hy]. subst y.
      destruct (IH acc Hnd Hacc (fun x Hx => Hl x (or_intror Hx))) as [H1 H2].
      split; [exact H1|]. intros x. rewrite H2. intuition congruence.
    + assert (Hnin : ~ In v acc).
      { intros Hin. assert (existsb (same v) acc = true) as Ht.
        { apply existsb_exists. exists v. split; [exact Hin|].
          apply same_eq; auto. }
        congruence. }
      assert (Hnd' : NoDup (acc ++ [v])%list).
      { eapply Permutation_NoDup; [apply Permutation_cons_append|].
        constructor; assumption. }
      assert (Hacc' : forall x, In x (acc ++ [v])%list -> P x).
      { intros x Hx. apply in_app_or in Hx. destruct Hx as [Hx | [<- | []]];
          [apply Hacc; exact Hx | exact Pv]. }
      destruct (IH _ Hnd' Hacc' (fun x Hx => Hl x (or_intror Hx))) as [H1 H2].
      split; [exact H1|]. intros x. rewrite H2, in_app_iff. simpl. tauto.
Qed.

Lemma unique_by_spec (l : list A) :
  (forall x, In x l -> P x) ->
  NoDup (unique_by same l) /\ (forall x, In x (unique_by same l) <-> In x l).
Proof.
  intros Hl. unfold unique_by.
  destruct (unique_by_fold l [] (NoDup_nil A) (fun x (H : In x []) => match H with end) Hl)
    as [H1 H2].
  split; [exact H1|]. intros x. rewrite H2. simpl. tauto.
Qed.
End UniqueBy.

Lemma mapM_Forall2 {A B} (f : A -> option B) (l : list A) (l' : list B) :
  mapM f l = Some l' -> Forall2 (fun x y => f x = Some y) l l'.
Proof.
  revert l'; induction l as [|x l IH]; simpl; intros l' H.
  - injection H as <-. constructor.
  - destruct (f x) eqn:E; [|discriminate].
    destruct (mapM f l) eqn:E2; simpl in H; [|discriminate].
    injection H as <-. constructor; [exact E | apply IH; reflexivity].
Qed.

Lemma mapM_total {A B} (f : A -> option B) (l : list A) :
  (forall x, In x l -> f x <> None) -> exists l', mapM f l = Some l'.
Proof.
  induction l as [|x l IH]; simpl; intros H; [eauto|].
  destruct (f x) eqn:E; [|exfalso; apply (H x); auto].
  destruct IH as [l' ->]; [intros y Hy; apply H; auto|]. simpl. eauto.
Qed.

Lemma Forall2_in_r {A B} (R : A -> B -> Prop) (l : list A) (l' : list B) (y : B) :
  Forall2 R l l' -> In y l' -> exists x, In x l /\ R x y.
Proof.
  induction 1 as [|x y' l l' Hxy _ IH]; simpl; [intros []|].
  intros [<- | Hin]; [eauto|]. destruct (IH Hin) as [x' [? ?]]. eauto.
Qed.

Lemma length_filter_perm {A} (p : A -> bool) (l l' : list A) :
  Permutation l l' -> length (filter p l) = length (filter p l').
Proof.
  induction 1; simpl.
  - reflexivity.
  - destruct (p x); simpl; congruence.
  - destruct (p x), (p y); reflexivity.
  - congruence.
Qed.

Lemma length_filter_map {A B} (p : B -> bool) (g : A -> B) (l : list A) :
  length (filter p (map g l)) = length (filter (fun x => p (g x)) l).
Proof.
  induction l as [|x l IH]; simpl; [reflexivity|].
  destruct (p (g x)); simpl; congruence.
Qed.

Lemma length_filter_unique {A} (p : A -> bool) (l : list A) (x : A) :
  NoDup l -> In x l -> (forall y, p y = true <-> y = x) -> length (filter p l) = 1%nat.
Proof.
  intros Hnd Hin Hp. induction Hnd as [|y l Hny Hnd IH]; [destruct Hin|].
  simpl. destruct Hin as [-> | Hin].
  - assert (p x = true) as -> by (apply Hp; reflexivity). simpl. f_equal.
    assert (Hz : forall z, In z l -> p z = false).
    { intros z Hz. destruct (p z) eqn:E; [|reflexivity].
      apply Hp in E. subst z. contradiction. }
    clear - Hz. induction l as [|z l IHl]; simpl; [reflexivity|].
    rewrite (Hz z (or_introl eq_refl)). apply IHl.
    intros w Hw. apply Hz. right. exact Hw.
  - destruct (p y) eqn:E.
    + apply Hp in E. subst y. contradiction.
    + apply IH. exact Hin.
Qed.

(** ** Group means *)

Lemma group_mean_numeric (g : list row) :
  (forall r, In r g -> is_numeric (get "hospitalization_rate" r) = true) ->
  g <> [] ->
  group_mean g = Some (VFloat (Qsum (map rate_Q g) / inject_Z (Z.of_nat (length g)))).
Proof.
  intros Hn Hne. unfold group_mean.
  assert (Hf : filter (fun v => negb (is_null v)) (map (get "hospitalization_rate") g)
               = map (get "hospitalization_rate") g).
  { apply filter_id_in. intros v Hv. apply in_map_iff in Hv.
    destruct Hv as [r [<- Hr]]. specialize (Hn r Hr).
    destruct (get "hospitalization_rate" r); try discriminate; reflexivity. }
  rewrite Hf.
  assert (Hall : forallb is_numeric (map (get "hospitalization_rate") g) = true).
  { apply forallb_forall. intros v Hv. apply in_map_iff in Hv.
    destruct Hv as [r [<- Hr]]. apply Hn, Hr. }
  rewrite Hall. destruct g as [|r g]; [congruence|].
  rewrite map_map, length_map. cbn [map]. reflexivity.
Qed.

Lemma mean_times_count (S : Q) (n : nat) :
  n <> 0%nat -> S / inject_Z (Z.of_nat n) * inject_Z (Z.of_nat n) == S.
Proof.
  intros Hn. field. unfold Qeq. simpl. lia.
Qed.

Lemma Forall2_map_fst {A C} (f : A -> option (A * C)) (l : list A) (l' : list (A * C)) :
  (forall x y, f x = Some y -> fst y = x) ->
  Forall2 (fun x y => f x = Some y) l l' -> map fst l' = l.
Proof.
  intros Hf. induction 1 as [|x y l l' Hxy _ IH]; simpl; [reflexivity|].
  rewrite (Hf _ _ Hxy), IH. reflexivity.
Qed.

(** [groupby(...)["hospitalization_rate"].mean()] on numeric rates: one
    group per present key, each the mean of its rows. *)
Lemma groupby_mean_spec {K} (key : row -> K) (same le : K -> K -> bool)
    (present : K -> bool) (P : K -> Prop) (rs : list row) :
  (forall a b, P a -> P b -> same a b = true <-> a = b) ->
  (forall r, In r rs -> present (key r) = true -> P (key r)) ->
  (forall r, In r rs -> is_numeric (get "hospitalization_rate" r) = true) ->
  exists groups, groupby_mean key same le present rs = Some groups /\
    NoDup (map fst groups) /\
    (forall k, In k (map fst groups) <->
               exists r, In r rs /\ present (key r) = true /\ key r = k) /\
    (forall k m, In (k, m) groups ->
       filter (fun r => same (key r) k) rs <> [] /\
       m = VFloat (Qsum (map rate_Q (filter (fun r => same (key r) k) rs))
                   / inject_Z (Z.of_nat (length (filter (fun r => same (key r) k) rs))))).
Proof.
  intros Hsame HP Hnum. unfold groupby_mean.
  set (l0 := filter present (map key rs)).
  assert (Hl0 : forall k, In k l0 <-> exists r, In r rs /\ present (key r) = true /\ key r = k).
  { intros k. unfold l0. rewrite filter_In, in_map_iff. split.
    - intros [[r [<- Hr]] Hp]. eauto.
    - intros [r [Hr [Hp <-]]]. eauto. }
  assert (HPl0 : forall k, In k l0 -> P k).
  { intros k Hk. apply Hl0 in Hk. destruct Hk as [r [Hr [Hp <-]]]. apply HP; assumption. }
  destruct (unique_by_spec same P Hsame l0 HPl0) as [Hnd Hin].
  set (ks := sort_by le (unique_by same l0)).
  assert (Hperm : Permutation ks (unique_by same l0)) by apply sort_by_perm.
  assert (Hks : forall k, In k ks <-> In k l0).
  { intros k. rewrite <- Hin. split; apply Permutation_in;
      [exact Hperm | apply Permutation_sym; exact Hperm]. }
  assert (Hne : forall k, In k ks -> filter (fun r => same (key r) k) rs <> []).
  { intros k Hk. apply Hks, Hl0 in Hk. destruct Hk as [r [Hr [Hp Hk]]].
    intros E. assert (In r (filter (fun r => same (key r) k) rs)) as Hr'.
    { apply filter_In. split; [exact Hr|]. apply Hsame; [apply HP; auto | | exact Hk].
      rewrite <- Hk. apply HP; auto. }
    rewrite E in Hr'. destruct Hr'. }
  assert (Hg : forall k, In k ks -> group_mean (filter (fun r => same (key r) k) rs)
      = Some (VFloat (Qsum (map rate_Q (filter (fun r => same (key r) k) rs))
                   / inject_Z (Z.of_nat (length (filter (fun r => same (key r) k) rs)))))).
  { intros k Hk. apply group_mean_numeric; [|apply Hne, Hk].
    intros r Hr. apply filter_In in Hr. apply Hnum, Hr. }
  destruct (mapM_total (fun k => option_map (pair k)
                         (group_mean (filter (fun r => same (key r) k) rs))) ks)
    as [groups Hgroups].
  { intros k Hk. rewrite (Hg k Hk). discriminate. }
  exists groups. split; [exact Hgroups|].
  apply mapM_Forall2 in Hgroups.
  assert (Hfst : map fst groups = ks).
  { eapply Forall2_map_fst; [|exact Hgroups].
    intros x y Hxy. cbv beta in Hxy.
    destruct (group_mean (filter (fun r => same (key r) x) rs)); simpl in Hxy; [|discriminate].
    injection Hxy as <-. reflexivity. }
  split; [rewrite Hfst; eapply Permutation_NoDup; [apply Permutation_sym; exact Hperm | exact Hnd]|].
  split; [intros k; rewrite Hfst, Hks; apply Hl0|].
  intros k m Hkm. destruct (Forall2_in_r _ _ _ _ Hgroups Hkm) as [k' [Hk' E]].
  rewrite (Hg k' Hk') in E. simpl in E. injection E as -> <-.
  split; [apply Hne, Hk' | reflexivity].
Qed.

(** ** Keys of the aggregations *)

Lemma value_eqb_date (v : value) (d : date) :
  value_eqb v (VDate d) = true <-> v = VDate d.
Proof.
  destruct v; simpl; try (split; [discriminate | congruence]).
  rewrite date_eqb_spec. split; congruence.
Qed.

Lemma value_same_nonnull (a b : value) :
  is_null b = false -> value_same a b = value_eqb a b.
Proof.
  intros H. unfold value_same. destruct (is_null a) eqn:E; [|reflexivity].
  destruct a; try discriminate. rewrite H. destruct b; reflexivity.
Qed.

Lemma ts_group_filter (rs : list row) (s : string) (d : date) :
  filter (fun r => key_same (ts_key r) (VStr s, VDate d)) rs = filter (row_has_sd s d) rs.
Proof.
  apply filter_ext. intros r. unfold key_same, ts_key, row_has_sd. simpl.
  rewrite !value_same_nonnull by reflexivity. reflexivity.
Qed.

Lemma state_group_filter (rs : list row) (s : string) :
  filter (fun r => value_same (get "state" r) (VStr s)) rs = filter (row_has_state s) rs.
Proof.
  apply filter_ext. intros r. unfold row_has_state.
  rewrite value_same_nonnull by reflexivity. reflexivity.
Qed.

Lemma filter_nonempty {A} (p : A -> bool) (l : list A) :
  filter p l <> [] -> exists x, In x l /\ p x = true.
Proof.
  intros H. destruct (filter p l) as [|x t] eqn:E; [congruence|].
  exists x. apply filter_In. rewrite E. left. reflexivity.
Qed.

(** The running maximum over timestamps is one of them. *)
Lemma fold_max_step_some (ds : list date) (acc : option date) :
  (acc <> None \/ ds <> []) ->
  exists m, fold_left max_step (map VDate ds) (option_map VDate acc) = Some (VDate m) /\
            (acc = Some m \/ In m ds).
Proof.
  revert acc; induction ds as [|d ds IH]; intros acc Hne; simpl.
  - destruct acc as [a|]; [|destruct Hne as [H|H]; congruence].
    exists a. auto.
  - set (acc' := match acc with
                 | None => Some d
                 | Some a => if date_leb a d then Some d else Some a
                 end).
    assert (Hs : max_step (option_map VDate acc) (VDate d) = option_map VDate acc')
      by (unfold acc', max_step; destruct acc as [a|]; simpl; [destruct (date_leb a d)|]; reflexivity).
    rewrite Hs. destruct (IH acc') as [m [Hm Hin]].
    { left. unfold acc'. destruct acc; [destruct (date_leb _ d)|]; discriminate. }
    exists m. split; [exact Hm|].
    destruct Hin as [Ha | Hin]; [|right; right; exact Hin].
    unfold acc' in Ha. destruct acc as [a|].
    + destruct (date_leb a d); injection Ha as <-; auto.
    + injection Ha as <-. auto.
Qed.

(** ** Row updates *)

Lemma get_app (c : string) (r l : row) :
  get c (r ++ l)%list = if has_key c r then get c r else get c l.
Proof.
  induction r as [|[k v] r IH]; simpl; [reflexivity|].
  destruct (String.eqb k c); simpl; [reflexivity | exact IH].
Qed.

Lemma get_no_key (c : string) (r : row) : has_key c r = false -> get c r = VNull.
Proof.
  induction r as [|[k v] r IH]; simpl; [reflexivity|].
  destruct (String.eqb k c); simpl; [discriminate | exact IH].
Qed.

Lemma get_set_same (c : string) (v : value) (r : row) : get c (set_cell c v r) = v.
Proof.
  unfold set_cell. destruct (has_key c r) eqn:Hk.
  - induction r as [|[k w] r IH]; simpl in *; [discriminate|].
    destruct (String.eqb k c) eqn:E; simpl; [rewrite String.eqb_refl; reflexivity|].
    rewrite E. apply IH. exact Hk.
  - rewrite get_app, Hk. simpl. rewrite String.eqb_refl. reflexivity.
Qed.

Lemma get_set_other (c c' : string) (v : value) (r : row) :
  c' <> c -> get c (set_cell c' v r) = get c r.
Proof.
  intros Hne. unfold set_cell. destruct (has_key c' r) eqn:Hk.
  - clear Hk. induction r as [|[k w] r IH]; simpl; [reflexivity|].
    destruct (String.eqb k c') eqn:E; simpl.
    + apply String.eqb_eq in E. subst k.
      apply String.eqb_neq in Hne. rewrite Hne. exact IH.
    + destruct (String.eqb k c); [reflexivity | exact IH].
  - rewrite get_app. destruct (has_key c r) eqn:Hc; [reflexivity|].
    rewrite (get_no_key c r Hc). simpl.
    apply String.eqb_neq in Hne. rewrite Hne. reflexivity.
Qed.

(** Every cell labelled [c] holds [v], and there is one. *)
Definition all_val (c : string) (v : value) (r : row) : Prop :=
  has_key c r = true /\ forall kv, In kv r -> fst kv = c -> snd kv = v.

Lemma has_key_In (c : string) (r : row) :
  has_key c r = true <-> exists kv, In kv r /\ fst kv = c.
Proof.
  unfold has_key. rewrite existsb_exists.
  split; intros [kv [H1 H2]]; exists kv; split; try exact H1;
    apply String.eqb_eq; exact H2.
Qed.

Lemma set_cell_all_val (c : string) (v : value) (r : row) : all_val c v (set_cell c v r).
Proof.
  unfold set_cell. destruct (has_key c r) eqn:Hk; split.
  - apply has_key_In in Hk. destruct Hk as [[k w] [Hin Hf]]. simpl in Hf. subst k.
    apply has_key_In. exists (c, v). split; [|reflexivity].
    apply in_map_iff. exists (c, w). simpl. rewrite String.eqb_refl. auto.
  - intros kv Hin Hf. apply in_map_iff in Hin. destruct Hin as [[k w] [E Hin]].
    simpl in E. destruct (String.eqb k c) eqn:E1; [rewrite <- E; reflexivity|].
    subst kv. simpl in Hf. subst k. rewrite String.eqb_refl in E1. discriminate.
  - apply has_key_In. exists (c, v). split; [apply in_or_app; right; left|]; reflexivity.
  - intros [k w] Hin Hf. simpl in Hf. subst k. apply in_app_or in Hin.
    destruct Hin as [Hin | [E | []]]; [|injection E as <-; reflexivity].
    assert (has_key c r = true) by (apply has_key_In; exists (c, w); auto). congruence.
Qed.

Lemma set_cell_all_val_other (c c' : string) (v v' : value) (r : row) :
  c' <> c -> all_val c v r -> all_val c v (set_cell c' v' r).
Proof.
  intros Hne [Hk Hall]. unfold set_cell. destruct (has_key c' r) eqn:Hk'; split.
  - apply has_key_In in Hk. destruct Hk as [[k w] [Hin Hf]]. simpl in Hf. subst k.
    apply has_key_In. exists (c, w). split; [|reflexivity].
    apply in_map_iff. exists (c, w). simpl.
    apply String.eqb_neq in Hne. rewrite String.eqb_sym, Hne. auto.
  - intros kv Hin Hf. apply in_map_iff in Hin. destruct Hin as [[k w] [E Hin]].
    simpl in E. destruct (String.eqb k c') eqn:Ek.
    + subst kv. simpl in Hf. congruence.
    + subst kv. apply (Hall _ Hin Hf).
  - unfold has_key. rewrite existsb_app. unfold has_key in Hk. rewrite Hk. reflexivity.
  - intros kv Hin Hf. apply in_app_or in Hin. destruct Hin as [Hin | [E | []]].
    + apply (Hall _ Hin Hf).
    + subst kv. simpl in Hf. congruence.
Qed.

Lemma all_val_get (c : string) (v : value) (r : row) : all_val c v r -> get c r = v.
Proof.
  intros [Hk Hall]. induction r as [|[k w] r IH]; simpl in *; [discriminate|].
  destruct (String.eqb k c) eqn:E.
  - apply String.eqb_eq in E. apply (Hall (k, w)); auto.
  - apply IH; [exact Hk|]. intros kv Hin. apply Hall. auto.
Qed.

Lemma set_cell_noop (c : string) (v : value) (r : row) : all_val c v r -> set_cell c v r = r.
Proof.
  intros [Hk Hall]. unfold set_cell. rewrite Hk.
  rewrite <- (map_id r) at 2. apply map_ext_in. intros [k w] Hin. simpl.
  destruct (String.eqb k c) eqn:E; [|reflexivity].
  apply String.eqb_eq in E. subst k. rewrite <- (Hall _ Hin eq_refl). reflexivity.
Qed.

(** Labels of a row all satisfy [P]; [set_cell] keeps it for a label in [P]. *)
Lemma set_cell_keys (P : string -> Prop) (c : string) (v : value) (r : row) :
  P c -> (forall kv, In kv r -> P (fst kv)) ->
  forall kv, In kv (set_cell c v r) -> P (fst kv).
Proof.
  intros Hc Hr kv Hin. unfold set_cell in Hin. destruct (has_key c r).
  - apply in_map_iff in Hin. destruct Hin as [[k w] [E Hin]].
    subst kv. simpl. destruct (String.eqb k c); [exact Hc | apply (Hr _ Hin)].
  - apply in_app_or in Hin. destruct Hin as [Hin | [<- | []]]; [apply Hr, Hin | exact Hc].
Qed.

(** ** Conversions *)

Lemma parse_ymd_valid (s : string) (d : date) :
  parse_ymd s = Some d -> valid_date d = true.
Proof.
  unfold parse_ymd.
  destruct (list_ascii_of_string s) as [|y1 [|y2 [|y3 [|y4 [|m1 [|m2 [|d1 [|d2 [|x l]]]]]]]]];
    try discriminate.
  destruct (forallb is_digit _); [|discriminate].
  destruct (valid_date _) eqn:Hv; simpl; [|discriminate].
  destruct (timestamp_in_bounds _); [|discriminate].
  intros H. injection H as <-. exact Hv.
Qed.

Lemma parse_unsigned_numeric (l : list ascii) (v : value) :
  parse_unsigned l = Some v -> is_numeric v = true.
Proof.
  unfold parse_unsigned. destruct (take_digits l) as [ip rest].
  destruct rest as [|c t].
  - destruct ip; intros H; inversion H; reflexivity.
  - destruct (Ascii.eqb c "."%char); [|discriminate].
    destruct (take_digits t) as [fp rest2].
    destruct rest2, ip, fp; intros H; inversion H; reflexivity.
Qed.

Lemma parse_number_numeric (s : string) (v : value) :
  parse_number s = Some v -> is_numeric v = true.
Proof.
  assert (Hneg : forall l, option_map negate_value (parse_unsigned l) = Some v ->
                           is_numeric v = true).
  { intros l H. destruct (parse_unsigned l) as [u|] eqn:E; [|discriminate].
    injection H as <-. apply parse_unsigned_numeric in E.
    destruct u; try discriminate; reflexivity. }
  unfold parse_number.
  destruct (list_ascii_of_string (strip s)) as [|c t];
    [apply parse_unsigned_numeric|].
  destruct (Ascii.ascii_dec c "-"%char) as [-> | Hm]; [apply Hneg|].
  destruct (Ascii.ascii_dec c "+"%char) as [-> | Hp]; [apply parse_unsigned_numeric|].
  destruct c as [[] [] [] [] [] [] [] []];
    first [ apply parse_unsigned_numeric
          | exfalso; apply Hm; reflexivity
          | exfalso; apply Hp; reflexivity ].
Qed.

Lemma to_numeric_numeric (v : value) :
  is_null (to_numeric v) = false -> is_numeric (to_numeric v) = true.
Proof.
  destruct v; simpl; try reflexivity; try discriminate.
  destruct (parse_number s) as [n|] eqn:E; [|discriminate].
  intros _. apply (parse_number_numeric _ _ E).
Qed.

Lemma to_numeric_idem (v : value) : to_numeric (to_numeric v) = to_numeric v.
Proof.
  destruct v; simpl; try reflexivity.
  destruct (parse_number s) as [n|] eqn:E; [|reflexivity].
  apply parse_number_numeric in E. destruct n; try discriminate; reflexivity.
Qed.

(** ** Column lists *)

Lemma In_add_column (c d : string) (cols : list string) :
  In c (add_column d cols) <-> In c cols \/ c = d.
Proof.
  unfold add_column. destruct (existsb (String.eqb d) cols) eqn:E.
  - apply existsb_exists in E. destruct E as [x [Hx Ex]]. apply String.eqb_eq in Ex.
    subst x. split; [auto | intros [H | ->]; auto].
  - rewrite in_app_iff. simpl. split; intros [H | H]; auto; destruct H as [H | []]; auto.
Qed.

Lemma count_add_column (c d : string) (cols : list string) :
  c <> d -> count_col c (add_column d cols) = count_col c cols.
Proof.
  intros Hne. unfold count_col, add_column.
  destruct (existsb (String.eqb d) cols); [reflexivity|].
  rewrite count_occ_app. simpl. destruct (string_dec d c); [congruence|]. lia.
Qed.

(** ** Rows of [preprocess] *)

Lemma date_stage_rows (df : frame) (r : row) :
  In r (rows (date_stage df)) ->
  exists r0, In r0 (map clean_row (rows df)) /\ r = parse_date_row r0 /\
             is_null (get "date" r) = false.
Proof.
  unfold date_stage, dropna. simpl. rewrite filter_In, in_map_iff.
  intros [[r0 [<- Hr0]] Hnn]. exists r0. split; [exact Hr0|]. split; [reflexivity|].
  destruct (is_null _); [discriminate | reflexivity].
Qed.

Lemma parse_date_row_date (r : row) :
  is_null (get "date" (parse_date_row r)) = false ->
  exists d, get "date" (parse_date_row r) = VDate d /\ valid_date d = true /\
    parse_ymd (clean_yearmonth (get "_yearmonth" r) ++ "01") = Some d.
Proof.
  unfold parse_date_row. rewrite get_set_same. unfold to_datetime_ymd.
  destruct (parse_ymd _) as [d|] eqn:E; [|discriminate].
  intros _. exists d. split; [reflexivity|]. split; [|reflexivity].
  apply (parse_ymd_valid _ _ E).
Qed.

(** ** Normalized labels *)

Lemma map_str_map (f g : ascii -> ascii) (s : string) :
  map_str f (map_str g s) = map_str (fun c => f (g c)) s.
Proof. induction s as [|c s IH]; simpl; [reflexivity | rewrite IH; reflexivity]. Qed.

Lemma map_str_ext (f g : ascii -> ascii) (s : string) :
  (forall c, f c = g c) -> map_str f s = map_str g s.
Proof.
  intros H. induction s as [|c s IH]; simpl; [reflexivity | rewrite H, IH; reflexivity].
Qed.

(** The per-character part of [normalize_column]. *)
Definition label_char (c : ascii) : ascii :=
  if Ascii.eqb (lower_char c) " "%char then "_"%char else lower_char c.

Lemma normalize_column_map (c : string) :
  normalize_column c = map_str label_char (strip c).
Proof. unfold normalize_column, replace_space, str_lower. rewrite map_str_map. reflexivity. Qed.

Lemma label_char_ws (c : ascii) : is_ws (label_char c) = true -> is_ws c = true.
Proof.
  destruct c as [[] [] [] [] [] [] [] []]; vm_compute; intros H;
    first [reflexivity | discriminate H].
Qed.

Lemma label_char_idem (c : ascii) : label_char (label_char c) = label_char c.
Proof. destruct c as [[] [] [] [] [] [] [] []]; vm_compute; reflexivity. Qed.

Definition no_lead_ws (s : string) : Prop :=
  match s with String c _ => is_ws c = false | EmptyString => True end.

Fixpoint ends_ws (s : string) : bool :=
  match s with
  | EmptyString => false
  | String c r => match r with EmptyString => is_ws c | _ => ends_ws r end
  end.

Lemma lstrip_no_lead (s : string) : no_lead_ws (lstrip s).
Proof.
  induction s as [|c s IH]; simpl; [exact I|].
  destruct (is_ws c) eqn:E; [exact IH | exact E].
Qed.

Lemma rstrip_no_lead (s : string) : no_lead_ws s -> no_lead_ws (rstrip s).
Proof.
  destruct s as [|c s]; simpl; [tauto|]. intros H.
  destruct (rstrip s); [rewrite H|]; exact H || exact I.
Qed.

Lemma rstrip_ends (s : string) : ends_ws (rstrip s) = false.
Proof.
  induction s as [|c s IH]; simpl; [reflexivity|].
  destruct (rstrip s) as [|a b] eqn:E.
  - destruct (is_ws c) eqn:Ec; [reflexivity | exact Ec].
  - exact IH.
Qed.

Lemma lstrip_fix (s : string) : no_lead_ws s -> lstrip s = s.
Proof. destruct s as [|c s]; simpl; [reflexivity|]. intros H. rewrite H. reflexivity. Qed.

Lemma rstrip_fix (s : string) : ends_ws s = false -> rstrip s = s.
Proof.
  induction s as [|c s IH]; simpl; [reflexivity|]. intros H.
  destruct s as [|a b].
  - simpl. rewrite H. reflexivity.
  - rewrite (IH H). reflexivity.
Qed.

Lemma map_label_no_lead (s : string) : no_lead_ws s -> no_lead_ws (map_str label_char s).
Proof.
  destruct s as [|c s]; simpl; [tauto|]. intros H.
  destruct (is_ws (label_char c)) eqn:E; [|reflexivity].
  apply label_char_ws in E. congruence.
Qed.

Lemma map_label_ends (s : string) : ends_ws s = false -> ends_ws (map_str label_char s) = false.
Proof.
  induction s as [|c s IH]; simpl; [reflexivity|]. intros H.
  destruct s as [|a b]; simpl.
  - destruct (is_ws (label_char c)) eqn:E; [|reflexivity].
    apply label_char_ws in E. congruence.
  - apply IH in H. exact H.
Qed.

Lemma normalize_column_idem (c : string) :
  normalize_column (normalize_column c) = normalize_column c.
Proof.
  rewrite !normalize_column_map. unfold strip at 1.
  assert (Hl : no_lead_ws (strip c)) by (apply rstrip_no_lead, lstrip_no_lead).
  assert (He : ends_ws (strip c) = false) by apply rstrip_ends.
  rewrite (lstrip_fix _ (map_label_no_lead _ Hl)).
  rewrite (rstrip_fix _ (map_label_ends _ He)).
  rewrite map_str_map. apply map_str_ext. apply label_char_idem.
Qed.

Lemma rename_column_eq (c : string) :
  rename_column c = if String.eqb "monthlyrate" c then "hospitalization_rate" else c.
Proof.
  unfold rename_column, COLUMN_RENAME_MAP. cbn [find fst].
  destruct (String.eqb "monthlyrate" c); reflexivity.
Qed.

Lemma clean_label_idem (c : string) : clean_label (clean_label c) = clean_label c.
Proof.
  unfold clean_label at 2 3. rewrite rename_column_eq.
  destruct (String.eqb "monthlyrate" (normalize_column c)) eqn:E; [reflexivity|].
  unfold clean_label. rewrite normalize_column_idem, rename_column_eq, E. reflexivity.
Qed.

(** ** The year-month code of a dated row *)

Lemma list_ascii_of_string_app (a b : string) :
  list_ascii_of_string (a ++ b) = (list_ascii_of_string a ++ list_ascii_of_string b)%list.
Proof. induction a as [|c a IH]; simpl; [reflexivity | rewrite IH; reflexivity]. Qed.

Lemma length_list_ascii (s : string) : String.length s = length (list_ascii_of_string s).
Proof. induction s as [|c s IH]; simpl; [reflexivity | rewrite IH; reflexivity]. Qed.

Lemma digit_not_special (c : ascii) :
  is_digit c = true -> Ascii.eqb c "."%char = false /\ Ascii.eqb c "010"%char = false.
Proof.
  intros H. split.
  - destruct (Ascii.eqb_spec c "."%char) as [-> | _]; [discriminate H | reflexivity].
  - destruct (Ascii.eqb_spec c "010"%char) as [-> | _]; [discriminate H | reflexivity].
Qed.

(** A code that parses once parses again to itself: six digits survive
    [astype(str)], the [\.0$] substitution and [zfill(6)]. *)
Lemma clean_yearmonth_fix (ym : string) (d : date) :
  parse_ymd (ym ++ "01") = Some d -> clean_yearmonth (VStr ym) = ym.
Proof.
  unfold parse_ymd. rewrite list_ascii_of_string_app. intros Hp.
  unfold clean_yearmonth, astype_str, zfill, strip_dot0.
  rewrite length_list_ascii.
  destruct (list_ascii_of_string ym) as
      [|y1 [|y2 [|y3 [|y4 [|m1 [|m2 [|x l]]]]]]] eqn:Hl;
    cbn [app list_ascii_of_string] in Hp; try discriminate Hp;
    [|destruct l as [|z [|z' l]]; simpl in Hp; discriminate Hp].
  destruct (forallb is_digit [y1; y2; y3; y4; m1; m2; "0"%char; "1"%char]) eqn:Hd;
    [|discriminate Hp].
  rewrite forallb_forall in Hd.
  assert (Hm1 : is_digit m1 = true) by (apply Hd; simpl; tauto).
  assert (Hm2 : is_digit m2 = true) by (apply Hd; simpl; tauto).
  simpl. destruct (digit_not_special m1 Hm1) as [-> _].
  destruct (digit_not_special m2 Hm2) as [_ ->]. rewrite !andb_false_r. simpl.
  rewrite Hl. reflexivity.
Qed.

(** ** Rows left by [preprocess] *)

Definition clean_keys (r : row) : Prop := forall kv, In kv r -> clean_label (fst kv) = fst kv.

(** A row after the date stage: clean labels, a year-month code and the
    timestamp it parses to. *)
Definition stage_row (r : row) : Prop :=
  clean_keys r /\
  exists ym d, all_val "_yearmonth" (VStr ym) r /\ all_val "date" (VDate d) r /\
               parse_ymd (ym ++ "01") = Some d.

Lemma clean_row_keys (r : row) : clean_keys (clean_row r).
Proof.
  intros kv Hin. unfold clean_row in Hin. apply in_map_iff in Hin.
  destruct Hin as [[k v] [<- _]]. apply clean_label_idem.
Qed.

Lemma date_stage_stage_row (df : frame) (r : row) :
  In r (rows (date_stage df)) -> stage_row r.
Proof.
  intros Hr. destruct (date_stage_rows df r Hr) as [r0 [Hr0 [-> Hnn]]].
  destruct (parse_date_row_date r0 Hnn) as [d [Hd [_ Hp]]].
  apply in_map_iff in Hr0. destruct Hr0 as [r00 [<- _]].
  split.
  - unfold parse_date_row. intros kv Hin.
    refine (set_cell_keys (fun k => clean_label k = k) _ _ _ _ _ kv Hin); [reflexivity|].
    intros kv' Hin'.
    refine (set_cell_keys (fun k => clean_label k = k) _ _ _ _ _ kv' Hin');
      [reflexivity | apply clean_row_keys].
  - exists (clean_yearmonth (get "_yearmonth" (clean_row r00))), d.
    unfold parse_date_row in *. split; [|split; [|exact Hp]].
    + apply set_cell_all_val_other; [discriminate | apply set_cell_all_val].
    + unfold to_datetime_ymd. rewrite Hp. apply set_cell_all_val.
Qed.

Lemma stage_row_fix (r : row) :
  stage_row r -> clean_row r = r /\ parse_date_row r = r /\ is_null (get "date" r) = false.
Proof.
  intros [Hk [ym [d [Hym [Hd Hp]]]]]. split; [|split].
  - unfold clean_row. rewrite <- (map_id r) at 2. apply map_ext_in.
    intros [k v] Hin. simpl. pose proof (Hk (k, v) Hin) as E. simpl in E.
    rewrite E. reflexivity.
  - unfold parse_date_row. rewrite (all_val_get _ _ _ Hym).
    rewrite (clean_yearmonth_fix ym d Hp), (set_cell_noop _ _ _ Hym).
    unfold to_datetime_ymd. rewrite Hp. apply set_cell_noop, Hd.
  - rewrite (all_val_get _ _ _ Hd). reflexivity.
Qed.

Lemma stage_row_set_rate (r : row) (v : value) :
  stage_row r -> stage_row (set_cell "hospitalization_rate" v r).
Proof.
  intros [Hk [ym [d [Hym [Hd Hp]]]]]. split.
  - intros kv Hin.
    refine (set_cell_keys (fun k => clean_label k = k) _ _ _ _ Hk kv Hin). reflexivity.
  - exists ym, d. split; [|split; [|exact Hp]]; apply set_cell_all_val_other;
      try discriminate; assumption.
Qed.

Lemma date_stage_fix (f : frame) :
  (forall c, In c (columns f) -> clean_label c = c) -> In "date" (columns f) ->
  (forall r, In r (rows f) -> stage_row r) -> date_stage f = f.
Proof.
  intros Hc Hdate Hr. destruct f as [cols rs]. unfold date_stage. simpl in *. f_equal.
  - rewrite <- (map_id cols) at 2. rewrite (map_ext_in _ _ _ Hc).
    unfold add_column. rewrite map_id.
    assert (existsb (String.eqb "date") cols = true) as ->
      by (apply existsb_exists; exists "date"; split; [exact Hdate | apply String.eqb_refl]).
    reflexivity.
  - unfold dropna. rewrite map_map.
    rewrite (map_ext_in _ (fun r => r)) by
      (intros r Hin; destruct (stage_row_fix r (Hr r Hin)) as [-> [-> _]]; reflexivity).
    rewrite map_id. apply filter_id_in. intros r Hin.
    destruct (stage_row_fix r (Hr r Hin)) as [_ [_ ->]]. reflexivity.
Qed.

(** ** Lexicographic order on labels *)

Lemma string_compare_refl (s : string) : String.compare s s = Eq.
Proof.
  induction s as [|c s IH]; cbn [String.compare]; [reflexivity|].
  unfold Ascii.compare. rewrite N.compare_refl. exact IH.
Qed.

Lemma string_compare_lt_trans (a b c : string) :
  String.compare a b = Lt -> String.compare b c = Lt -> String.compare a c = Lt.
Proof.
  revert b c. induction a as [|x a IH]; intros [|y b] [|z c] H1 H2;
    cbn [String.compare] in *; try discriminate; try reflexivity.
  unfold Ascii.compare in *.
  destruct (N.compare_spec (N_of_ascii x) (N_of_ascii y)) as [Hxy|Hxy|Hxy];
    destruct (N.compare_spec (N_of_ascii y) (N_of_ascii z)) as [Hyz|Hyz|Hyz];
    try discriminate.
  - rewrite Hxy, Hyz, N.compare_refl. exact (IH _ _ H1 H2).
  - replace (N.compare (N_of_ascii x) (N_of_ascii z)) with Lt;
      [reflexivity | symmetry; apply N.compare_lt_iff; lia].
  - replace (N.compare (N_of_ascii x) (N_of_ascii z)) with Lt;
      [reflexivity | symmetry; apply N.compare_lt_iff; lia].
  - replace (N.compare (N_of_ascii x) (N_of_ascii z)) with Lt;
      [reflexivity | symmetry; apply N.compare_lt_iff; lia].
Qed.

Lemma string_leb_spec (a b : string) :
  String.leb a b = true <-> a = b \/ String.compare a b = Lt.
Proof.
  unfold String.leb. destruct (String.compare a b) eqn:E.
  - split; [intros _; left; apply String.compare_eq_iff, E | reflexivity].
  - split; [intros _; right; reflexivity | reflexivity].
  - split; [discriminate|].
    intros [-> | H]; [rewrite string_compare_refl in E |]; discriminate.
Qed.

Lemma string_ltb_spec (a b : string) : String.ltb a b = true <-> String.compare a b = Lt.
Proof. unfold String.ltb. destruct (String.compare a b); split; congruence. Qed.

Lemma string_leb_trans (a b c : string) :
  String.leb a b = true -> String.leb b c = true -> String.leb a c = true.
Proof.
  rewrite !string_leb_spec. intros [-> | H1] [-> | H2]; auto.
  right. exact (string_compare_lt_trans _ _ _ H1 H2).
Qed.

Lemma string_leb_total (a b : string) : String.leb a b = false -> String.leb b a = true.
Proof. intros H. destruct (String.leb_total a b); congruence. Qed.

(** In a sorted list of distinct labels, [s] is among the first [n]
    exactly when fewer than [n] labels of the list sort before it. *)
Lemma firstn_sorted_rank (L : list string) (s : string) (n : nat) :
  StronglySorted (fun a b => String.leb a b = true) L -> NoDup L -> In s L ->
  (In s (firstn n L) <-> (length (filter (fun t => String.ltb t s) L) < n)%nat).
Proof.
  revert n. induction L as [|a L IH]; intros n Hs Hnd Hin; [destruct Hin|].
  inversion Hs as [|? ? Hs' Hall]; subst. inversion Hnd as [|? ? Hna Hnd']; subst.
  rewrite Forall_forall in Hall.
  destruct n as [|n]; [simpl; split; [intros [] | lia]|].
  simpl firstn. destruct Hin as [<- | Hin].
  - assert (Hz : filter (fun t => String.ltb t a) (a :: L) = []).
    { simpl. unfold String.ltb at 1. rewrite string_compare_refl.
      assert (forall l, (forall t, In t l -> String.leb a t = true /\ t <> a) ->
                        filter (fun t => String.ltb t a) l = []) as Hf.
      { induction l as [|t l IHl]; intros Hl; simpl; [reflexivity|].
        destruct (Hl t (or_introl eq_refl)) as [Hle Hne].
        assert (String.ltb t a = false) as ->.
        { destruct (String.ltb t a) eqn:E; [|reflexivity]. exfalso.
          apply string_ltb_spec in E. apply string_leb_spec in Hle.
          destruct Hle as [-> | Hle]; [congruence|].
          pose proof (string_compare_lt_trans _ _ _ E Hle) as C.
          rewrite string_compare_refl in C. discriminate. }
        apply IHl. intros t' Ht'. apply Hl. right. exact Ht'. }
      apply Hf. intros t Ht. split; [apply Hall, Ht | intros ->; contradiction]. }
    rewrite Hz. simpl. split; [lia | auto].
  - assert (Hlt : String.ltb a s = true).
    { apply string_ltb_spec. destruct (proj1 (string_leb_spec a s) (Hall s Hin)) as [-> | H];
        [contradiction | exact H]. }
    simpl. rewrite Hlt. simpl.
    split.
    + intros [E | H]; [subst; contradiction|].
      apply (IH n Hs' Hnd' Hin) in H. lia.
    + intros H. right. apply (IH n Hs' Hnd' Hin). lia.
Qed.

(** ** Cells of the state column *)

Lemma sort_by_map_VStr (l : list string) :
  sort_by value_leb (map VStr l) = map VStr (sort_by String.leb l).
Proof.
  induction l as [|x l IH]; simpl; [reflexivity|]. rewrite IH.
  clear IH. generalize (sort_by String.leb l) as m.
  induction m as [|y m IHm]; simpl; [reflexivity|].
  destruct (String.leb x y); [reflexivity | rewrite IHm; reflexivity].
Qed.

Lemma isin_map_VStr (s : string) (l : list string) :
  isin (VStr s) (map VStr l) = existsb (String.eqb s) l.
Proof. unfold isin. simpl. induction l as [|t l IH]; simpl; [reflexivity | rewrite IH; reflexivity]. Qed.

Lemma existsb_eqb_In (s : string) (l : list string) :
  existsb (String.eqb s) l = true <-> In s l.
Proof.
  rewrite existsb_exists. split.
  - intros [x [Hx E]]. apply String.eqb_eq in E. subst. exact Hx.
  - intros H. exists s. split; [exact H | apply String.eqb_refl].
Qed.

Lemma state_in_rows (rs : list row) (s : string) :
  (forall r, In r rs -> exists t, get "state" r = VStr t) ->
  (In (VStr s) (map (get "state") rs) <-> In s (map state_name rs)).
Proof.
  intros Hs. rewrite !in_map_iff. split; intros [r [E Hr]]; exists r; split; auto;
    unfold state_name in *; destruct (Hs r Hr) as [t Ht]; rewrite Ht in *; congruence.
Qed.

Lemma In_map_VStr (x : string) (l : list string) : In (VStr x) (map VStr l) <-> In x l.
Proof.
  split; [|apply in_map]. intros H. apply in_map_iff in H.
  destruct H as [y [E Hy]]. injection E as ->. exact Hy.
Qed.

Lemma map_VStr_strs (l : list value) :
  (forall v, In v l -> exists s, v = VStr s) ->
  map VStr (map (fun v => match v with VStr s => s | _ => ""%string end) l) = l.
Proof.
  induction l as [|a l IH]; simpl; intros H; [reflexivity|].
  destruct (H a (or_introl eq_refl)) as [s ->]. rewrite IH; auto.
Qed.

Lemma py_sorted_str (l : list value) :
  forallb (fun v => match v with VStr _ => true | _ => false end) l = true ->
  py_sorted l = Some (sort_by value_leb l).
Proof.
  intros H. unfold py_sorted. destruct l as [|a [|b t]]; [reflexivity|reflexivity|].
  rewrite H. reflexivity.
Qed.

Lemma perm_filter_length {A} (f : A -> bool) (l l' : list A) :
  Permutation l l' -> length (filter f l) = length (filter f l').
Proof.
  induction 1; simpl; try reflexivity.
  - destruct (f x); simpl; congruence.
  - destruct (f x), (f y); reflexivity.
  - congruence.
Qed.

Lemma existsb_eqb_filter (q : string -> bool) (s : string) (l : list string) :
  q s = true -> existsb (String.eqb s) (filter q l) = existsb (String.eqb s) l.
Proof.
  intros Hq. induction l as [|x l IH]; simpl; [reflexivity|].
  destruct (q x) eqn:E; simpl; rewrite IH; [reflexivity|].
  destruct (String.eqb s x) eqn:E2; [|reflexivity].
  apply String.eqb_eq in E2. subst. congruence.
Qed.

(** ** The [.str] accessor *)

Lemma str_accessor_ok_str (vs : list value) (s : string) :
  In (VStr s) vs -> str_accessor_ok vs = true.
Proof.
  intros H. unfold str_accessor_ok. destruct vs as [|v0 vs0]; [destruct H|].
  assert (Hn : In (VStr s) (filter (fun v => negb (is_null v)) (v0 :: vs0)))
    by (apply filter_In; auto).
  destruct (filter _ (v0 :: vs0)) as [|w ws]; [destruct Hn|].
  apply negb_true_iff, orb_false_iff.
  split; apply not_true_is_false; intros E; rewrite forallb_forall in E;
    specialize (E _ Hn); discriminate.
Qed.

Lemma str_accessor_ok_fail (vs : list value) :
  (exists v, In v vs /\ is_null v = false) ->
  (forall v, In v vs -> is_null v = false -> is_numeric v = true) \/
  (forall v, In v vs -> is_null v = false -> exists d, v = VDate d) ->
  str_accessor_ok vs = false.
Proof.
  intros [v [Hv Hnv]] Hall. unfold str_accessor_ok. destruct vs as [|v0 vs0]; [destruct Hv|].
  assert (Hn : In v (filter (fun v => negb (is_null v)) (v0 :: vs0)))
    by (apply filter_In; rewrite Hnv; auto).
  destruct (filter _ (v0 :: vs0)) as [|w ws] eqn:E; [destruct Hn|].
  apply negb_false_iff. apply orb_true_iff.
  destruct Hall as [Hall|Hall]; [left|right]; apply forallb_forall; intros x Hx;
    rewrite <- E in Hx; apply filter_In in Hx; destruct Hx as [Hx Hx']; apply negb_true_iff in Hx'.
  - apply Hall; assumption.
  - destruct (Hall x Hx Hx') as [d ->]. reflexivity.
Qed.

(* ================================================================== *)
(** * Claims *)

(** C8 (counterexample): a frame with the four canonical columns whose
    [type] column holds numbers: [df["type"].str] raises [AttributeError],
    so [canonical_slice] fails instead of returning the (empty) subset. *)
Lemma canonical_slice_numeric_type :
  (forall c, In c CANONICAL_COLUMNS -> In c (columns numeric_type_df)) /\
  canonical_slice numeric_type_df = None.
Proof.
  split; [|vm_compute; reflexivity].
  intros c Hc. simpl in Hc.
  repeat (destruct Hc as [<- | Hc]; [simpl; auto 10|]). destruct Hc.
Qed.

(** C8 (amended): when one of [sex_label], [race_label],
    [agecategory_legend], [type] is missing (for instance [type]),
    [canonical_slice] returns an empty frame with the same columns instead
    of failing.  When all four are present and some [type] cell is a
    string, it returns exactly the rows with age, sex and race equal to
    "All" and a [type] string containing "Crude", with the same columns.
    When all four are present, some [type] cell is not missing, and the
    non-missing [type] cells are all numbers or all timestamps, it raises. *)
Theorem canonical_slice_spec (df : frame) :
  ((exists c, In c CANONICAL_COLUMNS /\ ~ In c (columns df)) ->
   canonical_slice df = Some (mkFrame (columns df) [])) /\
  ((forall c, In c CANONICAL_COLUMNS -> In c (columns df)) ->
   (exists r s, In r (rows df) /\ get "type" r = VStr s) ->
   exists out, canonical_slice df = Some out /\ columns out = columns df /\
   forall r, In r (rows out) <->
     In r (rows df) /\ get "agecategory_legend" r = VStr "All"
     /\ get "sex_label" r = VStr "All" /\ get "race_label" r = VStr "All"
     /\ exists s p q, get "type" r = VStr s /\ s = p ++ "Crude" ++ q) /\
  ((forall c, In c CANONICAL_COLUMNS -> In c (columns df)) ->
   (exists r, In r (rows df) /\ is_null (get "type" r) = false) ->
   (forall r, In r (rows df) -> is_null (get "type" r) = false ->
      is_numeric (get "type" r) = true) \/
   (forall r, In r (rows df) -> is_null (get "type" r) = false ->
      exists d, get "type" r = VDate d) ->
   canonical_slice df = None).
Proof.
  assert (Hall : (forall c, In c CANONICAL_COLUMNS -> In c (columns df)) ->
    forallb (fun c => has_column c (columns df)) CANONICAL_COLUMNS = true).
  { intros H. apply forallb_forall. intros c Hc. apply has_column_spec, H, Hc. }
  unfold canonical_slice. split; [|split].
  - intros [c [Hc Hn]].
    destruct (forallb (fun c => has_column c (columns df)) CANONICAL_COLUMNS) eqn:E;
      [|reflexivity].
    exfalso. rewrite forallb_forall in E. apply Hn, has_column_spec, E, Hc.
  - intros Hc [r [s [Hr Hs]]]. rewrite (Hall Hc). simpl negb. cbv iota.
    rewrite (str_accessor_ok_str _ s) by (rewrite <- Hs; apply in_map, Hr).
    eexists. split; [reflexivity|]. split; [reflexivity|].
    intros r'. cbn [rows]. rewrite filter_In. unfold canonical_row.
    rewrite !andb_true_iff, !value_eqb_str, str_contains_spec. tauto.
  - intros Hc [r [Hr Hnr]] Hk. rewrite (Hall Hc). simpl negb. cbv iota.
    rewrite str_accessor_ok_fail; [reflexivity| |].
    + exists (get "type" r). split; [apply in_map, Hr | exact Hnr].
    + destruct Hk as [Hk|Hk]; [left|right]; intros v Hv Hnv;
        apply in_map_iff in Hv; destruct Hv as [r' [<- Hr']]; auto.
Qed.

(** C6: the per-dimension filters of [apply_filters] commute: any
    reordering of the selections gives the same result (the same error
    included); the result keeps the rows inside the inclusive date range
    whose value is in the selected set of every dimension with a non-empty
    selection, empty selections imposing nothing. *)
Theorem apply_filters_commute (df : frame) (date_range : date * date)
    (sel sel' : selections) :
  Permutation sel sel' ->
  apply_filters df date_range sel = apply_filters df date_range sel' /\
  (forall out, apply_filters df date_range sel = Some out ->
     columns out = columns df /\
     forall r, In r (rows out) <->
       In r (rows df) /\
       (exists d, get "date" r = VDate d /\ date_leb (fst date_range) d = true
                  /\ date_leb d (snd date_range) = true) /\
       (forall c vals, In (c, vals) sel -> vals <> [] ->
                       exists s, In s vals /\ get c r = VStr s)).
Proof.
  intros Hp. unfold apply_filters. rewrite !filter_dims_spec.
  assert (Hok : dims_ok (columns df) sel = dims_ok (columns df) sel')
    by (unfold dims_ok; apply forallb_perm; exact Hp).
  assert (Hm : forall r, dims_match sel r = dims_match sel' r)
    by (intros r; unfold dims_match; apply forallb_perm; exact Hp).
  split.
  - rewrite Hok. destruct (has_column "date" (columns df)); [|reflexivity].
    destruct (date_column_ok (rows df)); [|reflexivity].
    destruct (dims_ok (columns df) sel'); [|reflexivity]. simpl.
    do 2 f_equal. apply filter_ext. exact Hm.
  - intros out. destruct (has_column "date" (columns df)); [|discriminate].
    destruct (date_column_ok (rows df)); [|discriminate].
    destruct (dims_ok (columns df) sel); [|discriminate]. simpl.
    intros H. injection H as <-. simpl. split; [reflexivity|].
    intros r. rewrite filter_In, filter_In, dims_match_spec, in_date_range_spec.
    tauto.
Qed.

(** C7: with every selection empty and the date range equal to the
    minimum and maximum timestamps of the data (as [render_sidebar]
    computes them), [apply_filters] returns its input unchanged, for data
    that has a [date] column with a timestamp in every row. *)
Theorem apply_filters_noop (df : frame) (sel : selections) (lo hi : date) :
  In "date" (columns df) ->
  (forall r, In r (rows df) -> exists d, get "date" r = VDate d) ->
  min_value (map (get "date") (rows df)) = Some (VDate lo) ->
  max_value (map (get "date") (rows df)) = Some (VDate hi) ->
  (forall c vals, In (c, vals) sel -> vals = []) ->
  apply_filters df (lo, hi) sel = Some df.
Proof.
  intros Hc Hd Hmin Hmax Hsel. unfold apply_filters.
  apply has_column_spec in Hc. rewrite Hc.
  replace (date_column_ok (rows df)) with true
    by (symmetry; apply forallb_forall; intros r Hr; destruct (Hd r Hr) as [d ->]; reflexivity).
  rewrite filter_dims_all_empty by exact Hsel. simpl.
  rewrite filter_id_in; [destruct df; reflexivity|].
  intros r Hr. apply in_date_range_spec.
  destruct (Hd r Hr) as [d Hrd]. exists d. split; [exact Hrd|].
  unfold min_value, max_value in *.
  rewrite (dates_as_VDate _ Hd) in Hmin, Hmax.
  destruct (fold_min_step_bound _ None lo Hmin) as [_ Hlo].
  destruct (fold_max_step_bound _ None hi Hmax) as [_ Hhi].
  assert (Hin : In d (map (fun r => date_of (get "date" r)) (rows df))).
  { apply in_map_iff. exists r. rewrite Hrd. auto. }
  split; [apply Hlo | apply Hhi]; exact Hin.
Qed.

(** ** Witnesses *)

Lemma apply_filters_commute_witness :
  Permutation [("state", ["California"]); ("sex_label", ["All"])]
              [("sex_label", ["All"]); ("state", ["California"])] /\
  apply_filters sample_df (mkDate 2022 1 1, mkDate 2022 2 1)
    [("state", ["California"]); ("sex_label", ["All"])] =
  apply_filters sample_df (mkDate 2022 1 1, mkDate 2022 2 1)
    [("sex_label", ["All"]); ("state", ["California"])].
Proof.
  assert (Hp : Permutation [("state", ["California"]); ("sex_label", ["All"])]
                           [("sex_label", ["All"]); ("state", ["California"])])
    by apply perm_swap.
  split; [exact Hp|].
  exact (proj1 (apply_filters_commute sample_df (mkDate 2022 1 1, mkDate 2022 2 1) _ _ Hp)).
Defined.

Lemma apply_filters_noop_witness :
  In "date" (columns sample_df) /\
  (forall r, In r (rows sample_df) -> exists d, get "date" r = VDate d) /\
  min_value (map (get "date") (rows sample_df)) = Some (VDate (mkDate 2022 1 1)) /\
  max_value (map (get "date") (rows sample_df)) = Some (VDate (mkDate 2022 2 1)) /\
  (forall c vals, In (c, vals) no_selection -> vals = []) /\
  apply_filters sample_df (mkDate 2022 1 1, mkDate 2022 2 1)
    no_selection = Some sample_df.
Proof.
  assert (H1 : In "date" (columns sample_df)) by (simpl; auto).
  assert (H2 : forall r, In r (rows sample_df) -> exists d, get "date" r = VDate d).
  { intros r Hr. simpl in Hr. destruct Hr as [<- | [<- | [<- | []]]]; eexists; reflexivity. }
  assert (H3 : min_value (map (get "date") (rows sample_df))
               = Some (VDate (mkDate 2022 1 1))) by reflexivity.
  assert (H4 : max_value (map (get "date") (rows sample_df))
               = Some (VDate (mkDate 2022 2 1))) by reflexivity.
  assert (H5 : forall c vals, In (c, vals) no_selection -> vals = []).
  { intros c vals Hin. unfold no_selection in Hin. simpl in Hin. destruct Hin as [E | [E | []]]; injection E; auto. }
  refine (conj H1 (conj H2 (conj H3 (conj H4 (conj H5 _))))).
  exact (apply_filters_noop sample_df _ _ _ H1 H2 H3 H4 H5).
Defined.

Lemma canonical_slice_spec_witness :
  (forall c, In c CANONICAL_COLUMNS -> In c (columns dashboard_df)) /\
  (exists r s, In r (rows dashboard_df) /\ get "type" r = VStr s) /\
  exists out, canonical_slice dashboard_df = Some out /\
    columns out = columns dashboard_df /\
    forall r, In r (rows out) <->
      In r (rows dashboard_df) /\ get "agecategory_legend" r = VStr "All"
      /\ get "sex_label" r = VStr "All" /\ get "race_label" r = VStr "All"
      /\ exists s p q, get "type" r = VStr s /\ s = p ++ "Crude" ++ q.
Proof.
  assert (H1 : forall c, In c CANONICAL_COLUMNS -> In c (columns dashboard_df)).
  { intros c Hc. simpl in Hc.
    repeat (destruct Hc as [<- | Hc]; [simpl; auto 10|]). destruct Hc. }
  assert (H2 : exists r s, In r (rows dashboard_df) /\ get "type" r = VStr s).
  { do 2 eexists. split; [simpl; left; reflexivity | reflexivity]. }
  exact (conj H1 (conj H2 (proj1 (proj2 (canonical_slice_spec dashboard_df)) H1 H2))).
Defined.

(** C4: on an empty input [aggregate_for_time_series] returns its input (an
    empty dataset); on chart rows it returns one row per (state, date) pair
    present in the input, carrying the arithmetic mean of the rates of that
    group, and the output rows are sorted ascending by date. *)
Theorem aggregate_for_time_series_spec (df : frame) :
  (rows df = [] -> aggregate_for_time_series df = Some df) /\
  ((forall c, In c TS_COLUMNS -> In c (columns df)) ->
   (forall r, In r (rows df) -> chart_row r) ->
   exists out, aggregate_for_time_series df = Some out /\
     Sorted (fun a b => date_row_leb a b = true) (rows out) /\
     (forall o, In o (rows out) -> exists s d,
         filter (row_has_sd s d) (rows df) <> [] /\
         o = [("state", VStr s); ("date", VDate d);
              ("hospitalization_rate",
               VFloat (mean_rate (filter (row_has_sd s d) (rows df))))]) /\
     (forall s d, filter (row_has_sd s d) (rows df) <> [] ->
         length (filter (row_has_sd s d) (rows out)) = 1%nat)).
Proof.
  split.
  { intros H. unfold aggregate_for_time_series, frame_empty. rewrite H. reflexivity. }
  intros Hcols Hrows.
  destruct (rows df) as [|r0 rs0] eqn:Er.
  { exists df. unfold aggregate_for_time_series, frame_empty. rewrite Er.
    split; [reflexivity|]. split; [constructor|].
    split; [intros o []|]. intros s d H. exfalso. apply H. reflexivity. }
  assert (Hfe : frame_empty df = false).
  { unfold frame_empty. rewrite Er. destruct (columns df) eqn:Ec; [|reflexivity].
    destruct (Hcols "state" (or_introl eq_refl)). }
  assert (Hall : forallb (fun c => has_column c (columns df)) TS_COLUMNS = true).
  { apply forallb_forall. intros c Hc. apply has_column_spec, Hcols, Hc. }
  rewrite <- Er in Hrows |- *.
  destruct (groupby_mean_spec ts_key key_same key_leb key_present
              (fun k => exists s d, k = (VStr s, VDate d)) (rows df))
    as [groups [Hgb [Hnd [Hin Hm]]]].
  { intros a b [s [d ->]] [s' [d' ->]]. unfold key_same, value_same. simpl.
    rewrite andb_true_iff, String.eqb_eq, date_eqb_spec.
    split; [intros [-> ->]; reflexivity | intros E; injection E as -> ->; auto]. }
  { intros r Hr _. destruct (Hrows r Hr) as [[s Hs] [[d Hd] _]].
    exists s, d. unfold ts_key. rewrite Hs, Hd. reflexivity. }
  { intros r Hr. apply (Hrows r Hr). }
  unfold aggregate_for_time_series. rewrite Hfe, Hall, Hgb.
  eexists. split; [reflexivity|]. cbn [rows].
  set (out := map _ groups).
  assert (Hp := sort_by_perm date_row_leb out).
  split; [apply sort_by_sorted; intros a b; apply value_leb_total|].
  split.
  - intros o Ho. apply (Permutation_in _ Hp) in Ho. unfold out in Ho.
    apply in_map_iff in Ho. destruct Ho as [[k m] [<- Hkm]].
    assert (Hk : In k (map fst groups)) by (apply in_map_iff; exists (k, m); auto).
    apply Hin in Hk. destruct Hk as [r [Hr [_ <-]]].
    destruct (Hrows r Hr) as [[s Hs] [[d Hd] _]].
    destruct (Hm _ _ Hkm) as [Hne Hmv].
    assert (Ek : ts_key r = (VStr s, VDate d)) by (unfold ts_key; rewrite Hs, Hd; reflexivity).
    rewrite Ek in Hne, Hmv |- *. rewrite ts_group_filter in Hne, Hmv.
    exists s, d. split; [exact Hne|]. simpl. rewrite Hmv. reflexivity.
  - intros s d Hne. rewrite (length_filter_perm _ _ _ Hp). unfold out.
    rewrite length_filter_map.
    transitivity (length (filter (fun k => value_eqb (fst k) (VStr s) &&
                                           value_eqb (snd k) (VDate d)) (map fst groups))).
    { rewrite length_filter_map. reflexivity. }
    apply length_filter_unique with (x := (VStr s, VDate d)); [exact Hnd | |].
    + apply Hin. destruct (filter_nonempty _ _ Hne) as [r [Hr Hsd]].
      unfold row_has_sd in Hsd. apply andb_true_iff in Hsd.
      rewrite value_eqb_str, value_eqb_date in Hsd. destruct Hsd as [Hs Hd].
      exists r. unfold ts_key, key_present. rewrite Hs, Hd. auto.
    + intros [a b]. simpl. rewrite andb_true_iff, value_eqb_str, value_eqb_date.
      split; [intros [-> ->]; reflexivity | intros E; injection E as -> ->; auto].
Qed.

(** C5: [aggregate_for_map] returns its input when the input is empty, an
    empty output when no row carries a timestamp (nothing is left at the
    latest date); on chart rows it keeps the rows at the latest timestamp
    [dmax] of the input and returns one row per state with the mean rate
    of that state at [dmax]; on (CA, 2022-01, 5), (CA, 2022-02, 7),
    (NY, 2022-02, 3) it returns (CA, 7), (NY, 3). *)
Theorem aggregate_for_map_spec (df : frame) :
  (rows df = [] -> aggregate_for_map df = Some df) /\
  (In "date" (columns df) -> (forall r, In r (rows df) -> get "date" r = VNull) ->
   exists out, aggregate_for_map df = Some out /\ rows out = []) /\
  ((forall c, In c TS_COLUMNS -> In c (columns df)) ->
   (forall r, In r (rows df) -> chart_row r) ->
   rows df <> [] ->
   exists out dmax, aggregate_for_map df = Some out /\
     (exists r, In r (rows df) /\ get "date" r = VDate dmax) /\
     (forall r, In r (rows df) -> date_leb (date_of (get "date" r)) dmax = true) /\
     (forall o, In o (rows out) -> exists s,
         filter (row_has_sd s dmax) (rows df) <> [] /\
         o = [("state", VStr s);
              ("hospitalization_rate",
               VFloat (mean_rate (filter (row_has_sd s dmax) (rows df))))]) /\
     (forall s, filter (row_has_sd s dmax) (rows df) <> [] ->
         length (filter (row_has_state s) (rows out)) = 1%nat)) /\
  aggregate_for_map map_example_df =
    Some (mkFrame MAP_COLUMNS
            [[("state", VStr "CA"); ("hospitalization_rate", VFloat (inject_Z 7))];
             [("state", VStr "NY"); ("hospitalization_rate", VFloat (inject_Z 3))]]).
Proof.
  split; [|split; [|split]].
  - intros H. unfold aggregate_for_map, frame_empty. rewrite H. reflexivity.
  - intros Hdate Hnull. unfold aggregate_for_map.
    assert (Hmax : max_value (map (get "date") (rows df)) = None).
    { unfold max_value. induction (rows df) as [|r rs IH]; [reflexivity|].
      simpl. rewrite (Hnull r (or_introl eq_refl)). apply IH.
      intros r' Hr'. apply Hnull. right. exact Hr'. }
    rewrite Hmax. apply has_column_spec in Hdate. rewrite Hdate.
    destruct (frame_empty df) eqn:Efe; [|eexists; split; reflexivity].
    exists df. split; [reflexivity|].
    unfold frame_empty in Efe. destruct (rows df) as [|r rs] eqn:Er; [reflexivity|].
    apply has_column_spec in Hdate. destruct (columns df); [destruct Hdate | discriminate].
  - intros Hcols Hrows Hne.
    assert (Hdates : forall r, In r (rows df) -> exists d, get "date" r = VDate d).
    { intros r Hr. destruct (Hrows r Hr) as [_ [Hd _]]. exact Hd. }
    destruct (fold_max_step_some (map (fun r => date_of (get "date" r)) (rows df)) None)
      as [dmax [Hmax Hin]].
    { right. destruct (rows df); [congruence | discriminate]. }
    destruct Hin as [Hin | Hin]; [discriminate|].
    pose proof (fold_max_step_bound _ None dmax Hmax) as [_ Hbound].
    apply in_map_iff in Hin. destruct Hin as [rmax [Hdm Hrmax]].
    assert (Hgetmax : get "date" rmax = VDate dmax).
    { destruct (Hdates rmax Hrmax) as [d Hd]. rewrite Hd in Hdm |- *. simpl in Hdm. congruence. }
    rewrite <- (dates_as_VDate _ Hdates) in Hmax.
    change (max_value (map (get "date") (rows df)) = Some (VDate dmax)) in Hmax.
    set (latest := filter (fun r => value_eqb (get "date" r) (VDate dmax)) (rows df)).
    assert (Hlat : forall r, In r latest <-> In r (rows df) /\ get "date" r = VDate dmax).
    { intros r. unfold latest. rewrite filter_In, value_eqb_date. reflexivity. }
    assert (Hfe : frame_empty df = false).
    { unfold frame_empty. destruct (rows df) eqn:Er; [congruence|].
      destruct (columns df) eqn:Ec; [|reflexivity].
      destruct (Hcols "state" (or_introl eq_refl)). }
    assert (Hhas : forall c, In c TS_COLUMNS -> has_column c (columns df) = true).
    { intros c Hc. apply has_column_spec, Hcols, Hc. }
    destruct (groupby_mean_spec (get "state") value_same value_leb
                (fun v => negb (is_null v)) (fun k => exists s, k = VStr s) latest)
      as [groups [Hgb [Hnd [Hin Hm]]]].
    { intros a b [s ->] [s' ->]. unfold value_same. simpl.
      rewrite String.eqb_eq. split; congruence. }
    { intros r Hr _. apply Hlat in Hr. destruct (Hrows r (proj1 Hr)) as [Hs _]. exact Hs. }
    { intros r Hr. apply Hlat in Hr. apply (Hrows r (proj1 Hr)). }
    assert (Hdate_col : has_column "date" (columns df) = true)
      by (apply Hhas; right; left; reflexivity).
    assert (Hstate_col : has_column "state" (columns df) = true)
      by (apply Hhas; left; reflexivity).
    assert (Hrate_col : has_column "hospitalization_rate" (columns df) = true)
      by (apply Hhas; right; right; left; reflexivity).
    assert (Hrmax_lat : In rmax latest) by (apply Hlat; auto).
    assert (Hsub : forall s, filter (fun r => value_same (get "state" r) (VStr s)) latest
                             = filter (row_has_sd s dmax) (rows df)).
    { intros s. rewrite state_group_filter. unfold latest. rewrite filter_filter_and.
      apply filter_ext. intros r. unfold row_has_state, row_has_sd. apply andb_comm. }
    unfold aggregate_for_map. rewrite Hfe, Hdate_col, Hmax. simpl negb. cbv iota.
    fold latest. destruct latest as [|l0 ls] eqn:Elat; [destruct Hrmax_lat|].
    rewrite <- Elat in Hgb |- *. rewrite Hstate_col, Hrate_col. simpl andb. rewrite Hgb.
    eexists; exists dmax. split; [reflexivity|]. cbn [rows].
    split; [exists rmax; auto|].
    split; [intros r Hr; apply Hbound, in_map_iff; exists r; auto|].
    split.
    + intros o Ho. apply in_map_iff in Ho. destruct Ho as [[k m] [<- Hkm]].
      assert (Hk : In k (map fst groups)) by (apply in_map_iff; exists (k, m); auto).
      apply Hin in Hk. destruct Hk as [r [Hr [_ <-]]].
      apply Hlat in Hr. destruct (Hrows r (proj1 Hr)) as [[s Hs] _].
      destruct (Hm _ _ Hkm) as [Hne' Hmv]. rewrite Hs in Hne', Hmv |- *.
      rewrite Hsub in Hne', Hmv. exists s. split; [exact Hne'|]. simpl. rewrite Hmv. reflexivity.
    + intros s Hs. rewrite length_filter_map.
      transitivity (length (filter (fun k => value_eqb k (VStr s)) (map fst groups))).
      { rewrite length_filter_map. reflexivity. }
      apply length_filter_unique with (x := VStr s); [exact Hnd | |].
      * apply Hin. destruct (filter_nonempty _ _ Hs) as [r [Hr Hsd]].
        unfold row_has_sd in Hsd. apply andb_true_iff in Hsd.
        rewrite value_eqb_str, value_eqb_date in Hsd. destruct Hsd as [Hst Hd].
        exists r. rewrite Hst. split; [apply Hlat; auto | auto].
      * intros v. apply value_eqb_str.
  - vm_compute. reflexivity.
Qed.

Lemma aggregate_for_time_series_spec_witness :
  (forall c, In c TS_COLUMNS -> In c (columns map_example_df)) /\
  (forall r, In r (rows map_example_df) -> chart_row r) /\
  exists out, aggregate_for_time_series map_example_df = Some out /\
    Sorted (fun a b => date_row_leb a b = true) (rows out).
Proof.
  assert (H1 : forall c, In c TS_COLUMNS -> In c (columns map_example_df))
    by (intros c Hc; exact Hc).
  assert (H2 : forall r, In r (rows map_example_df) -> chart_row r).
  { intros r Hr. simpl in Hr. destruct Hr as [<- | [<- | [<- | []]]];
      (split; [eexists; reflexivity | split; [eexists; reflexivity | reflexivity]]). }
  refine (conj H1 (conj H2 _)).
  destruct (proj2 (aggregate_for_time_series_spec map_example_df) H1 H2)
    as [out [E [S _]]].
  exists out. exact (conj E S).
Defined.

Lemma aggregate_for_map_spec_witness :
  (forall c, In c TS_COLUMNS -> In c (columns map_example_df)) /\
  (forall r, In r (rows map_example_df) -> chart_row r) /\
  rows map_example_df <> [] /\
  (exists out dmax, aggregate_for_map map_example_df = Some out /\
     (exists r, In r (rows map_example_df) /\ get "date" r = VDate dmax)) /\
  (exists out, aggregate_for_map (mkFrame ["date"] [[("date", VNull)]]) = Some out /\
     rows out = []).
Proof.
  assert (H1 : forall c, In c TS_COLUMNS -> In c (columns map_example_df))
    by (intros c Hc; exact Hc).
  assert (H2 : forall r, In r (rows map_example_df) -> chart_row r).
  { intros r Hr. simpl in Hr. destruct Hr as [<- | [<- | [<- | []]]];
      (split; [eexists; reflexivity | split; [eexists; reflexivity | reflexivity]]). }
  assert (H3 : rows map_example_df <> []) by discriminate.
  refine (conj H1 (conj H2 (conj H3 (conj _ _)))).
  - destruct (proj1 (proj2 (proj2 (aggregate_for_map_spec map_example_df))) H1 H2 H3)
      as [out [dmax [E [Hr _]]]].
    exists out, dmax. exact (conj E Hr).
  - apply (proj1 (proj2 (aggregate_for_map_spec (mkFrame ["date"] [[("date", VNull)]])))).
    + left. reflexivity.
    + intros r [<- | []]. reflexivity.
Defined.

(** C10: [preprocess] fails when no column normalizes to [_yearmonth];
    with one such column and no rate column it returns the dated frame,
    with no rate coercion and no rate-based row dropping. *)
Theorem preprocess_schema_drift (df : frame) :
  (count_col "_yearmonth" (map clean_label (columns df)) = 0%nat ->
   preprocess df = None) /\
  (count_col "_yearmonth" (map clean_label (columns df)) = 1%nat ->
   count_col "hospitalization_rate" (map clean_label (columns df)) = 0%nat ->
   preprocess df = Some (date_stage df)).
Proof.
  unfold preprocess. split.
  - intros H. rewrite H. reflexivity.
  - intros H H'. rewrite H, H'. reflexivity.
Qed.

Lemma preprocess_schema_drift_witness :
  count_col "_yearmonth" (map clean_label (columns raw_no_ym_df)) = 0%nat /\
  preprocess raw_no_ym_df = None /\
  count_col "_yearmonth" (map clean_label (columns raw_no_rate_df)) = 1%nat /\
  count_col "hospitalization_rate" (map clean_label (columns raw_no_rate_df)) = 0%nat /\
  preprocess raw_no_rate_df = Some (date_stage raw_no_rate_df).
Proof.
  assert (H1 : count_col "_yearmonth" (map clean_label (columns raw_no_ym_df)) = 0%nat)
    by reflexivity.
  assert (H2 : count_col "_yearmonth" (map clean_label (columns raw_no_rate_df)) = 1%nat)
    by reflexivity.
  assert (H3 : count_col "hospitalization_rate"
                 (map clean_label (columns raw_no_rate_df)) = 0%nat) by reflexivity.
  refine (conj H1 (conj _ (conj H2 (conj H3 _)))).
  - exact (proj1 (preprocess_schema_drift raw_no_ym_df) H1).
  - exact (proj2 (preprocess_schema_drift raw_no_rate_df) H2 H3).
Defined.

(** C9 (counterexample): the remote read succeeds, but the remote file has
    no year-month column; [preprocess] raises inside [get_data] and the
    error reaches the caller, although the local file would have loaded. *)
Lemma get_data_remote_preprocess_error :
  get_data (ReadOk raw_no_ym_df) (ReadOk raw_df) "2026-01-01 00:00 UTC"
    = Err ErrPreprocess /\
  exists df, preprocess raw_df = Some df.
Proof. split; [reflexivity | eexists; reflexivity]. Qed.

(** C9 (amended): a read of the remote file that raises an [Exception]
    falls back to the preprocessed local file with the fallback label,
    and errors of the local read or of its preprocessing reach the caller;
    a successful remote read returns the preprocessed remote frame with
    the timestamp, and an error of that preprocessing reaches the caller
    with no fallback; a [BaseException] that is not an [Exception] is not
    caught. *)
Theorem get_data_outcomes :
  (forall local now,
     get_data (ReadRaised RaisedException) local now =
       match local with
       | ReadOk raw =>
           match preprocess raw with
           | Some df => Ok (df, LOCAL_LABEL)
           | None => Err ErrPreprocess
           end
       | ReadRaised e => Err (ErrUncaught e)
       end) /\
  (forall raw local now,
     get_data (ReadOk raw) local now =
       match preprocess raw with
       | Some df => Ok (df, now)
       | None => Err ErrPreprocess
       end) /\
  (forall local now,
     get_data (ReadRaised RaisedBaseException) local now =
       Err (ErrUncaught RaisedBaseException)).
Proof.
  split; [|split].
  - intros [raw | e] now; unfold get_data, fetch_remote_data, run_preprocess;
      [|reflexivity].
    destruct (preprocess raw); reflexivity.
  - intros raw local now. unfold get_data, fetch_remote_data, run_preprocess.
    destruct (preprocess raw); reflexivity.
  - reflexivity.
Qed.

(** C2 (counterexample): without a rate column [preprocess] returns rows
    with no rate at all; without a year-month column it raises. *)
Lemma preprocess_rate_absent :
  option_map (fun out => map (get "hospitalization_rate") (rows out))
             (preprocess raw_no_rate_df) = Some [VNull] /\
  preprocess raw_no_ym_df = None.
Proof. split; reflexivity. Qed.

(** C2 (amended): [preprocess] raises exactly when the normalized labels
    do not contain [_yearmonth] exactly once or contain
    [hospitalization_rate] more than once; otherwise every row it returns
    has a valid timestamp, and a numeric rate when the output has a
    [hospitalization_rate] column (there is none when the input has no
    rate column). *)
Theorem preprocess_output (df : frame) :
  (preprocess df = None <->
     count_col "_yearmonth" (map clean_label (columns df)) <> 1%nat \/
     (2 <= count_col "hospitalization_rate" (map clean_label (columns df)))%nat) /\
  (forall out, preprocess df = Some out ->
     (In "hospitalization_rate" (columns out) <->
      In "hospitalization_rate" (map clean_label (columns df))) /\
     forall r, In r (rows out) ->
       (exists d, get "date" r = VDate d /\ valid_date d = true) /\
       (In "hospitalization_rate" (columns out) ->
        is_numeric (get "hospitalization_rate" r) = true)).
Proof.
  assert (Hdated : forall r, In r (rows (date_stage df)) ->
                   exists d, get "date" r = VDate d /\ valid_date d = true).
  { intros r Hr. destruct (date_stage_rows df r Hr) as [r0 [_ [-> Hnn]]].
    destruct (parse_date_row_date r0 Hnn) as [d [Hd [Hv _]]]. eauto. }
  assert (Hcols : forall c, c <> "date" ->
            In c (columns (date_stage df)) <-> In c (map clean_label (columns df))).
  { intros c Hc. unfold date_stage. simpl. rewrite In_add_column. tauto. }
  split.
  - unfold preprocess.
    destruct (Nat.eqb_spec (count_col "_yearmonth" (map clean_label (columns df))) 1)
      as [E | E].
    + destruct (count_col "hospitalization_rate" (map clean_label (columns df)))
        as [|[|n]]; split; intros H; try discriminate; try reflexivity; lia.
    + split; [intros _; left; exact E | reflexivity].
  - intros out Hout. unfold preprocess in Hout.
    destruct (Nat.eqb (count_col "_yearmonth" (map clean_label (columns df))) 1);
      [|discriminate].
    destruct (count_col "hospitalization_rate" (map clean_label (columns df)))
      as [|[|n]] eqn:Hrate; [| |discriminate]; injection Hout as <-.
    + assert (Hno : ~ In "hospitalization_rate" (columns (date_stage df))).
      { rewrite Hcols by discriminate. unfold count_col in Hrate.
        rewrite (count_occ_In string_dec). lia. }
      split; [split; [tauto | intros H; apply Hcols; [discriminate | exact H]]|].
      intros r Hr. split; [apply Hdated, Hr | tauto].
    + cbn [columns rows]. split.
      { apply Hcols. discriminate. }
      intros r Hr. unfold dropna in Hr. apply filter_In in Hr.
      destruct Hr as [Hr Hnn]. apply in_map_iff in Hr. destruct Hr as [r0 [<- Hr0]].
      unfold coerce_rate_row in *. split.
      * rewrite get_set_other by discriminate. apply Hdated, Hr0.
      * intros _. rewrite get_set_same in *. apply to_numeric_numeric.
        destruct (is_null _); [discriminate | reflexivity].
Qed.

Lemma preprocess_output_witness :
  exists out, preprocess raw_df = Some out /\
    (forall r, In r (rows out) ->
       (exists d, get "date" r = VDate d /\ valid_date d = true) /\
       (In "hospitalization_rate" (columns out) ->
        is_numeric (get "hospitalization_rate" r) = true)).
Proof.
  destruct (preprocess raw_df) as [out|] eqn:E; [|discriminate].
  exists out. split; [reflexivity|].
  exact (proj2 (proj2 (preprocess_output raw_df) out E)).
Defined.

(** C3: [preprocess] is idempotent: on a frame it accepts, a second
    application returns the same frame (labels are already normalized, the
    rename does nothing, every code parses again to the same timestamp,
    every rate is already numeric); on a frame it rejects, both sides
    raise. *)
Theorem preprocess_idempotent (df : frame) :
  match preprocess df with Some out => preprocess out | None => None end
  = preprocess df.
Proof.
  destruct (preprocess df) as [out|] eqn:Hout; [|reflexivity].
  unfold preprocess in Hout. cbv zeta in Hout.
  destruct (Nat.eqb_spec (count_col "_yearmonth" (map clean_label (columns df))) 1)
    as [Hym | _]; [|discriminate].
  remember (date_stage df) as ds eqn:Eds.
  assert (Hcl : forall c, In c (columns ds) -> clean_label c = c).
  { intros c Hc. rewrite Eds in Hc. unfold date_stage in Hc. simpl in Hc. apply In_add_column in Hc.
    destruct Hc as [Hc | ->]; [|reflexivity].
    apply in_map_iff in Hc. destruct Hc as [c0 [<- _]]. apply clean_label_idem. }
  assert (Hdate : In "date" (columns ds))
    by (rewrite Eds; unfold date_stage; simpl; apply In_add_column; right; reflexivity).
  assert (Hmapcols : map clean_label (columns ds) = columns ds).
  { rewrite <- (map_id (columns ds)) at 2. apply map_ext_in. exact Hcl. }
  assert (Hcount : forall c, c <> "date" ->
            count_col c (columns ds) = count_col c (map clean_label (columns df))).
  { intros c Hc. rewrite Eds. unfold date_stage. simpl. apply count_add_column. exact Hc. }
  assert (Hstage : forall r, In r (rows ds) -> stage_row r)
    by (intros r Hr; rewrite Eds in Hr; apply (date_stage_stage_row df r Hr)).
  destruct (count_col "hospitalization_rate" (map clean_label (columns df)))
    as [|[|n]] eqn:Hrate; [| |discriminate]; injection Hout as <-.
  - unfold preprocess. cbv zeta.
    rewrite Hmapcols, (Hcount "_yearmonth"), Hym by discriminate. simpl Nat.eqb.
    rewrite (Hcount "hospitalization_rate"), Hrate by discriminate.
    rewrite (date_stage_fix ds Hcl Hdate Hstage). reflexivity.
  - set (rs := dropna "hospitalization_rate" (map coerce_rate_row (rows ds))).
    assert (Hrs : forall r, In r rs ->
              stage_row r /\ exists x, all_val "hospitalization_rate" x r /\
                                       is_null x = false /\ to_numeric x = x).
    { intros r Hr. unfold rs, dropna in Hr. apply filter_In in Hr.
      destruct Hr as [Hr Hnn]. apply in_map_iff in Hr. destruct Hr as [r0 [<- Hr0]].
      unfold coerce_rate_row in *. split; [apply stage_row_set_rate, Hstage, Hr0|].
      exists (to_numeric (get "hospitalization_rate" r0)).
      split; [apply set_cell_all_val|]. split; [|apply to_numeric_idem].
      rewrite get_set_same in Hnn. destruct (is_null _); [discriminate | reflexivity]. }
    assert (Hfix : date_stage (mkFrame (columns ds) rs) = mkFrame (columns ds) rs).
    { apply date_stage_fix; [exact Hcl | exact Hdate |].
      intros r Hr. apply (Hrs r Hr). }
    unfold preprocess. cbv zeta. cbn [columns].
    rewrite Hmapcols, (Hcount "_yearmonth"), Hym by discriminate. simpl Nat.eqb.
    rewrite (Hcount "hospitalization_rate"), Hrate by discriminate.
    rewrite Hfix. cbn [columns rows]. f_equal. f_equal.
    unfold dropna. rewrite (map_ext_in _ (fun r => r)).
    + rewrite map_id. apply filter_id_in. intros r Hr.
      destruct (Hrs r Hr) as [_ [x [Hx [Hn _]]]]. rewrite (all_val_get _ _ _ Hx), Hn.
      reflexivity.
    + intros r Hr. destruct (Hrs r Hr) as [_ [x [Hx [_ Hid]]]].
      unfold coerce_rate_row. rewrite (all_val_get _ _ _ Hx), Hid.
      apply set_cell_noop, Hx.
Qed.

(** C1 (counterexample). In a frame holding Texas, COVID-NET, Alabama and
    Ohio, only one default label is present; with no state selected the
    code keeps the COVID-NET rows alone, whereas the first three labels in
    sorted order are Alabama, COVID-NET and Ohio. *)
Lemma restrict_initial_states_one_default :
  forallb (fun s => existsb (String.eqb s) (map state_name (rows four_states_df)))
    DEFAULT_STATES = false /\
  firstn 3 (sort_by String.leb (states_present (rows four_states_df)))
    = ["Alabama"; "COVID-NET"; "Ohio"] /\
  option_map (fun out => map (get "state") (rows out))
    (restrict_initial_states four_states_df no_selection) = Some [VStr "COVID-NET"].
Proof. vm_compute. repeat split. Qed.

(** C1. With a non-empty state selection, or on an empty frame, the frame
    is returned unchanged. With no state selected on a non-empty frame
    whose state column holds labels, the rows kept are those whose state is
    a [DEFAULT_STATES] label when at least one such label is present, and
    otherwise those whose state is among the first three distinct labels
    in sorted order (fewer than three distinct labels sort before it). *)
Theorem restrict_initial_states_spec (df : frame) (sel : selections) :
  (sel_get "state" sel <> [] -> restrict_initial_states df sel = Some df) /\
  (frame_empty df = true -> restrict_initial_states df sel = Some df) /\
  (sel_get "state" sel = [] -> frame_empty df = false -> In "state" (columns df) ->
   (forall r, In r (rows df) -> exists s, get "state" r = VStr s) ->
   restrict_initial_states df sel =
     Some (mkFrame (columns df)
       (filter (fun r =>
          match defaults_present (rows df) with
          | [] => (state_rank (rows df) (state_name r) <? 3)%nat
          | _ :: _ => existsb (String.eqb (state_name r)) DEFAULT_STATES
          end) (rows df)))).
Proof.
  split; [|split].
  - intros H. unfold restrict_initial_states.
    destruct (sel_get "state" sel); [congruence | reflexivity].
  - intros H. unfold restrict_initial_states. rewrite H.
    destruct (sel_get "state" sel); reflexivity.
  - intros Hsel Hne Hcol Hs. unfold restrict_initial_states. rewrite Hsel, Hne.
    assert (Hhc : has_column "state" (columns df) = true) by (apply has_column_spec; exact Hcol).
    rewrite Hhc. cbv beta iota zeta. change (negb true) with false. cbv iota.
    remember (unique (map (get "state") (rows df))) as states eqn:Est.
    set (P := fun v => exists s, v = VStr s).
    assert (Hsame : forall a b, P a -> P b -> value_same a b = true <-> a = b).
    { intros a b [x ->] [y ->]. unfold value_same. simpl.
      rewrite String.eqb_eq. split; congruence. }
    assert (HP : forall v, In v (map (get "state") (rows df)) -> P v).
    { intros v Hv. apply in_map_iff in Hv. destruct Hv as [r [<- Hr]].
      destruct (Hs r Hr) as [t Ht]. exists t. exact Ht. }
    destruct (unique_by_spec value_same P Hsame _ HP) as [Hnd Hin].
    fold (unique (map (get "state") (rows df))) in Hnd, Hin. rewrite <- Est in Hnd, Hin.
    assert (Hav : filter (fun s => existsb (value_eqb (VStr s)) states) DEFAULT_STATES
                  = defaults_present (rows df)).
    { unfold defaults_present. apply filter_ext. intros s.
      apply Bool.eq_iff_eq_true. rewrite existsb_eqb_In, <- state_in_rows by exact Hs.
      rewrite <- Hin, existsb_exists. split.
      - intros [v [Hv E]]. destruct v; simpl in E; try discriminate.
        apply String.eqb_eq in E. subst. exact Hv.
      - intros H. exists (VStr s). split; [exact H | simpl; apply String.eqb_refl]. }
    rewrite Hav. destruct (defaults_present (rows df)) as [|d ds] eqn:Edp.
    + assert (HPs : forall v, In v states -> P v) by (intros v Hv; apply HP, Hin, Hv).
      assert (Hpy : py_sorted states = Some (sort_by value_leb states)).
      { apply py_sorted_str, forallb_forall. intros v Hv.
        destruct (HPs v Hv) as [t ->]. reflexivity. }
      rewrite Hpy. cbn [option_map].
      set (S := map (fun v => match v with VStr s => s | _ => ""%string end) states).
      assert (HS : states = map VStr S) by (symmetry; apply map_VStr_strs, HPs).
      assert (HndS : NoDup S) by (apply (NoDup_map_inv VStr); rewrite <- HS; exact Hnd).
      assert (HpermS := sort_by_perm String.leb S).
      assert (Hss : StronglySorted (fun a b => String.leb a b = true) (sort_by String.leb S)).
      { apply Sorted_StronglySorted; [exact string_leb_trans|].
        exact (sort_by_sorted String.leb string_leb_total S). }
      assert (Hnds : NoDup (sort_by String.leb S))
        by (eapply Permutation_NoDup; [apply Permutation_sym, HpermS | exact HndS]).
      assert (Hperm : Permutation (sort_by String.leb S) (states_present (rows df))).
      { apply NoDup_Permutation; [exact Hnds | apply NoDup_nodup|]. intros x.
        unfold states_present. rewrite nodup_In, <- state_in_rows by exact Hs.
        rewrite <- Hin, HS, In_map_VStr.
        split; [apply Permutation_in, HpermS | apply Permutation_in, Permutation_sym, HpermS]. }
      f_equal. f_equal. apply filter_ext_in. intros r Hr.
      destruct (Hs r Hr) as [t Ht].
      assert (HinS : In t (sort_by String.leb S)).
      { apply (Permutation_in _ (Permutation_sym HpermS)). apply In_map_VStr.
        rewrite <- HS. apply Hin. rewrite <- Ht. apply in_map, Hr. }
      rewrite HS, sort_by_map_VStr, firstn_map, Ht. unfold state_name. rewrite Ht.
      rewrite isin_map_VStr. apply Bool.eq_iff_eq_true.
      rewrite existsb_eqb_In, Nat.ltb_lt, (firstn_sorted_rank _ t 3 Hss Hnds HinS).
      unfold state_rank. rewrite (perm_filter_length _ _ _ Hperm). reflexivity.
    + cbv beta iota. f_equal. f_equal. apply filter_ext_in. intros r Hr.
      destruct (Hs r Hr) as [t Ht]. unfold state_name. rewrite Ht.
      rewrite <- Edp, isin_map_VStr. unfold defaults_present.
      apply existsb_eqb_filter. apply existsb_eqb_In, in_map_iff.
      exists r. split; [unfold state_name; rewrite Ht; reflexivity | exact Hr].
Qed.

(** A witness of [restrict_initial_states_spec]: with no state selected, a
    frame with no default label keeps its first three labels in sorted
    order. *)
Lemma restrict_initial_states_spec_witness :
  frame_empty no_default_df = false /\
  restrict_initial_states no_default_df no_selection =
    Some (mkFrame (columns no_default_df)
      (filter (fun r =>
         match defaults_present (rows no_default_df) with
         | [] => (state_rank (rows no_default_df) (state_name r) <? 3)%nat
         | _ :: _ => existsb (String.eqb (state_name r)) DEFAULT_STATES
         end) (rows no_default_df))).
Proof.
  refine (conj eq_refl _).
  refine (proj2 (proj2 (restrict_initial_states_spec no_default_df no_selection))
            eq_refl eq_refl _ _).
  - vm_compute. auto.
  - intros r Hr. vm_compute in Hr.
    repeat (destruct Hr as [<- | Hr]; [eexists; reflexivity|]). destruct Hr.
Defined.

(* ================================================================== *)
(** * Further properties: rendering, filter options and [main] *)

(** ** Helpers *)

Lemma unique_by_fold_incl {A} (same : A -> A -> bool) (l acc : list A) (x : A) :
  In x (fold_left (fun acc v => if existsb (same v) acc then acc
                                else (acc ++ [v])%list) l acc) ->
  In x acc \/ In x l.
Proof.
  revert acc. induction l as [|v l IH]; simpl; intros acc H; [auto|].
  destruct (existsb (same v) acc); apply IH in H; destruct H as [H|H]; auto.
  apply in_app_or in H. destruct H as [H|[<-|[]]]; auto.
Qed.

Lemma unique_by_incl {A} (same : A -> A -> bool) (l : list A) (x : A) :
  In x (unique_by same l) -> In x l.
Proof. intros H. apply unique_by_fold_incl in H. destruct H as [[]|H]; exact H. Qed.

Lemma unique_by_filter_fold {A} (same : A -> A -> bool) (p : A -> bool) (l acc : list A) :
  (forall a b, p a = true -> same a b = true -> p b = true) ->
  filter p (fold_left (fun acc v => if existsb (same v) acc then acc
                                    else (acc ++ [v])%list) l acc)
  = fold_left (fun acc v => if existsb (same v) acc then acc
                            else (acc ++ [v])%list) (filter p l) (filter p acc).
Proof.
  intros Hp. revert acc. induction l as [|v l IH]; intros acc; [reflexivity|].
  cbn [fold_left filter]. destruct (p v) eqn:Ev; cbn [fold_left].
  - assert (E : existsb (same v) (filter p acc) = existsb (same v) acc).
    { clear IH. induction acc as [|a acc IHa]; simpl; [reflexivity|].
      destruct (p a) eqn:Ea; simpl; rewrite IHa; [reflexivity|].
      destruct (same v a) eqn:Es; [|reflexivity].
      rewrite (Hp v a Ev Es) in Ea. discriminate. }
    rewrite E. destruct (existsb (same v) acc); rewrite IH; [reflexivity|].
    rewrite filter_app. simpl. rewrite Ev. reflexivity.
  - destruct (existsb (same v) acc); rewrite IH; [reflexivity|].
    rewrite filter_app. simpl. rewrite Ev, app_nil_r. reflexivity.
Qed.

Lemma unique_by_filter {A} (same : A -> A -> bool) (p : A -> bool) (l : list A) :
  (forall a b, p a = true -> same a b = true -> p b = true) ->
  filter p (unique_by same l) = unique_by same (filter p l).
Proof. intros Hp. unfold unique_by. rewrite unique_by_filter_fold by exact Hp. reflexivity. Qed.

Lemma perm_filter {A} (f : A -> bool) (l l' : list A) :
  Permutation l l' -> Permutation (filter f l) (filter f l').
Proof.
  induction 1 as [| x l l' H IH | x y l | l l' l'' H1 IH1 H2 IH2]; simpl.
  - constructor.
  - destruct (f x); [apply perm_skip|]; exact IH.
  - destruct (f x), (f y); try apply perm_swap; reflexivity.
  - eapply perm_trans; eassumption.
Qed.

Lemma NoDup_map_on {A B} (f : A -> B) (l : list A) :
  (forall x y, In x l -> In y l -> f x = f y -> x = y) -> NoDup l -> NoDup (map f l).
Proof.
  induction l as [|a l IH]; simpl; intros Hinj Hnd; [constructor|].
  inversion Hnd as [|? ? Hna Hnd']; subst. constructor.
  - intros Hin. apply in_map_iff in Hin. destruct Hin as [x [E Hx]].
    assert (x = a) by (apply Hinj; auto). subst. contradiction.
  - apply IH; [|exact Hnd']. intros x y Hx Hy. apply Hinj; auto.
Qed.

Lemma NoDup_map_eq {A B} (f : A -> B) (l : list A) (x y : A) :
  NoDup (map f l) -> In x l -> In y l -> f x = f y -> x = y.
Proof.
  induction l as [|a l IH]; simpl; intros Hnd Hx Hy E; [destruct Hx|].
  inversion Hnd as [|? ? Hna Hnd']; subst.
  destruct Hx as [<- | Hx], Hy as [<- | Hy]; auto.
  - exfalso. apply Hna. rewrite E. apply in_map, Hy.
  - exfalso. apply Hna. rewrite <- E. apply in_map, Hx.
Qed.

Lemma groupby_mean_keys {K} (key : row -> K) (same le : K -> K -> bool)
    (present : K -> bool) (rs : list row) (groups : list (K * value)) :
  groupby_mean key same le present rs = Some groups ->
  map fst groups = sort_by le (unique_by same (filter present (map key rs))).
Proof.
  unfold groupby_mean. intros H. apply mapM_Forall2 in H.
  eapply Forall2_map_fst; [|exact H].
  intros x y E. cbv beta in E.
  destruct (group_mean (filter (fun r => same (key r) x) rs)); simpl in E;
    [injection E as <-; reflexivity | discriminate].
Qed.

Lemma py_sorted_perm (l l' : list value) : py_sorted l = Some l' -> Permutation l' l.
Proof.
  unfold py_sorted. destruct l as [|a [|b t]];
    [intros H; injection H as <-; reflexivity | intros H; injection H as <-; reflexivity|].
  destruct (_ || _); [|discriminate]. intros H; injection H as <-. apply (sort_by_perm value_leb (a :: b :: t)).
Qed.

(** ** [STATE_ABBR] and the map codes *)

Lemma STATE_ABBR_codes_NoDup : NoDup (map snd STATE_ABBR).
Proof. simpl. repeat constructor; simpl; intuition discriminate. Qed.

Lemma covid_net_not_abbr (code : string) : ~ In ("COVID-NET", code) STATE_ABBR.
Proof.
  intros H. simpl in H. repeat (destruct H as [E|H]; [discriminate E|]). destruct H.
Qed.

Lemma map_state_abbr_cases (v : value) :
  map_state_abbr v = VNull \/
  exists s code, v = VStr s /\ In (s, code) STATE_ABBR /\ map_state_abbr v = VStr code.
Proof.
  unfold map_state_abbr. destruct v as [s| | | |]; auto.
  destruct (find (fun p => String.eqb (fst p) s) STATE_ABBR) as [[k code]|] eqn:E; auto.
  right. apply find_some in E. destruct E as [Hin Hk]. simpl in Hk.
  apply String.eqb_eq in Hk. subst k. exists s, code. auto.
Qed.

Lemma map_state_abbr_inj (a b : value) (code : string) :
  map_state_abbr a = VStr code -> map_state_abbr b = VStr code -> a = b.
Proof.
  intros Ha Hb.
  destruct (map_state_abbr_cases a) as [E|[s [c [-> [Hs Ea]]]]]; [congruence|].
  destruct (map_state_abbr_cases b) as [E|[t [c' [-> [Ht Eb]]]]]; [congruence|].
  rewrite Ea in Ha. rewrite Eb in Hb. injection Ha as ->. injection Hb as ->.
  assert (E : (s, code) = (t, code)) by
    (apply (NoDup_map_eq snd STATE_ABBR); auto using STATE_ABBR_codes_NoDup).
  injection E as ->. reflexivity.
Qed.

Lemma aggregate_for_map_groups (df lg : frame) :
  aggregate_for_map df = Some lg -> frame_empty lg = false ->
  exists latest groups,
    groupby_mean (get "state") value_same value_leb (fun v => negb (is_null v)) latest
      = Some groups /\
    (forall r, In r latest -> In r (rows df)) /\
    lg = mkFrame MAP_COLUMNS
           (map (fun sm => [("state", fst sm); ("hospitalization_rate", snd sm)]) groups).
Proof.
  unfold aggregate_for_map. intros H Hne.
  destruct (frame_empty df) eqn:Efe; [injection H as <-; congruence|].
  destruct (negb (has_column "date" (columns df))); [discriminate|].
  cbv zeta in H.
  match type of H with
  | context [match ?m with [] => _ | _ :: _ => _ end] => destruct m as [|l0 ls] eqn:El
  end.
  { injection H as <-. discriminate Hne. }
  destruct (_ && _); [|discriminate].
  destruct (groupby_mean _ _ _ _ (l0 :: ls)) as [groups|] eqn:Eg; [|discriminate].
  injection H as <-. exists (l0 :: ls), groups. split; [exact Eg|]. split; [|reflexivity].
  intros r Hr. rewrite <- El in Hr.
  destruct (max_value (map (get "date") (rows df))); [|destruct Hr].
  apply filter_In in Hr. tauto.
Qed.

Lemma date_desc_leb_total (a b : row) :
  date_desc_leb a b = false -> date_desc_leb b a = true.
Proof.
  unfold date_desc_leb.
  destruct (is_null (get "date" a)), (is_null (get "date" b)); try discriminate; auto.
  apply value_leb_total.
Qed.

(** ** [render_choropleth] *)

(** X1: Every row drawn on the map carries a state label listed in
    [STATE_ABBR] (so never the national aggregate COVID-NET) together with
    that label's two-letter code, and no code is drawn twice. *)
Theorem render_choropleth_map_rows (df m : frame) :
  render_choropleth df = Some (ChoroplethMap m) ->
  In "state_code" (columns m) /\
  (forall o, In o (rows m) -> exists s code,
      get "state" o = VStr s /\ In (s, code) STATE_ABBR /\
      get "state_code" o = VStr code /\ s <> "COVID-NET") /\
  NoDup (map (get "state_code") (rows m)).
Proof.
  unfold render_choropleth. intros H.
  destruct (aggregate_for_map df) as [lg|] eqn:Eagg; [|discriminate].
  destruct (frame_empty lg) eqn:Elg; [discriminate|].
  destruct (negb (has_column "state" (columns lg))); [discriminate|].
  cbv zeta in H.
  match type of H with
  | context [if frame_empty ?k then _ else _] => destruct (frame_empty k); [discriminate|]
  end.
  match type of H with
  | context [if has_column "hospitalization_rate" ?c then _ else _] =>
      destruct (has_column "hospitalization_rate" c); [|discriminate]
  end.
  injection H as <-.
  destruct (aggregate_for_map_groups df lg Eagg Elg) as [latest [groups [Hg [_ ->]]]].
  cbn [rows columns]. rewrite map_map.
  rewrite (map_ext _ (fun sm : value * value =>
             [("state", fst sm); ("hospitalization_rate", snd sm);
              ("state_code", map_state_abbr (fst sm))])) by (intros [a b]; reflexivity).
  unfold dropna. rewrite filter_map_swap. cbn [get String.eqb fst snd Ascii.eqb Bool.eqb andb].
  split; [unfold MAP_COLUMNS, add_column; simpl; auto|].
  set (p := fun k : value => negb (is_null (map_state_abbr k))).
  change (filter (fun x => negb (is_null (map_state_abbr (fst x)))) groups)
    with (filter (fun x => p (fst x)) groups).
  split.
  - intros o Ho. apply in_map_iff in Ho. destruct Ho as [[k v] [<- Hkv]].
    apply filter_In in Hkv. destruct Hkv as [_ Hp]. unfold p in Hp. cbn [fst] in Hp |- *.
    destruct (map_state_abbr_cases k) as [E|[s [code [-> [Hs E]]]]];
      [rewrite E in Hp; discriminate|].
    exists s, code. rewrite E. split; [reflexivity|]. split; [exact Hs|].
    split; [reflexivity|]. intros ->. exact (covid_net_not_abbr code Hs).
  - rewrite map_map.
    rewrite (map_ext _ (fun x : value * value => map_state_abbr (fst x)))
      by (intros [a b]; reflexivity).
    assert (Hclos : forall a b, p a = true -> value_same a b = true -> p b = true).
    { intros a b Ha Hs. unfold p in Ha.
      destruct (map_state_abbr_cases a) as [E|[s [code [-> _]]]]; [rewrite E in Ha; discriminate|].
      destruct b as [t| | | |]; simpl in Hs; try discriminate.
      apply String.eqb_eq in Hs. subst t. exact Ha. }
    assert (Hsame : forall a b, p a = true -> p b = true -> value_same a b = true <-> a = b).
    { intros a b Ha Hb. unfold p in Ha, Hb.
      destruct (map_state_abbr_cases a) as [E|[s [c [-> _]]]]; [rewrite E in Ha; discriminate|].
      destruct (map_state_abbr_cases b) as [E|[t [c' [-> _]]]]; [rewrite E in Hb; discriminate|].
      unfold value_same. simpl. rewrite String.eqb_eq. split; congruence. }
    assert (Hnd : NoDup (map fst (filter (fun x => p (fst x)) groups))).
    { rewrite <- filter_map_swap, (groupby_mean_keys _ _ _ _ _ _ Hg).
      eapply Permutation_NoDup; [apply Permutation_sym, perm_filter, sort_by_perm|].
      rewrite unique_by_filter by exact Hclos.
      apply (unique_by_spec value_same (fun v => p v = true) Hsame).
      intros v Hv. apply filter_In in Hv. tauto. }
    apply NoDup_map_on; [|eapply NoDup_map_inv; exact Hnd].
    intros x y Hx Hy E.
    apply (NoDup_map_eq fst _ _ _ Hnd Hx Hy).
    apply filter_In in Hx. destruct Hx as [_ Hpx]. unfold p in Hpx.
    destruct (map_state_abbr_cases (fst x)) as [Ex|[s [code [_ [_ Ex]]]]];
      [rewrite Ex in Hpx; discriminate|].
    apply (map_state_abbr_inj _ _ code); congruence.
Qed.

(** ** [render_data_table] *)

(** X2: The raw-data table shows the info message for an empty frame; for a
    non-empty frame whose dates are timestamps or missing, it shows exactly
    the rows of the frame, newest first and missing dates last. *)
Theorem render_data_table_newest_first (df : frame) :
  (frame_empty df = true -> render_data_table df = Some ChartInfo) /\
  (frame_empty df = false -> In "date" (columns df) ->
   (forall r, In r (rows df) -> get "date" r = VNull \/ exists d, get "date" r = VDate d) ->
   exists t, render_data_table df = Some (ChartPlot t) /\
     columns t = columns df /\ Permutation (rows t) (rows df) /\
     Sorted (fun a b => date_desc_leb a b = true) (rows t)).
Proof.
  split.
  - intros H. unfold render_data_table. rewrite H. reflexivity.
  - intros Hne Hc Hd. unfold render_data_table. rewrite Hne.
    apply has_column_spec in Hc. rewrite Hc. cbv zeta.
    assert (Hf : forallb (fun v => match v with VDate _ => true | _ => false end)
                   (filter (fun v => negb (is_null v)) (map (get "date") (rows df))) = true).
    { apply forallb_forall. intros v Hv. apply filter_In in Hv. destruct Hv as [Hv Hn].
      apply in_map_iff in Hv. destruct Hv as [r [<- Hr]].
      destruct (Hd r Hr) as [E | [d E]]; rewrite E in *; [discriminate | reflexivity]. }
    rewrite Hf. simpl orb. cbv iota.
    eexists. split; [reflexivity|]. cbn [rows columns].
    split; [reflexivity|]. split; [apply sort_by_perm|].
    apply sort_by_sorted. exact date_desc_leb_total.
Qed.

(** ** Filter options of [render_sidebar] *)

Lemma strongly_sorted_strict (L : list string) :
  StronglySorted (fun a b => String.leb a b = true) L -> NoDup L ->
  StronglySorted (fun a b => String.ltb a b = true) L.
Proof.
  induction 1 as [|a L Hs IH Hall]; intros Hnd; constructor;
    inversion Hnd as [|? ? Hna Hnd']; subst.
  - apply IH, Hnd'.
  - rewrite Forall_forall in Hall |- *. intros b Hb. apply string_ltb_spec.
    destruct (proj1 (string_leb_spec a b) (Hall b Hb)) as [-> | H]; [contradiction | exact H].
Qed.

Lemma sorted_unique_strings (l : list value) :
  (forall v, In v l -> exists s, v = VStr s) ->
  exists L, py_sorted (unique l) = Some (map VStr L) /\
    StronglySorted (fun a b => String.ltb a b = true) L /\
    (forall s, In s L <-> In (VStr s) l).
Proof.
  intros Hl.
  assert (Hsame : forall a b, (exists s, a = VStr s) -> (exists s, b = VStr s) ->
                              value_same a b = true <-> a = b).
  { intros a b [x ->] [y ->]. unfold value_same. simpl.
    rewrite String.eqb_eq. split; congruence. }
  destruct (unique_by_spec value_same (fun v => exists s, v = VStr s) Hsame l Hl)
    as [Hnd Hin].
  fold (unique l) in Hnd, Hin.
  assert (HPs : forall v, In v (unique l) -> exists s, v = VStr s)
    by (intros v Hv; apply Hl, Hin, Hv).
  set (S := map (fun v => match v with VStr s => s | _ => ""%string end) (unique l)).
  assert (HS : unique l = map VStr S) by (symmetry; apply map_VStr_strs, HPs).
  assert (HndS : NoDup S) by (apply (NoDup_map_inv VStr); rewrite <- HS; exact Hnd).
  assert (HpermS := sort_by_perm String.leb S).
  exists (sort_by String.leb S). split; [|split].
  - rewrite py_sorted_str; [rewrite HS, sort_by_map_VStr; reflexivity|].
    apply forallb_forall. intros v Hv. destruct (HPs v Hv) as [t ->]. reflexivity.
  - apply strongly_sorted_strict.
    + apply Sorted_StronglySorted; [exact string_leb_trans|].
      exact (sort_by_sorted String.leb string_leb_total S).
    + eapply Permutation_NoDup; [apply Permutation_sym, HpermS | exact HndS].
  - intros s. split; intros H.
    + apply Hin. rewrite HS. apply In_map_VStr. apply (Permutation_in _ HpermS H).
    + apply (Permutation_in _ (Permutation_sym HpermS)). apply In_map_VStr.
      rewrite <- HS. apply Hin, H.
Qed.

Lemma filter_options_strings (dfo : frame) (c : string) :
  In c (columns dfo) ->
  (forall r, In r (rows dfo) -> get c r = VNull \/ exists s, get c r = VStr s) ->
  exists L, filter_options dfo c = Some (map VStr L) /\
    StronglySorted (fun a b => String.ltb a b = true) L /\
    (forall s, In s L <-> exists r, In r (rows dfo) /\ get c r = VStr s).
Proof.
  intros Hc Hr. unfold filter_options. apply has_column_spec in Hc. rewrite Hc.
  destruct (sorted_unique_strings
              (filter (fun v => negb (is_null v)) (map (get c) (rows dfo))))
    as [L [HL [Hs Hin]]].
  { intros v Hv. apply filter_In in Hv. destruct Hv as [Hv Hn].
    apply in_map_iff in Hv. destruct Hv as [r [<- Hrr]].
    destruct (Hr r Hrr) as [E | [s E]]; rewrite E in *; [discriminate | eauto]. }
  exists L. split; [exact HL|]. split; [exact Hs|].
  intros s. rewrite Hin, filter_In, in_map_iff. split.
  - intros [[r [E Hrr]] _]. eauto.
  - intros [r [Hrr E]]. split; [eauto | reflexivity].
Qed.

(** X3: [render_sidebar] offers, for each of the four filter columns in turn,
    the distinct labels found in that column among the rows inside the
    slider's date range, in strictly increasing order, missing values left
    out; this holds whenever those cells are labels or missing. *)
Theorem sidebar_options_spec (df : frame) (date_range : date * date) :
  In "date" (columns df) ->
  (forall r, In r (rows df) -> get "date" r = VNull \/ exists d, get "date" r = VDate d) ->
  (forall c, In c FILTER_COLUMNS -> In c (columns df)) ->
  (forall c r, In c FILTER_COLUMNS -> In r (rows df) ->
     in_date_range (fst date_range) (snd date_range) (get "date" r) = true ->
     get c r = VNull \/ exists s, get c r = VStr s) ->
  exists opts, sidebar_options df date_range = Some opts /\
    map fst opts = FILTER_COLUMNS /\
    forall c vs, In (c, vs) opts -> exists L, vs = map VStr L /\
      StronglySorted (fun a b => String.ltb a b = true) L /\
      forall s, In s L <-> exists r, In r (rows df) /\
        in_date_range (fst date_range) (snd date_range) (get "date" r) = true /\
        get c r = VStr s.
Proof.
  intros Hd Hdt Hcols Hcells. unfold sidebar_options, options_frame.
  apply has_column_spec in Hd. rewrite Hd.
  replace (date_column_ok (rows df)) with true.
  2:{ symmetry. apply forallb_forall. intros r Hr.
      destruct (Hdt r Hr) as [-> | [d ->]]; reflexivity. }
  simpl andb. cbv iota.
  set (dfo := mkFrame (columns df) (filter (fun r => in_date_range (fst date_range)
                (snd date_range) (get "date" r)) (rows df))).
  assert (Hopt : forall c, In c FILTER_COLUMNS -> exists L,
    filter_options dfo c = Some (map VStr L) /\
    StronglySorted (fun a b => String.ltb a b = true) L /\
    (forall s, In s L <-> exists r, In r (rows dfo) /\ get c r = VStr s)).
  { intros c Hc. apply filter_options_strings; [apply Hcols, Hc|].
    intros r Hr. apply filter_In in Hr. apply (Hcells c r Hc); tauto. }
  destruct (mapM_total (fun c => option_map (pair c) (filter_options dfo c)) FILTER_COLUMNS)
    as [opts Hm].
  { intros c Hc. destruct (Hopt c Hc) as [L [E _]]. rewrite E. discriminate. }
  exists opts. split; [exact Hm|]. apply mapM_Forall2 in Hm. split.
  - eapply Forall2_map_fst; [|exact Hm]. intros x y E. cbv beta in E.
    destruct (filter_options dfo x); simpl in E; [injection E as <-; reflexivity | discriminate].
  - intros c vs Hin. destruct (Forall2_in_r _ _ _ _ Hm Hin) as [c' [Hc' E]].
    destruct (Hopt c' Hc') as [L [EL [Hs HL]]]. rewrite EL in E. simpl in E.
    injection E as <- <-. exists L. split; [reflexivity|]. split; [exact Hs|].
    intros s. rewrite HL. unfold dfo. cbn [rows]. split.
    + intros [r [Hr E]]. apply filter_In in Hr. exists r. tauto.
    + intros [r [Hr [Hi E]]]. exists r. rewrite filter_In. auto.
Qed.

(** X4: Selecting any label offered for a filter column, alone and with the
    same date range, never leaves [apply_filters] with an empty result. *)
Theorem sidebar_option_selectable (df : frame) (date_range : date * date)
    (opts : list (string * list value)) (c s : string) (vs : list value) :
  sidebar_options df date_range = Some opts -> In (c, vs) opts -> In (VStr s) vs ->
  exists out, apply_filters df date_range [(c, [s])] = Some out /\ rows out <> [].
Proof.
  unfold sidebar_options, options_frame. intros H Hin Hs.
  destruct (has_column "date" (columns df)) eqn:Hd; [|discriminate].
  destruct (date_column_ok (rows df)) eqn:Hdc; [|discriminate]. cbn [andb] in H.
  apply mapM_Forall2 in H. destruct (Forall2_in_r _ _ _ _ H Hin) as [c' [_ E]].
  destruct (filter_options _ c') as [vs'|] eqn:Ef; [|discriminate].
  simpl in E. injection E as <- <-.
  unfold filter_options in Ef. cbn [columns rows] in Ef.
  destruct (has_column c' (columns df)) eqn:Hc; [|discriminate].
  apply py_sorted_perm in Ef. apply (Permutation_in _ Ef) in Hs.
  apply unique_by_incl in Hs. apply filter_In in Hs. destruct Hs as [Hs _].
  apply in_map_iff in Hs. destruct Hs as [r [Hget Hr]].
  unfold apply_filters. rewrite Hd, Hdc, filter_dims_spec. unfold dims_ok. simpl.
  rewrite Hc. simpl. eexists. split; [reflexivity|]. simpl. intros E.
  assert (Hr' : In r (filter (dims_match [(c', [s])])
                  (filter (fun r => in_date_range (fst date_range) (snd date_range)
                                     (get "date" r)) (rows df)))).
  { apply filter_In. split; [exact Hr|]. unfold dims_match. simpl.
    rewrite Hget. unfold isin. simpl. rewrite String.eqb_refl. reflexivity. }
  rewrite E in Hr'. destruct Hr'.
Qed.

(** ** [main] *)

Lemma apply_filters_rows (df out : frame) (date_range : date * date) (sel : selections) :
  apply_filters df date_range sel = Some out ->
  columns out = columns df /\
  forall r, In r (rows out) ->
    In r (rows df) /\
    (exists d, get "date" r = VDate d /\ date_leb (fst date_range) d = true
               /\ date_leb d (snd date_range) = true) /\
    (forall c vals, In (c, vals) sel -> vals <> [] ->
                    exists s, In s vals /\ get c r = VStr s).
Proof.
  unfold apply_filters. rewrite filter_dims_spec.
  destruct (has_column "date" (columns df)); [|discriminate].
  destruct (date_column_ok (rows df)); [|discriminate].
  destruct (dims_ok (columns df) sel); [|discriminate].
  simpl. intros H. injection H as <-. simpl. split; [reflexivity|]. intros r Hr.
  apply filter_In in Hr. destruct Hr as [Hr Hm]. apply filter_In in Hr.
  destruct Hr as [Hr Hd]. apply in_date_range_spec in Hd.
  pose proof (proj1 (dims_match_spec sel r) Hm) as Hm'.
  auto.
Qed.

Lemma base_for_charts_rows (ff base : frame) :
  base_for_charts ff = Some base ->
  columns base = columns ff /\ (forall r, In r (rows base) -> In r (rows ff)).
Proof.
  unfold base_for_charts, canonical_slice. intros H.
  destruct (negb (forallb (fun c => has_column c (columns ff)) CANONICAL_COLUMNS)).
  - injection H as <-. simpl. auto.
  - destruct (str_accessor_ok (map (get "type") (rows ff))); [|discriminate].
    injection H as <-.
    match goal with
    | |- context [if negb (frame_empty ?k) then _ else _] => destruct (negb (frame_empty k))
    end; [|auto].
    split; [reflexivity|]. intros r Hr. apply filter_In in Hr. tauto.
Qed.

Lemma restrict_rows_incl (df out : frame) (sel : selections) :
  restrict_initial_states df sel = Some out ->
  columns out = columns df /\ (forall r, In r (rows out) -> In r (rows df)).
Proof.
  unfold restrict_initial_states.
  destruct (sel_get "state" sel); [|intros H; injection H as <-; auto].
  destruct (frame_empty df); [intros H; injection H as <-; auto|].
  destruct (negb (has_column "state" (columns df))); [discriminate|]. cbv zeta.
  match goal with
  | |- match ?m with Some _ => _ | None => _ end = _ -> _ => destruct m as [ch|]
  end; [|discriminate].
  intros H. injection H as <-. simpl. split; [reflexivity|].
  intros r Hr. apply filter_In in Hr. tauto.
Qed.

Lemma restrict_default_choice (df out : frame) (sel : selections) :
  sel_get "state" sel = [] -> restrict_initial_states df sel = Some out ->
  (out = df /\ frame_empty df = true) \/
  exists ch, (length ch <= 3)%nat /\
    rows out = filter (fun r => isin (get "state" r) ch) (rows df).
Proof.
  intros Hsel. unfold restrict_initial_states. rewrite Hsel.
  destruct (frame_empty df) eqn:Efe; [intros H; injection H as <-; auto|].
  destruct (negb (has_column "state" (columns df))); [discriminate|]. cbv zeta.
  destruct (filter _ DEFAULT_STATES) as [|a av] eqn:Eav.
  - destruct (py_sorted _) as [l|]; simpl; [|discriminate].
    intros H. injection H as <-. right. exists (firstn 3 l).
    split; [apply firstn_le_length | reflexivity].
  - intros H. injection H as <-. right. exists (map VStr (a :: av)). split; [|reflexivity].
    rewrite length_map, <- Eav. apply filter_length_le.
Qed.

Lemma aggregate_for_time_series_rows (df ts : frame) :
  aggregate_for_time_series df = Some ts -> frame_empty ts = false ->
  forall o, In o (rows ts) -> exists r, In r (rows df) /\
    get "state" o = get "state" r /\ get "date" o = get "date" r /\
    is_null (get "state" r) = false.
Proof.
  unfold aggregate_for_time_series. intros H Hne.
  destruct (frame_empty df) eqn:Efe; [injection H as <-; congruence|].
  destruct (forallb _ _); [|discriminate].
  destruct (groupby_mean _ _ _ _ _) as [groups|] eqn:Eg; [|discriminate].
  injection H as <-. cbn [rows]. intros o Ho.
  apply (Permutation_in _ (sort_by_perm _ _)) in Ho.
  apply in_map_iff in Ho. destruct Ho as [[k m] [<- Hkm]].
  assert (Hk : In k (map fst groups)) by (apply in_map_iff; exists (k, m); auto).
  rewrite (groupby_mean_keys _ _ _ _ _ _ Eg) in Hk.
  apply (Permutation_in _ (sort_by_perm _ _)) in Hk.
  apply unique_by_incl in Hk. apply filter_In in Hk. destruct Hk as [Hk Hp].
  apply in_map_iff in Hk. destruct Hk as [r [Ekr Hr]]. subst k.
  exists r. unfold ts_key, key_present in *. cbn [fst snd get String.eqb] in Hp |- *.
  split; [exact Hr|]. split; [reflexivity|]. split; [reflexivity|].
  destruct (is_null (get "state" r)); [discriminate | reflexivity].
Qed.

Lemma render_time_series_plot (ts t : frame) :
  render_time_series ts = Some (ChartPlot t) -> t = ts /\ frame_empty ts = false.
Proof.
  unfold render_time_series. destruct (frame_empty ts); [discriminate|].
  destruct (forallb _ _); [|discriminate]. intros H. injection H as <-. auto.
Qed.

Lemma main_view_dashboard (df : frame) (date_range : date * date) (sel : selections)
    (trend : chart_view) (mv : choropleth_view) (tv : chart_view) :
  main_view df date_range sel = Some (Dashboard trend mv tv) ->
  exists ff base base_ts ts,
    apply_filters df date_range sel = Some ff /\ frame_empty ff = false /\
    base_for_charts ff = Some base /\
    restrict_initial_states base sel = Some base_ts /\
    aggregate_for_time_series base_ts = Some ts /\
    render_time_series ts = Some trend /\
    render_choropleth base = Some mv /\
    render_data_table ff = Some tv.
Proof.
  unfold main_view. intros H.
  destruct (apply_filters df date_range sel) as [ff|]; [|discriminate].
  destruct (frame_empty ff) eqn:E0; [discriminate|].
  destruct (base_for_charts ff) as [base|] eqn:Eb; [|discriminate].
  destruct (restrict_initial_states base sel) as [bt|] eqn:E1; [|discriminate].
  destruct (aggregate_for_time_series bt) as [ts|] eqn:E2; [|discriminate].
  destruct (render_time_series ts) as [tr|] eqn:E3; [|discriminate].
  destruct (render_choropleth _) as [m|] eqn:E4; [|discriminate].
  destruct (render_data_table ff) as [t|] eqn:E5; [|discriminate].
  injection H as <- <- <-. exists ff, base, bt, ts. auto 9.
Qed.

(** X5: Every point of the trend chart is taken from a row of the data that
    lies inside the chosen date range and matches every non-empty filter
    selection: it has that row's state and date. *)
Theorem main_trend_points (df : frame) (date_range : date * date) (sel : selections)
    (ts : frame) (mv : choropleth_view) (tv : chart_view) :
  main_view df date_range sel = Some (Dashboard (ChartPlot ts) mv tv) ->
  forall o, In o (rows ts) -> exists r, In r (rows df) /\
    get "state" o = get "state" r /\ get "date" o = get "date" r /\
    (exists d, get "date" r = VDate d /\ date_leb (fst date_range) d = true
               /\ date_leb d (snd date_range) = true) /\
    (forall c vals, In (c, vals) sel -> vals <> [] ->
                    exists s, In s vals /\ get c r = VStr s).
Proof.
  intros H o Ho.
  destruct (main_view_dashboard _ _ _ _ _ _ H)
    as [ff [base [bt [ts0 [Hf [_ [Hb [Hr [Ha [Ht _]]]]]]]]]].
  destruct (render_time_series_plot _ _ Ht) as [-> Hne].
  destruct (aggregate_for_time_series_rows _ _ Ha Hne o Ho) as [r [Hrb [Es [Ed _]]]].
  apply (proj2 (restrict_rows_incl _ _ _ Hr)) in Hrb.
  apply (proj2 (base_for_charts_rows _ _ Hb)) in Hrb.
  destruct (proj2 (apply_filters_rows _ _ _ _ Hf) r Hrb) as [Hdf [Hd Hs]].
  exists r. auto.
Qed.

(** X6: When the filtered data has the four canonical columns and at least one
    canonical row (age, sex and race "All", a "Crude" type), every point of
    the trend chart is taken from a canonical row. *)
Theorem main_trend_prefers_canonical (df : frame) (date_range : date * date)
    (sel : selections) (ts : frame) (mv : choropleth_view) (tv : chart_view) (ff : frame) :
  main_view df date_range sel = Some (Dashboard (ChartPlot ts) mv tv) ->
  apply_filters df date_range sel = Some ff ->
  (forall c, In c CANONICAL_COLUMNS -> In c (columns df)) ->
  (exists r, In r (rows ff) /\ canonical_row r = true) ->
  forall o, In o (rows ts) -> exists r, In r (rows ff) /\ canonical_row r = true /\
    get "state" o = get "state" r /\ get "date" o = get "date" r.
Proof.
  intros H Hf Hcols [r0 [Hr0 Hc0]] o Ho.
  destruct (main_view_dashboard _ _ _ _ _ _ H)
    as [ff' [base [bt [ts0 [Hf' [_ [Hb [Hr [Ha [Ht _]]]]]]]]]].
  rewrite Hf in Hf'. injection Hf' as <-.
  destruct (render_time_series_plot _ _ Ht) as [-> Hne].
  destruct (aggregate_for_time_series_rows _ _ Ha Hne o Ho) as [r [Hrb [Es [Ed _]]]].
  apply (proj2 (restrict_rows_incl _ _ _ Hr)) in Hrb.
  assert (Hcf : columns ff = columns df) by exact (proj1 (apply_filters_rows _ _ _ _ Hf)).
  assert (Hall : forallb (fun c => has_column c (columns ff)) CANONICAL_COLUMNS = true).
  { apply forallb_forall. intros c Hc. apply has_column_spec. rewrite Hcf. apply Hcols, Hc. }
  assert (Htype : str_accessor_ok (map (get "type") (rows ff)) = true).
  { unfold canonical_row in Hc0. rewrite !andb_true_iff in Hc0.
    destruct Hc0 as [_ Hc0]. destruct (get "type" r0) as [s0| | | |] eqn:Et;
      try discriminate.
    apply (str_accessor_ok_str _ s0). rewrite <- Et. apply in_map, Hr0. }
  assert (Hbase : base = mkFrame (columns ff) (filter canonical_row (rows ff))).
  { unfold base_for_charts, canonical_slice in Hb. rewrite Hall, Htype in Hb.
    simpl negb in Hb. cbv iota in Hb. injection Hb as <-.
    unfold frame_empty at 1. cbn [rows columns].
    destruct (filter canonical_row (rows ff)) eqn:Ef.
    - exfalso. assert (In r0 (filter canonical_row (rows ff))) as Hin
        by (apply filter_In; auto). rewrite Ef in Hin. destruct Hin.
    - destruct (columns ff) eqn:Ec; [|reflexivity].
      exfalso. assert (In "sex_label" (columns df)) as Hin by (apply Hcols; left; reflexivity).
      rewrite <- Hcf in Hin. destruct Hin. }
  rewrite Hbase in Hrb. cbn [rows] in Hrb. apply filter_In in Hrb.
  exists r. tauto.
Qed.

(** X7: With no state selected, the trend chart shows at most three state
    labels: every point's state belongs to one list of at most three
    labels. *)
Theorem main_trend_default_states (df : frame) (date_range : date * date)
    (sel : selections) (ts : frame) (mv : choropleth_view) (tv : chart_view) :
  main_view df date_range sel = Some (Dashboard (ChartPlot ts) mv tv) ->
  sel_get "state" sel = [] ->
  exists ch, (length ch <= 3)%nat /\
    forall o, In o (rows ts) -> isin (get "state" o) ch = true.
Proof.
  intros H Hsel.
  destruct (main_view_dashboard _ _ _ _ _ _ H)
    as [ff [base [bt [ts0 [_ [_ [_ [Hr [Ha [Ht _]]]]]]]]]].
  destruct (render_time_series_plot _ _ Ht) as [-> Hne].
  destruct (restrict_default_choice _ _ _ Hsel Hr) as [[-> Hfe] | [ch [Hlen Hrows]]].
  - exfalso. unfold aggregate_for_time_series in Ha. rewrite Hfe in Ha.
    injection Ha as <-. congruence.
  - exists ch. split; [exact Hlen|]. intros o Ho.
    destruct (aggregate_for_time_series_rows _ _ Ha Hne o Ho) as [r [Hrb [Es _]]].
    rewrite Hrows in Hrb. apply filter_In in Hrb. rewrite Es. tauto.
Qed.

(** ** [main] on preprocessed data *)

Lemma group_mean_some (g : list row) :
  (forall r, In r g -> is_numeric (get "hospitalization_rate" r) = true) ->
  group_mean g <> None.
Proof.
  intros Hn. unfold group_mean.
  replace (forallb is_numeric _) with true; [discriminate|].
  symmetry. apply forallb_forall. intros v Hv. apply filter_In in Hv.
  destruct Hv as [Hv _]. apply in_map_iff in Hv. destruct Hv as [r [<- Hr]]. auto.
Qed.

Lemma groupby_mean_some {K} (key : row -> K) (same le : K -> K -> bool)
    (present : K -> bool) (rs : list row) :
  (forall r, In r rs -> is_numeric (get "hospitalization_rate" r) = true) ->
  exists groups, groupby_mean key same le present rs = Some groups.
Proof.
  intros Hn. unfold groupby_mean. apply mapM_total. intros k _.
  destruct (group_mean (filter (fun r => same (key r) k) rs)) eqn:E; [discriminate|].
  exfalso. revert E. apply group_mean_some.
  intros r Hr. apply filter_In in Hr. apply Hn. tauto.
Qed.

Lemma date_column_ok_chart (rs : list row) :
  (forall r, In r rs -> chart_row r) -> date_column_ok rs = true.
Proof.
  intros H. apply forallb_forall. intros r Hr.
  destruct (H r Hr) as [_ [[d ->] _]]. reflexivity.
Qed.

Lemma apply_filters_some (df : frame) (date_range : date * date) (sel : selections) :
  In "date" (columns df) -> date_column_ok (rows df) = true ->
  (forall c vals, In (c, vals) sel -> vals <> [] -> In c (columns df)) ->
  apply_filters df date_range sel <> None.
Proof.
  intros Hd Hdc Hsel. unfold apply_filters. rewrite filter_dims_spec.
  apply has_column_spec in Hd. rewrite Hd, Hdc. cbn [andb].
  replace (dims_ok (columns df) sel) with true; [discriminate|].
  symmetry. apply forallb_forall. intros [c vals] Hin. simpl.
  destruct vals as [|v vs]; [reflexivity|]. apply has_column_spec.
  apply (Hsel c (v :: vs) Hin). discriminate.
Qed.

Lemma sidebar_options_some (df : frame) (date_range : date * date) :
  In "date" (columns df) -> date_column_ok (rows df) = true ->
  (forall c, In c FILTER_COLUMNS -> In c (columns df)) ->
  (forall c r, In c FILTER_COLUMNS -> In r (rows df) ->
     get c r = VNull \/ exists s, get c r = VStr s) ->
  sidebar_options df date_range <> None.
Proof.
  intros Hd Hdc Hcols Hcells. unfold sidebar_options, options_frame.
  apply has_column_spec in Hd. rewrite Hd, Hdc. cbn [andb]. cbv iota.
  destruct (mapM_total (fun c => option_map (pair c) (filter_options
     (mkFrame (columns df) (filter (fun r => in_date_range (fst date_range)
        (snd date_range) (get "date" r)) (rows df))) c)) FILTER_COLUMNS) as [opts Hm].
  - intros c Hc. destruct (filter_options_strings
      (mkFrame (columns df) (filter (fun r => in_date_range (fst date_range)
        (snd date_range) (get "date" r)) (rows df))) c) as [L [E _]].
    + apply Hcols, Hc.
    + intros r Hr. apply filter_In in Hr. apply (Hcells c r Hc). tauto.
    + rewrite E. discriminate.
  - rewrite Hm. discriminate.
Qed.

Lemma base_for_charts_some (ff : frame) :
  (forall r, In r (rows ff) -> exists s, get "type" r = VStr s) \/ ~ In "type" (columns ff) ->
  base_for_charts ff <> None.
Proof.
  intros Ht. unfold base_for_charts, canonical_slice.
  destruct (negb (forallb (fun c => has_column c (columns ff)) CANONICAL_COLUMNS)) eqn:E;
    [discriminate|].
  destruct Ht as [Ht|Ht].
  - destruct (rows ff) as [|r rs] eqn:Er; [discriminate|].
    destruct (Ht r (or_introl eq_refl)) as [s Es].
    rewrite (str_accessor_ok_str _ s); [discriminate|].
    rewrite <- Es. apply (in_map (get "type") (r :: rs)). left. reflexivity.
  - exfalso. apply Ht. apply negb_false_iff in E. rewrite forallb_forall in E.
    apply has_column_spec, E. simpl. auto 6.
Qed.

Lemma restrict_some (df : frame) (sel : selections) :
  In "state" (columns df) -> (forall r, In r (rows df) -> chart_row r) ->
  exists out, restrict_initial_states df sel = Some out.
Proof.
  intros Hs Hrows. unfold restrict_initial_states.
  destruct (sel_get "state" sel); [|eauto].
  destruct (frame_empty df); [eauto|].
  apply has_column_spec in Hs. rewrite Hs. cbv zeta.
  destruct (filter _ DEFAULT_STATES); [|simpl; eauto].
  rewrite py_sorted_str; [simpl; eauto|].
  apply forallb_forall. intros v Hv. unfold unique in Hv.
  apply unique_by_incl, in_map_iff in Hv. destruct Hv as [r [<- Hr]].
  destruct (Hrows r Hr) as [[s ->] _]. reflexivity.
Qed.

Lemma aggregate_for_time_series_some (df : frame) :
  (forall c, In c TS_COLUMNS -> In c (columns df)) ->
  (forall r, In r (rows df) -> chart_row r) ->
  exists ts, aggregate_for_time_series df = Some ts /\ render_time_series ts <> None.
Proof.
  intros Hcols Hrows. unfold aggregate_for_time_series.
  destruct (frame_empty df) eqn:Efe.
  - exists df. split; [reflexivity|]. unfold render_time_series. rewrite Efe. discriminate.
  - replace (forallb (fun c => has_column c (columns df)) TS_COLUMNS) with true.
    2:{ symmetry. apply forallb_forall. intros c Hc. apply has_column_spec, Hcols, Hc. }
    destruct (groupby_mean_some ts_key key_same key_leb key_present (rows df)) as [g Eg].
    { intros r Hr. apply (Hrows r Hr). }
    rewrite Eg. eexists. split; [reflexivity|].
    unfold render_time_series.
    match goal with
    | |- context [if frame_empty ?k then _ else _] => destruct (frame_empty k); [discriminate|]
    end.
    match goal with
    | |- context [if forallb ?f ?l then _ else _] => replace (forallb f l) with true by reflexivity
    end.
    discriminate.
Qed.

Lemma render_choropleth_some (df : frame) :
  (forall c, In c TS_COLUMNS -> In c (columns df)) ->
  (forall r, In r (rows df) -> chart_row r) ->
  render_choropleth df <> None.
Proof.
  intros Hcols Hrows. unfold render_choropleth.
  destruct (aggregate_for_map df) as [lg|] eqn:Ea.
  - destruct (frame_empty lg) eqn:Elg; [discriminate|].
    destruct (aggregate_for_map_groups _ _ Ea Elg) as [latest [groups [_ [_ ->]]]].
    cbn [columns]. cbv zeta.
    match goal with
    | |- context [if frame_empty ?k then _ else _] => destruct (frame_empty k); [discriminate|]
    end.
    cbn [columns]. discriminate.
  - exfalso. unfold aggregate_for_map in Ea.
    destruct (frame_empty df); [discriminate|].
    assert (Hd : has_column "date" (columns df) = true)
      by (apply has_column_spec, Hcols; simpl; auto).
    assert (Hs : has_column "state" (columns df) = true)
      by (apply has_column_spec, Hcols; simpl; auto).
    assert (Hh : has_column "hospitalization_rate" (columns df) = true)
      by (apply has_column_spec, Hcols; simpl; auto).
    rewrite Hd in Ea. cbv zeta in Ea.
    match type of Ea with
    | context [match ?m with [] => _ | _ :: _ => _ end] => destruct m as [|l0 ls] eqn:El
    end; [discriminate|].
    rewrite Hs, Hh in Ea. simpl andb in Ea.
    destruct (groupby_mean_some (get "state") value_same value_leb
                (fun v => negb (is_null v)) (l0 :: ls)) as [g Eg].
    + intros r Hr. rewrite <- El in Hr.
      destruct (max_value (map (get "date") (rows df))); [|destruct Hr].
      apply filter_In in Hr. apply (Hrows r). tauto.
    + rewrite Eg in Ea. discriminate.
Qed.

Lemma render_data_table_some (df : frame) :
  In "date" (columns df) ->
  (forall r, In r (rows df) -> exists d, get "date" r = VDate d) ->
  render_data_table df <> None.
Proof.
  intros Hd Hrows. unfold render_data_table.
  destruct (frame_empty df); [discriminate|].
  apply has_column_spec in Hd. rewrite Hd. cbv zeta.
  match goal with
  | |- context [if forallb ?f ?l || _ || _ then _ else _] =>
      replace (forallb f l) with true; [discriminate|]
  end.
  symmetry. apply forallb_forall. intros v Hv. apply filter_In in Hv.
  destruct Hv as [Hv _]. apply in_map_iff in Hv. destruct Hv as [r [<- Hr]].
  destruct (Hrows r Hr) as [d ->]. reflexivity.
Qed.

(** X9: on preprocessed data (state, date and rate columns, every row with
    a state label, a timestamp and a numeric rate) that has the four
    filter columns holding labels or missing values and whose [type]
    column, when present, holds labels, none of the data steps of [main]
    raises, for any date range and any selections keyed by filter columns:
    it shows the warning or all three sections. *)
Theorem main_app_succeeds (df : frame) (date_range : date * date) (sel : selections) :
  (forall c, In c TS_COLUMNS -> In c (columns df)) ->
  (forall r, In r (rows df) -> chart_row r) ->
  (forall c, In c FILTER_COLUMNS -> In c (columns df)) ->
  (forall c r, In c FILTER_COLUMNS -> In r (rows df) ->
     get c r = VNull \/ exists s, get c r = VStr s) ->
  (forall r, In r (rows df) -> exists s, get "type" r = VStr s) \/ ~ In "type" (columns df) ->
  (forall c vals, In (c, vals) sel -> In c FILTER_COLUMNS) ->
  main_app df date_range sel <> None.
Proof.
  intros Hcols Hrows Hfcols Hfcells Htype Hsel. unfold main_app.
  assert (Hd : In "date" (columns df)) by (apply Hcols; simpl; auto).
  pose proof (date_column_ok_chart _ Hrows) as Hdc.
  destruct (sidebar_options df date_range) eqn:Eso.
  2:{ exfalso. revert Eso. apply sidebar_options_some; assumption. }
  unfold main_view.
  destruct (apply_filters df date_range sel) as [ff|] eqn:Ef.
  2:{ exfalso. revert Ef. apply apply_filters_some; [exact Hd | exact Hdc |].
      intros c vals Hin _. apply Hfcols, (Hsel c vals Hin). }
  destruct (apply_filters_rows _ _ _ _ Ef) as [Hcf Hrf].
  destruct (frame_empty ff); [discriminate|].
  destruct (base_for_charts ff) as [base|] eqn:Eb.
  2:{ exfalso. revert Eb. apply base_for_charts_some.
      destruct Htype as [Ht|Ht]; [left | right; rewrite Hcf; exact Ht].
      intros r Hr. apply Ht, (proj1 (Hrf r Hr)). }
  destruct (base_for_charts_rows _ _ Eb) as [Hcb Hrb].
  assert (Hbc : forall c, In c TS_COLUMNS -> In c (columns base)).
  { intros c Hc. rewrite Hcb, Hcf. apply Hcols, Hc. }
  assert (Hbr : forall r, In r (rows base) -> chart_row r).
  { intros r Hr. apply Hrows, (proj1 (Hrf r (Hrb r Hr))). }
  destruct (restrict_some base sel) as [bt Hbt];
    [apply Hbc; simpl; auto | exact Hbr |].
  rewrite Hbt. destruct (restrict_rows_incl _ _ _ Hbt) as [Hct Hrt].
  destruct (aggregate_for_time_series_some bt) as [ts [Hts Hrts]].
  { intros c Hc. rewrite Hct. apply Hbc, Hc. }
  { intros r Hr. apply Hbr, Hrt, Hr. }
  rewrite Hts. destruct (render_time_series ts) as [trend|]; [|congruence].
  destruct (render_choropleth base) as [mv|] eqn:Em.
  2:{ exfalso. revert Em. apply render_choropleth_some; assumption. }
  destruct (render_data_table ff) as [tv|] eqn:Et; [discriminate|].
  exfalso. revert Et. apply render_data_table_some.
  - rewrite Hcf. exact Hd.
  - intros r Hr. destruct (Hrf r Hr) as [_ [[d [Ed _]] _]]. eauto.
Qed.

(** ** The year-month code of [preprocess] *)

Lemma zrange_In (lo x : Z) (n : nat) : In x (zrange lo n) <-> lo <= x < lo + Z.of_nat n.
Proof.
  revert lo. induction n as [|n IH]; intros lo; simpl.
  - split; [intros []|lia].
  - rewrite IH. split; intros H; lia.
Qed.

Lemma date_cell_eqb_eq (a b : value) : date_cell_eqb a b = true -> a = b.
Proof.
  destruct a, b; simpl; try discriminate; auto.
  intros H. apply date_eqb_spec in H. subst. reflexivity.
Qed.

Lemma ym_table :
  forallb (fun y => forallb (fun m => ym_ok y m) (zrange 1 12)) (zrange 1678 584) = true.
Proof. vm_compute. reflexivity. Qed.

(** X8: a row whose [_yearmonth] cell is the code [100 * y + m] of a month
    [m] of a year [y] between 1678 and 2261, read as an integer or as a
    float (e.g. 202201.0), gets the first day of that month as its date. *)
Theorem parse_date_row_yearmonth (r : row) (y m : Z) :
  1678 <= y <= 2261 -> 1 <= m <= 12 ->
  get "_yearmonth" r = VInt (100 * y + m) \/
  get "_yearmonth" r = VFloat (inject_Z (100 * y + m)) ->
  get "date" (parse_date_row r) = VDate (mkDate y m 1).
Proof.
  intros Hy Hm Hv. unfold parse_date_row. cbv zeta. rewrite get_set_same.
  assert (Hok : ym_ok y m = true).
  { pose proof ym_table as T. rewrite forallb_forall in T.
    specialize (T y (proj2 (zrange_In 1678 y 584) ltac:(simpl; lia))).
    rewrite forallb_forall in T. apply T, zrange_In. simpl. lia. }
  unfold ym_ok in Hok. apply andb_prop in Hok. destruct Hok as [H1 H2].
  destruct Hv as [E|E]; rewrite E; apply date_cell_eqb_eq; assumption.
Qed.

(** ** Witnesses of the further properties *)

Lemma render_choropleth_map_rows_witness :
  render_choropleth four_states_df = Some (ChoroplethMap four_states_map) /\
  In "state_code" (columns four_states_map) /\
  (forall o, In o (rows four_states_map) -> exists s code,
      get "state" o = VStr s /\ In (s, code) STATE_ABBR /\
      get "state_code" o = VStr code /\ s <> "COVID-NET") /\
  NoDup (map (get "state_code") (rows four_states_map)).
Proof.
  assert (H : render_choropleth four_states_df = Some (ChoroplethMap four_states_map))
    by (vm_compute; reflexivity).
  exact (conj H (render_choropleth_map_rows four_states_df four_states_map H)).
Defined.

Lemma render_data_table_newest_first_witness :
  frame_empty sample_df = false /\ In "date" (columns sample_df) /\
  (forall r, In r (rows sample_df) ->
     get "date" r = VNull \/ exists d, get "date" r = VDate d) /\
  exists t, render_data_table sample_df = Some (ChartPlot t) /\
    columns t = columns sample_df /\ Permutation (rows t) (rows sample_df) /\
    Sorted (fun a b => date_desc_leb a b = true) (rows t).
Proof.
  assert (H1 : frame_empty sample_df = false) by reflexivity.
  assert (H2 : In "date" (columns sample_df)) by (simpl; auto).
  assert (H3 : forall r, In r (rows sample_df) ->
                 get "date" r = VNull \/ exists d, get "date" r = VDate d).
  { intros r Hr. simpl in Hr.
    repeat (destruct Hr as [<- | Hr]; [right; eexists; reflexivity|]). destruct Hr. }
  exact (conj H1 (conj H2 (conj H3
    (proj2 (render_data_table_newest_first sample_df) H1 H2 H3)))).
Defined.

Lemma sidebar_options_spec_witness :
  In "date" (columns dashboard_df) /\
  (forall r, In r (rows dashboard_df) ->
     get "date" r = VNull \/ exists d, get "date" r = VDate d) /\
  (forall c, In c FILTER_COLUMNS -> In c (columns dashboard_df)) /\
  (forall c r, In c FILTER_COLUMNS -> In r (rows dashboard_df) ->
     in_date_range (fst dashboard_range) (snd dashboard_range) (get "date" r) = true ->
     get c r = VNull \/ exists s, get c r = VStr s) /\
  exists opts, sidebar_options dashboard_df dashboard_range = Some opts /\
    map fst opts = FILTER_COLUMNS /\
    forall c vs, In (c, vs) opts -> exists L, vs = map VStr L /\
      StronglySorted (fun a b => String.ltb a b = true) L /\
      forall s, In s L <-> exists r, In r (rows dashboard_df) /\
        in_date_range (fst dashboard_range) (snd dashboard_range) (get "date" r) = true /\
        get c r = VStr s.
Proof.
  assert (H1 : In "date" (columns dashboard_df)) by (simpl; auto).
  assert (H1' : forall r, In r (rows dashboard_df) ->
                  get "date" r = VNull \/ exists d, get "date" r = VDate d).
  { intros r Hr. simpl in Hr.
    repeat (destruct Hr as [<- | Hr]; [right; eexists; reflexivity|]). destruct Hr. }
  assert (H2 : forall c, In c FILTER_COLUMNS -> In c (columns dashboard_df)).
  { intros c Hc. simpl in Hc.
    repeat (destruct Hc as [<- | Hc]; [simpl; auto 10|]). destruct Hc. }
  assert (H3 : forall c r, In c FILTER_COLUMNS -> In r (rows dashboard_df) ->
     in_date_range (fst dashboard_range) (snd dashboard_range) (get "date" r) = true ->
     get c r = VNull \/ exists s, get c r = VStr s).
  { intros c r Hc Hr _. simpl in Hc, Hr.
    repeat (destruct Hc as [<- | Hc];
            [repeat (destruct Hr as [<- | Hr]; [right; eexists; reflexivity|]); destruct Hr|]).
    destruct Hc. }
  exact (conj H1 (conj H1' (conj H2 (conj H3
    (sidebar_options_spec dashboard_df dashboard_range H1 H1' H2 H3))))).
Defined.

Lemma sidebar_option_selectable_witness :
  sidebar_options dashboard_df dashboard_range = Some dashboard_options /\
  In ("sex_label", [VStr "All"; VStr "Female"]) dashboard_options /\
  In (VStr "Female") [VStr "All"; VStr "Female"] /\
  exists out, apply_filters dashboard_df dashboard_range [("sex_label", ["Female"])] = Some out
              /\ rows out <> [].
Proof.
  assert (H1 : sidebar_options dashboard_df dashboard_range = Some dashboard_options)
    by (vm_compute; reflexivity).
  assert (H2 : In ("sex_label", [VStr "All"; VStr "Female"]) dashboard_options)
    by (vm_compute; auto).
  assert (H3 : In (VStr "Female") [VStr "All"; VStr "Female"]) by (simpl; auto).
  exact (conj H1 (conj H2 (conj H3
    (sidebar_option_selectable dashboard_df dashboard_range dashboard_options
       "sex_label" "Female" [VStr "All"; VStr "Female"] H1 H2 H3)))).
Defined.

Lemma main_trend_points_witness :
  main_view dashboard_df dashboard_range no_selection =
    Some (Dashboard (ChartPlot dashboard_trend) dashboard_map_view dashboard_table) /\
  forall o, In o (rows dashboard_trend) -> exists r, In r (rows dashboard_df) /\
    get "state" o = get "state" r /\ get "date" o = get "date" r /\
    (exists d, get "date" r = VDate d /\ date_leb (fst dashboard_range) d = true
               /\ date_leb d (snd dashboard_range) = true) /\
    (forall c vals, In (c, vals) no_selection -> vals <> [] ->
                    exists s, In s vals /\ get c r = VStr s).
Proof.
  assert (H : main_view dashboard_df dashboard_range no_selection =
    Some (Dashboard (ChartPlot dashboard_trend) dashboard_map_view dashboard_table))
    by (vm_compute; reflexivity).
  exact (conj H (main_trend_points _ _ _ _ _ _ H)).
Defined.

Lemma main_trend_prefers_canonical_witness :
  main_view dashboard_df dashboard_range no_selection =
    Some (Dashboard (ChartPlot dashboard_trend) dashboard_map_view dashboard_table) /\
  apply_filters dashboard_df dashboard_range no_selection = Some dashboard_df /\
  (forall c, In c CANONICAL_COLUMNS -> In c (columns dashboard_df)) /\
  (exists r, In r (rows dashboard_df) /\ canonical_row r = true) /\
  forall o, In o (rows dashboard_trend) -> exists r, In r (rows dashboard_df) /\
    canonical_row r = true /\
    get "state" o = get "state" r /\ get "date" o = get "date" r.
Proof.
  assert (H1 : main_view dashboard_df dashboard_range no_selection =
    Some (Dashboard (ChartPlot dashboard_trend) dashboard_map_view dashboard_table))
    by (vm_compute; reflexivity).
  assert (H2 : apply_filters dashboard_df dashboard_range no_selection = Some dashboard_df)
    by (vm_compute; reflexivity).
  assert (H3 : forall c, In c CANONICAL_COLUMNS -> In c (columns dashboard_df)).
  { intros c Hc. simpl in Hc.
    repeat (destruct Hc as [<- | Hc]; [simpl; auto 10|]). destruct Hc. }
  assert (H4 : exists r, In r (rows dashboard_df) /\ canonical_row r = true).
  { eexists. split; [simpl; left; reflexivity | reflexivity]. }
  exact (conj H1 (conj H2 (conj H3 (conj H4
    (main_trend_prefers_canonical _ _ _ _ _ _ _ H1 H2 H3 H4))))).
Defined.

Lemma main_trend_default_states_witness :
  main_view dashboard_df dashboard_range no_selection =
    Some (Dashboard (ChartPlot dashboard_trend) dashboard_map_view dashboard_table) /\
  sel_get "state" no_selection = [] /\
  exists ch, (length ch <= 3)%nat /\
    forall o, In o (rows dashboard_trend) -> isin (get "state" o) ch = true.
Proof.
  assert (H1 : main_view dashboard_df dashboard_range no_selection =
    Some (Dashboard (ChartPlot dashboard_trend) dashboard_map_view dashboard_table))
    by (vm_compute; reflexivity).
  assert (H2 : sel_get "state" no_selection = []) by reflexivity.
  exact (conj H1 (conj H2 (main_trend_default_states _ _ _ _ _ _ H1 H2))).
Defined.

Lemma parse_date_row_yearmonth_witness :
  get "date" (parse_date_row [("_yearmonth", VFloat (inject_Z 202201))]) =
    VDate (mkDate 2022 1 1).
Proof.
  refine (parse_date_row_yearmonth [("_yearmonth", VFloat (inject_Z 202201))] 2022 1
            _ _ _); [lia | lia | right; reflexivity].
Defined.

Lemma main_app_succeeds_witness :
  (forall c, In c TS_COLUMNS -> In c (columns dashboard_df)) /\
  (forall r, In r (rows dashboard_df) -> chart_row r) /\
  (forall c, In c FILTER_COLUMNS -> In c (columns dashboard_df)) /\
  (forall c r, In c FILTER_COLUMNS -> In r (rows dashboard_df) ->
     get c r = VNull \/ exists s, get c r = VStr s) /\
  ((forall r, In r (rows dashboard_df) -> exists s, get "type" r = VStr s) \/
   ~ In "type" (columns dashboard_df)) /\
  (forall c vals, In (c, vals) [("state", ["Ohio"]); ("sex_label", [])] ->
     In c FILTER_COLUMNS) /\
  main_app dashboard_df dashboard_range [("state", ["Ohio"]); ("sex_label", [])] <> None.
Proof.
  assert (H1 : forall c, In c TS_COLUMNS -> In c (columns dashboard_df)).
  { intros c Hc. simpl in Hc.
    repeat (destruct Hc as [<- | Hc]; [simpl; auto 10|]). destruct Hc. }
  assert (H2 : forall r, In r (rows dashboard_df) -> chart_row r).
  { intros r Hr. simpl in Hr.
    repeat (destruct Hr as [<- | Hr];
            [split; [eexists; reflexivity | split; [eexists; reflexivity | reflexivity]]|]).
    destruct Hr. }
  assert (H3 : forall c, In c FILTER_COLUMNS -> In c (columns dashboard_df)).
  { intros c Hc. simpl in Hc.
    repeat (destruct Hc as [<- | Hc]; [simpl; auto 10|]). destruct Hc. }
  assert (H4 : forall c r, In c FILTER_COLUMNS -> In r (rows dashboard_df) ->
                 get c r = VNull \/ exists s, get c r = VStr s).
  { intros c r Hc Hr. simpl in Hc, Hr.
    repeat (destruct Hc as [<- | Hc];
            [repeat (destruct Hr as [<- | Hr]; [right; eexists; reflexivity|]); destruct Hr|]).
    destruct Hc. }
  assert (H5 : (forall r, In r (rows dashboard_df) -> exists s, get "type" r = VStr s) \/
               ~ In "type" (columns dashboard_df)).
  { left. intros r Hr. simpl in Hr.
    repeat (destruct Hr as [<- | Hr]; [eexists; reflexivity|]). destruct Hr. }
  assert (H6 : forall c vals, In (c, vals) [("state", ["Ohio"]); ("sex_label", [])] ->
                 In c FILTER_COLUMNS).
  { intros c vals Hin. simpl in Hin.
    destruct Hin as [E | [E | []]]; injection E as <- _; simpl; auto. }
  exact (conj H1 (conj H2 (conj H3 (conj H4 (conj H5 (conj H6
    (main_app_succeeds _ dashboard_range _ H1 H2 H3 H4 H5 H6))))))).
Defined.
